(** * A no-cache static file server: [server.py]

    The program is seven lines of Python:
<<
    class NoCacheHandler(SimpleHTTPRequestHandler):
        def end_headers(self):
            self.send_header("Cache-Control", "no-cache, no-store, must-revalidate")
            super().end_headers()

    HTTPServer(("0.0.0.0", 5000), NoCacheHandler).serve_forever()
>>
    Everything it does besides adding one header is inherited from
    [http.server] and [socketserver] (CPython 3.11).  The development
    embeds the override and the inherited methods it is dispatched from
    as functions over an explicit handler state, in a small state and
    exception monad, and proves the properties of the served responses. *)

From Stdlib Require Import String Ascii List ZArith Bool DecimalString.
Import ListNotations.

Local Open Scope string_scope.
Local Open Scope Z_scope.

(** ** Python string primitives

    Request lines are decoded with [iso-8859-1], so a Python [str] in this
    program is a sequence of code points below 256: a Rocq [string]. *)

Module Py.

(** [c.isspace()] for a Latin-1 code point. *)
Definition isspace (c : ascii) : bool :=
  let n := N_of_ascii c in
  ((9 <=? n) && (n <=? 13) || (28 <=? n) && (n <=? 32)
   || (n =? 133) || (n =? 160))%N.

Definition is_empty (s : string) : bool :=
  match s with EmptyString => true | String _ _ => false end.

Definition snoc (s : string) (c : ascii) : string := s ++ String c "".

(** [s.split()]: maximal runs of non-space characters. *)
Fixpoint split_ws_from (cur s : string) : list string :=
  match s with
  | EmptyString => if is_empty cur then [] else [cur]
  | String c s' =>
      if isspace c
      then (if is_empty cur then split_ws_from "" s'
            else cur :: split_ws_from "" s')
      else split_ws_from (snoc cur c) s'
  end.
Definition split (s : string) : list string := split_ws_from "" s.

(** [s.split(sep)] for a one-character separator: empty fields are kept. *)
Fixpoint split_on_from (sep : ascii) (cur s : string) : list string :=
  match s with
  | EmptyString => [cur]
  | String c s' =>
      if Ascii.eqb c sep then cur :: split_on_from sep "" s'
      else split_on_from sep (snoc cur c) s'
  end.
Definition split_on (sep : ascii) (s : string) : list string :=
  split_on_from sep "" s.

(** [s.split(sep, 1)[0]]: the text before the first [sep]. *)
Fixpoint before (sep : ascii) (s : string) : string :=
  match s with
  | EmptyString => ""
  | String c s' => if Ascii.eqb c sep then "" else String c (before sep s')
  end.

(** [s.split(sep, 1)[1]]: the text after the first [sep]; [None]
    stands for the [IndexError] raised when there is no [sep]. *)
Fixpoint after (sep : ascii) (s : string) : option string :=
  match s with
  | EmptyString => None
  | String c s' => if Ascii.eqb c sep then Some s' else after sep s'
  end.

(** [s.rstrip(chars)], with the stripped set given as a predicate. *)
Fixpoint rstrip (p : ascii -> bool) (s : string) : string :=
  match s with
  | EmptyString => ""
  | String c s' =>
      match rstrip p s' with
      | EmptyString => if p c then "" else String c ""
      | r => String c r
      end
  end.

Fixpoint lstrip (p : ascii -> bool) (s : string) : string :=
  match s with
  | EmptyString => ""
  | String c s' => if p c then lstrip p s' else s
  end.

Definition is_crlf (c : ascii) : bool :=
  Ascii.eqb c "013" || Ascii.eqb c "010".
Definition is_slash (c : ascii) : bool := Ascii.eqb c "/".

Definition startswith (s pre : string) : bool := String.prefix pre s.

Definition endswith (s suf : string) : bool :=
  let n := String.length s in
  let m := String.length suf in
  (m <=? n)%nat && String.eqb (String.substring (n - m) m s) suf.

Fixpoint contains (c : ascii) (s : string) : bool :=
  match s with
  | EmptyString => false
  | String d s' => Ascii.eqb c d || contains c s'
  end.

(** [c.lower()] on Latin-1: [A-Z] and the accented capitals. *)
Definition lower_char (c : ascii) : ascii :=
  let n := N_of_ascii c in
  if ((65 <=? n) && (n <=? 90)
      || (192 <=? n) && (n <=? 222) && negb (n =? 215))%N
  then ascii_of_N (n + 32) else c.

Fixpoint lower (s : string) : string :=
  match s with
  | EmptyString => ""
  | String c s' => String (lower_char c) (lower s')
  end.

(** [str(n)] and ["%d" % n]. *)
Definition str (n : Z) : string := NilZero.string_of_int (Z.to_int n).

Definition len (s : string) : Z := Z.of_nat (String.length s).

(** [s.encode('UTF-8', 'replace')] on Latin-1 text: code points from
    128 up take two bytes. *)
Fixpoint utf8 (s : string) : string :=
  match s with
  | EmptyString => ""
  | String c s' =>
      let n := N_of_ascii c in
      if (n <? 128)%N then String c (utf8 s')
      else String (ascii_of_N (192 + n / 64))
             (String (ascii_of_N (128 + n mod 64)) (utf8 s'))
  end.

(** [html.escape(s, quote=False)]. *)
Fixpoint html_escape (s : string) : string :=
  match s with
  | EmptyString => ""
  | String c s' =>
      (if Ascii.eqb c "&" then "&amp;"
       else if Ascii.eqb c "<" then "&lt;"
       else if Ascii.eqb c ">" then "&gt;"
       else String c "") ++ html_escape s'
  end.

(** [a >= b] on pairs of integers (tuple comparison). *)
Definition pair_geb (a b : Z * Z) : bool :=
  (fst b <? fst a) || ((fst a =? fst b) && (snd b <=? snd a)).

(** [a >= b] on strings (code point order). *)
Definition str_geb (a b : string) : bool := String.leb b a.

(** [posixpath.join(a, b)]. *)
Definition path_join (a b : string) : string :=
  if startswith b "/" then b
  else if is_empty a || endswith a "/" then a ++ b
  else a ++ "/" ++ b.

End Py.

(** ** The world outside the handler

    Library and operating-system functions the handler calls.  They are not
    part of the program; the handler is embedded over any implementation of
    them.  A [file] is what [open(path, 'rb')] and [os.fstat] give. *)

Record file := mkFile {
  contents : string;        (* the bytes read until end of file *)
  st_size : Z;              (* the size [os.fstat] reports: [fs[6]] *)
  st_mtime : Z              (* last modification, whole seconds since the
                               epoch, within the range of [datetime] *)
}.

(** What [open(path, 'rb')] does.  [send_head] catches [OSError] (no such
    file, a directory, no permission); a path with a NUL byte raises
    [ValueError] and a path with a lone surrogate [UnicodeEncodeError],
    which it does not catch. *)
Inductive opened :=
| Opened (f : file)
| OpenOSError
| OpenValueError
| OpenUnicodeEncodeError.

(** The five parts [urllib.parse.urlsplit] returns. *)
Record split_result := mkSplit {
  scheme : string;
  netloc : string;
  url_path : string;
  query : string;
  fragment : string
}.

(** The [tzinfo] of the datetime parsed from [If-Modified-Since]. *)
Inductive tzinfo := TzNone | TzUTC | TzOther.

Record World := mkWorld {
  (* the interpreter *)
  sys_version : string;                       (* "Python/" + version *)
  py_int : string -> option Z;                (* int(s); None: ValueError *)
  py_repr : string -> string;                 (* "%r" % s *)
  getfilesystemencoding : string;
  (* the clock and the date functions of [email.utils] *)
  time_time : Z;
  formatdate : Z -> string;
  parsedate_to_datetime : string -> option (Z * tzinfo);
  (* the file system *)
  isdir : string -> bool;
  isfile : string -> bool;
  open_rb : string -> opened;
  listdir : string -> option (list string);   (* None: OSError *)
  (* urllib.parse, posixpath, mimetypes *)
  unquote : string -> string;
  normpath : string -> string;
  urlsplit : string -> option split_result;   (* None: ValueError *)
  urlunsplit : split_result -> string;
  mimetypes_guess : string -> string;         (* guess_type(path) *)
  listing_html : string -> string -> list string -> option string
                          (* the directory page, encoded in the file system
                             encoding; None: UnicodeEncodeError *)
}.

(** ** Requests and connections *)

(** The outcome of [http.client.parse_headers] on the lines that follow
    the request line. *)
Inductive header_parse :=
| Headers (hs : list (string * string))
| LineTooLong (err : string)
| TooManyHeaders (err : string).

(** One request as it stands in [rfile]: the line [readline(65537)]
    returns, and the header lines behind it. *)
Record request := mkRequest {
  raw_requestline : string;
  raw_headers : header_parse
}.

(** What [wfile.write] was called with.  [flush_headers] writes
    [b"".join(self._headers_buffer)] in one call; the lines joined are
    kept apart here, [chunk_bytes] joins them. *)
Inductive chunk :=
| HeaderBlock (lines : list string)
| Body (data : string).

Definition chunk_bytes (c : chunk) : string :=
  match c with
  | HeaderBlock ls => String.concat "" ls
  | Body d => d
  end.

(** The bytes the client receives. *)
Definition wire (w : list chunk) : string :=
  String.concat "" (map chunk_bytes w).

Inductive exn :=
| AttributeError
| TypeError
| ValueError
| UnicodeEncodeError
| BrokenPipeError
| ConnectionResetError
| TimeoutError.

(** Lines [log_message] prints on [sys.stderr]. *)
Inductive log_entry :=
| LogRequest (requestline : string) (code : Z)
| LogError (code : Z) (message : string)
| LogTimeout (e : exn).

(** ** The handler object

    The instance attributes the methods read and write.  [_headers_buffer]
    is tested with [hasattr]: [None] is the attribute being absent.
    [request_version] is absent, [None] here, until [parse_request] or
    [handle_one_request] assigns it; reading it then raises
    [AttributeError].  [command] holds Python's [None] from the start of
    [parse_request] until a request line is accepted.  [requestline],
    [command], [path] and [headers] are read by [send_error],
    [log_request] and [send_head] only, all of which run after
    [parse_request] or [handle_one_request] assigned them, and
    [close_connection] is assigned by [handle] first: for these the
    record holds a value throughout.  [wfile] records the writes made
    on the socket; [wfile_fault] is the state of the peer: [Some e] when
    [sendall] raises [e]. *)

Record handler := mkHandler {
  directory : string;
  requestline : string;
  request_version : option string;
  command : option string;
  path : string;
  headers : list (string * string);
  close_connection : bool;
  _headers_buffer : option (list string);
  wfile : list chunk;
  wfile_fault : option exn;
  stderr : list log_entry
}.

Definition set_requestline (v : string) (h : handler) : handler :=
  mkHandler (directory h) v (request_version h) (command h) (path h)
    (headers h) (close_connection h) (_headers_buffer h) (wfile h)
    (wfile_fault h) (stderr h).
Definition set_request_version (v : string) (h : handler) : handler :=
  mkHandler (directory h) (requestline h) (Some v) (command h) (path h)
    (headers h) (close_connection h) (_headers_buffer h) (wfile h)
    (wfile_fault h) (stderr h).
Definition set_command (v : option string) (h : handler) : handler :=
  mkHandler (directory h) (requestline h) (request_version h) v (path h)
    (headers h) (close_connection h) (_headers_buffer h) (wfile h)
    (wfile_fault h) (stderr h).
Definition set_path (v : string) (h : handler) : handler :=
  mkHandler (directory h) (requestline h) (request_version h) (command h) v
    (headers h) (close_connection h) (_headers_buffer h) (wfile h)
    (wfile_fault h) (stderr h).
Definition set_headers (v : list (string * string)) (h : handler) : handler :=
  mkHandler (directory h) (requestline h) (request_version h) (command h)
    (path h) v (close_connection h) (_headers_buffer h) (wfile h)
    (wfile_fault h) (stderr h).
Definition set_close_connection (v : bool) (h : handler) : handler :=
  mkHandler (directory h) (requestline h) (request_version h) (command h)
    (path h) (headers h) v (_headers_buffer h) (wfile h)
    (wfile_fault h) (stderr h).
Definition set_headers_buffer (v : option (list string)) (h : handler)
  : handler :=
  mkHandler (directory h) (requestline h) (request_version h) (command h)
    (path h) (headers h) (close_connection h) v (wfile h)
    (wfile_fault h) (stderr h).
Definition set_wfile (v : list chunk) (h : handler) : handler :=
  mkHandler (directory h) (requestline h) (request_version h) (command h)
    (path h) (headers h) (close_connection h) (_headers_buffer h) v
    (wfile_fault h) (stderr h).
Definition set_stderr (v : list log_entry) (h : handler) : handler :=
  mkHandler (directory h) (requestline h) (request_version h) (command h)
    (path h) (headers h) (close_connection h) (_headers_buffer h) (wfile h)
    (wfile_fault h) v.

(** ** A state and exception monad for methods *)

Inductive result (A : Type) :=
| Ok (a : A) (h : handler)
| Raise (e : exn) (h : handler).
Arguments Ok {A} a h.
Arguments Raise {A} e h.

Definition M (A : Type) : Type := handler -> result A.

Definition ret {A} (a : A) : M A := fun h => Ok a h.

Definition bind {A B} (m : M A) (k : A -> M B) : M B :=
  fun h => match m h with
           | Ok a h' => k a h'
           | Raise e h' => Raise e h'
           end.

Definition raise {A} (e : exn) : M A := fun h => Raise e h.
Definition gets {A} (f : handler -> A) : M A := fun h => Ok (f h) h.
Definition modify (f : handler -> handler) : M unit := fun h => Ok tt (f h).

(** [try: m  except e: k e] for the exceptions [catches] selects. *)
Definition try_except {A} (m : M A) (catches : exn -> bool)
  (k : exn -> M A) : M A :=
  fun h => match m h with
           | Ok a h' => Ok a h'
           | Raise e h' => if catches e then k e h' else Raise e h'
           end.

Declare Scope py_scope.
Delimit Scope py_scope with py.
Notation "x <- m ;; k" := (bind m (fun x => k))
  (at level 100, m at next level, right associativity) : py_scope.
Notation "m ;; k" := (bind m (fun _ => k))
  (at level 100, right associativity) : py_scope.
Notation "'when' b 'then' m" := (if b then m else ret tt)
  (at level 100, b at next level) : py_scope.
Local Open Scope py_scope.

(** The state a method leaves, however it ends. *)
Definition final {A} (r : result A) : handler :=
  match r with Ok _ h => h | Raise _ h => h end.

Definition raised {A} (r : result A) : option exn :=
  match r with Ok _ _ => None | Raise e _ => Some e end.

(** ** [http.server.BaseHTTPRequestHandler]: the header buffer *)

Definition crlf : string := String "013" (String "010" "").
Definition nl : string := String "010" "".
Definition dq : string := String "034" "".

Definition protocol_version : string := "HTTP/1.0".
Definition default_request_version : string := "HTTP/0.9".
Definition server_version : string := "SimpleHTTP/0.6".
Definition error_content_type : string := "text/html;charset=utf-8".

(** [self.responses]: phrase and description of an [HTTPStatus]; the
    entries of the codes this program sends. *)
Definition responses_table : list (Z * (string * string)) :=
  [ (100, ("Continue", "Request received, please continue"));
    (200, ("OK", "Request fulfilled, document follows"));
    (301, ("Moved Permanently", "Object moved permanently -- see URI list"));
    (304, ("Not Modified", "Document has not changed since given time"));
    (400, ("Bad Request", "Bad request syntax or unsupported method"));
    (404, ("Not Found", "Nothing matches the given URI"));
    (414, ("Request-URI Too Long", "URI is too long"));
    (431, ("Request Header Fields Too Large",
           "The server is unwilling to process the request because its header fields are too large"));
    (501, ("Not Implemented", "Server does not support this operation"));
    (505, ("HTTP Version Not Supported", "Cannot fulfill request")) ].

Fixpoint assoc {A} (k : Z) (l : list (Z * A)) : option A :=
  match l with
  | [] => None
  | (k', v) :: l' => if k =? k' then Some v else assoc k l'
  end.

Definition responses (code : Z) : option (string * string) :=
  assoc code responses_table.

(** [self.wfile.write(b)] on the unbuffered socket writer: [sendall]
    raises when the peer is gone. *)
Definition wfile_write (c : chunk) : M unit :=
  fun h => match wfile_fault h with
           | Some e => Raise e h
           | None => Ok tt (set_wfile (wfile h ++ [c])%list h)
           end.

(** [if not hasattr(self, '_headers_buffer'): self._headers_buffer = []] *)
Definition ensure_headers_buffer : M unit :=
  fun h => match _headers_buffer h with
           | None => Ok tt (set_headers_buffer (Some []) h)
           | Some _ => Ok tt h
           end.

(** [self._headers_buffer.append(line)] *)
Definition headers_buffer_append (line : string) : M unit :=
  fun h => match _headers_buffer h with
           | None => Raise AttributeError h
           | Some b => Ok tt (set_headers_buffer (Some (b ++ [line])%list) h)
           end.

(** [self.request_version]: [AttributeError] while the attribute is not
    assigned. *)
Definition get_request_version : M string :=
  fun h => match request_version h with
           | Some v => Ok v h
           | None => Raise AttributeError h
           end.

Definition status_line (code : Z) (message : string) : string :=
  protocol_version ++ " " ++ Py.str code ++ " " ++ message ++ crlf.

Definition header_line (keyword value : string) : string :=
  keyword ++ ": " ++ value ++ crlf.

Definition send_response_only (code : Z) (message : option string) : M unit :=
  v <- get_request_version;;
  when negb (String.eqb v "HTTP/0.9") then
    (let message :=
       match message with
       | Some m => m
       | None => match responses code with
                 | Some (phrase, _) => phrase
                 | None => ""
                 end
       end in
     ensure_headers_buffer;;
     headers_buffer_append (status_line code message)).

Definition send_header (keyword value : string) : M unit :=
  v <- get_request_version;;
  (when negb (String.eqb v "HTTP/0.9") then
     (ensure_headers_buffer;;
      headers_buffer_append (header_line keyword value)));;
  if String.eqb (Py.lower keyword) "connection" then
    if String.eqb (Py.lower value) "close"
    then modify (set_close_connection true)
    else if String.eqb (Py.lower value) "keep-alive"
    then modify (set_close_connection false)
    else ret tt
  else ret tt.

Definition flush_headers : M unit :=
  buf <- gets _headers_buffer;;
  match buf with
  | Some b =>
      wfile_write (HeaderBlock b);;
      modify (set_headers_buffer (Some []))
  | None => ret tt
  end.

(** [BaseHTTPRequestHandler.end_headers], what [super().end_headers()]
    runs. *)
Definition super_end_headers : M unit :=
  v <- get_request_version;;
  when negb (String.eqb v "HTTP/0.9") then
    (headers_buffer_append crlf;;
     flush_headers).

(** ** [server.py]: the override *)

Definition cache_control : string := "no-cache, no-store, must-revalidate".

Definition NoCacheHandler_end_headers : M unit :=
  send_header "Cache-Control" cache_control;;
  super_end_headers.

(** The class of the handler object decides which [end_headers] a call of
    [self.end_headers()] in an inherited method reaches. *)
Inductive handler_class := SimpleHTTPRequestHandler | NoCacheHandler.

Definition end_headers (cls : handler_class) : M unit :=
  match cls with
  | SimpleHTTPRequestHandler => super_end_headers
  | NoCacheHandler => NoCacheHandler_end_headers
  end.

(** ** The inherited methods, over a world [W] and the handler's class *)

Section Handler.

Variable W : World.
Variable cls : handler_class.

Definition version_string : string := server_version ++ " " ++ sys_version W.

(** [date_time_string(timestamp)]; without an argument the clock is read. *)
Definition date_time_string (timestamp : option Z) : string :=
  formatdate W (match timestamp with Some t => t | None => time_time W end).

Definition log_message (e : log_entry) : M unit :=
  modify (fun h => set_stderr (stderr h ++ [e])%list h).

Definition log_request (code : Z) : M unit :=
  l <- gets requestline;;
  log_message (LogRequest l code).

Definition log_error (e : log_entry) : M unit := log_message e.

Definition send_response (code : Z) (message : option string) : M unit :=
  log_request code;;
  send_response_only code message;;
  send_header "Server" version_string;;
  send_header "Date" (date_time_string None).

(** [DEFAULT_ERROR_MESSAGE % {'code': ..., 'message': ..., 'explain': ...}] *)
Definition error_message_format (code : Z) (message explain : string)
  : string :=
  "<!DOCTYPE HTML>" ++ nl ++
  "<html lang=" ++ dq ++ "en" ++ dq ++ ">" ++ nl ++
  "    <head>" ++ nl ++
  "        <meta charset=" ++ dq ++ "utf-8" ++ dq ++ ">" ++ nl ++
  "        <title>Error response</title>" ++ nl ++
  "    </head>" ++ nl ++
  "    <body>" ++ nl ++
  "        <h1>Error response</h1>" ++ nl ++
  "        <p>Error code: " ++ Py.str code ++ "</p>" ++ nl ++
  "        <p>Message: " ++ message ++ ".</p>" ++ nl ++
  "        <p>Error code explanation: " ++ Py.str code ++ " - " ++ explain
    ++ ".</p>" ++ nl ++
  "    </body>" ++ nl ++
  "</html>" ++ nl.

Definition is_HEAD (c : option string) : bool :=
  match c with Some s => String.eqb s "HEAD" | None => false end.

Definition send_error (code : Z) (message explain : option string)
  : M unit :=
  let (shortmsg, longmsg) :=
    match responses code with Some p => p | None => ("???", "???") end in
  let message := match message with Some m => m | None => shortmsg end in
  let explain := match explain with Some e => e | None => longmsg end in
  log_error (LogError code message);;
  send_response code (Some message);;
  send_header "Connection" "close";;
  let with_body :=
    (200 <=? code) && negb ((code =? 204) || (code =? 205) || (code =? 304)) in
  let body :=
    Py.utf8 (error_message_format code (Py.html_escape message)
               (Py.html_escape explain)) in
  (when with_body then
     (send_header "Content-Type" error_content_type;;
      send_header "Content-Length" (Py.str (Py.len body))));;
  end_headers cls;;
  c <- gets command;;
  when negb (is_HEAD c) && with_body && negb (Py.is_empty body) then
    wfile_write (Body body).

(** *** [SimpleHTTPRequestHandler] *)

(** [guess_type]: the extension map, then [mimetypes]. *)
Definition guess_type (p : string) : string := mimetypes_guess W p.

(** One step of the loop of [translate_path]; [os.path.dirname(word)] is
    non-empty exactly when [word] holds a slash. *)
Definition translate_step (p word : string) : string :=
  if Py.contains "/" word || String.eqb word "." || String.eqb word ".."
  then p
  else Py.path_join p word.

Definition translate_path (dir p : string) : string :=
  let p := Py.before "?" p in
  let p := Py.before "#" p in
  let trailing_slash := Py.endswith (Py.rstrip Py.isspace p) "/" in
  let p := unquote W p in
  let p := normpath W p in
  let words := filter (fun w => negb (Py.is_empty w)) (Py.split_on "/" p) in
  let p := fold_left translate_step words dir in
  if trailing_slash then p ++ "/" else p.

(** [name in self.headers] and [self.headers.get(name, failobj)]: the
    first field whose name matches without regard to case. *)
Fixpoint headers_find (name : string) (hs : list (string * string))
  : option string :=
  match hs with
  | [] => None
  | (k, v) :: hs' =>
      if String.eqb (Py.lower k) (Py.lower name) then Some v
      else headers_find name hs'
  end.

Definition headers_get (name failobj : string) (hs : list (string * string))
  : string :=
  match headers_find name hs with Some v => v | None => failobj end.

Definition headers_contains (name : string) (hs : list (string * string))
  : bool :=
  match headers_find name hs with Some _ => true | None => false end.

(** The test of [send_head] that answers [304]: an [If-Modified-Since]
    without [If-None-Match] that parses to a UTC (or zone-less) time not
    before the file's modification time. *)
Definition not_modified (f : file) (hs : list (string * string)) : bool :=
  if headers_contains "If-Modified-Since" hs
     && negb (headers_contains "If-None-Match" hs)
  then match parsedate_to_datetime W (headers_get "If-Modified-Since" "" hs) with
       | None => false
       | Some (ims, TzOther) => false
       | Some (ims, _) => st_mtime f <=? ims
       end
  else false.

(** [list_directory]; the value returned stands for the [BytesIO] holding
    the page.  The page is built and encoded before anything is sent;
    the [encode] raises [UnicodeEncodeError] when the page holds a
    character the file system encoding has no bytes for. *)
Definition list_directory (fspath : string) : M (option string) :=
  match listdir W fspath with
  | None =>
      send_error 404 (Some "No permission to list directory") None;;
      ret None
  | Some names =>
      p <- gets path;;
      match listing_html W fspath p names with
      | None => raise UnicodeEncodeError
      | Some encoded =>
          send_response 200 None;;
          send_header "Content-type"
            ("text/html; charset=" ++ getfilesystemencoding W);;
          send_header "Content-Length" (Py.str (Py.len encoded));;
          end_headers cls;;
          ret (Some encoded)
      end
  end.

(** The part of [send_head] from [ctype = self.guess_type(path)] on.
    [except OSError] answers 404; another exception of [open] leaves the
    method.  [Content-Length] is [str(fs[6])], the size [os.fstat]
    reports. *)
Definition send_head_file (fspath : string) : M (option string) :=
  let ctype := guess_type fspath in
  if Py.endswith fspath "/" then
    send_error 404 (Some "File not found") None;;
    ret None
  else
    match open_rb W fspath with
    | OpenOSError =>
        send_error 404 (Some "File not found") None;;
        ret None
    | OpenValueError => raise ValueError
    | OpenUnicodeEncodeError => raise UnicodeEncodeError
    | Opened f =>
        hs <- gets headers;;
        if not_modified f hs then
          send_response 304 None;;
          end_headers cls;;
          ret None
        else
          send_response 200 None;;
          send_header "Content-type" ctype;;
          send_header "Content-Length" (Py.str (st_size f));;
          send_header "Last-Modified" (date_time_string (Some (st_mtime f)));;
          end_headers cls;;
          ret (Some (contents f))
    end.

(** [for index in "index.html", "index.htm": ...] *)
Definition find_index (fspath : string) : option string :=
  if isfile W (Py.path_join fspath "index.html")
  then Some (Py.path_join fspath "index.html")
  else if isfile W (Py.path_join fspath "index.htm")
  then Some (Py.path_join fspath "index.htm")
  else None.

(** [new_parts = (parts[0], parts[1], parts[2] + '/', parts[3], parts[4])] *)
Definition with_slash (parts : split_result) : split_result :=
  mkSplit (scheme parts) (netloc parts) (url_path parts ++ "/") (query parts)
    (fragment parts).

(** [send_head]: the value returned is the content of the file object,
    [None] when there is nothing to copy.  For a directory
    [urllib.parse.urlsplit(self.path)] comes first; its [ValueError] is
    not caught. *)
Definition send_head : M (option string) :=
  p <- gets path;;
  dir <- gets directory;;
  let fspath := translate_path dir p in
  if isdir W fspath then
    match urlsplit W p with
    | None => raise ValueError
    | Some parts =>
        if negb (Py.endswith (url_path parts) "/") then
          send_response 301 None;;
          send_header "Location" (urlunsplit W (with_slash parts));;
          send_header "Content-Length" "0";;
          end_headers cls;;
          ret None
        else
          match find_index fspath with
          | Some index => send_head_file index
          | None => list_directory fspath
          end
    end
  else send_head_file fspath.

(** [shutil.copyfileobj(source, self.wfile)]: nothing is written for an
    empty source. *)
Definition copyfile (source : string) : M unit :=
  when negb (Py.is_empty source) then wfile_write (Body source).

Definition do_GET : M unit :=
  f <- send_head;;
  match f with
  | Some source => copyfile source
  | None => ret tt
  end.

Definition do_HEAD : M unit :=
  f <- send_head;;
  ret tt.

(** *** Parsing the request *)

Definition handle_expect_100 : M bool :=
  send_response_only 100 None;;
  end_headers cls;;
  ret true.

(** The [try] block of [parse_request] that reads the version word:
    [None] is the [ValueError] or [IndexError] it catches. *)
Definition parse_version (version : string) : option ((Z * Z) * string) :=
  if negb (Py.startswith version "HTTP/") then None
  else match Py.after "/" version with
       | None => None
       | Some base_version_number =>
           match Py.split_on "." base_version_number with
           | [major; minor] =>
               match py_int W major, py_int W minor with
               | Some a, Some b => Some ((a, b), base_version_number)
               | _, _ => None
               end
           | _ => None
           end
       end.

(** [if len(words) >= 3: ...]; the result is [false] when the method has
    sent an error and returns [False]. *)
Definition parse_request_version (words : list string) : M bool :=
  if (3 <=? length words)%nat then
    let version := last words "" in
    match parse_version version with
    | None =>
        send_error 400
          (Some ("Bad request version (" ++ py_repr W version ++ ")")) None;;
        ret false
    | Some (version_number, base_version_number) =>
        (when Py.pair_geb version_number (1, 1)
              && Py.str_geb protocol_version "HTTP/1.1"
         then modify (set_close_connection false));;
        if Py.pair_geb version_number (2, 0) then
          send_error 505
            (Some ("Invalid HTTP version (" ++ base_version_number ++ ")"))
            None;;
          ret false
        else
          modify (set_request_version version);;
          ret true
    end
  else ret true.

(** [if len(words) == 2: ...] and the assignment of [command] and [path]. *)
Definition parse_request_command (words : list string) : M bool :=
  let command := nth 0 words "" in
  let p := nth 1 words "" in
  ok <- (if (length words =? 2)%nat then
           modify (set_close_connection true);;
           if negb (String.eqb command "GET") then
             send_error 400
               (Some ("Bad HTTP/0.9 request type (" ++ py_repr W command ++ ")"))
               None;;
             ret false
           else ret true
         else ret true);;
  if negb ok then ret false
  else
    modify (set_command (Some command));;
    modify (set_path p);;
    (when Py.startswith p "//" then
       modify (set_path ("/" ++ Py.lstrip Py.is_slash p)));;
    ret true.

(** The headers, and the [Connection] and [Expect] directives. *)
Definition parse_request_headers (hp : header_parse) : M bool :=
  match hp with
  | LineTooLong err =>
      send_error 431 (Some "Line too long") (Some err);;
      ret false
  | TooManyHeaders err =>
      send_error 431 (Some "Too many headers") (Some err);;
      ret false
  | Headers hs =>
      modify (set_headers hs);;
      let conntype := headers_get "Connection" "" hs in
      (if String.eqb (Py.lower conntype) "close"
       then modify (set_close_connection true)
       else if String.eqb (Py.lower conntype) "keep-alive"
               && Py.str_geb protocol_version "HTTP/1.1"
       then modify (set_close_connection false)
       else ret tt);;
      let expect := headers_get "Expect" "" hs in
      v <- get_request_version;;
      if String.eqb (Py.lower expect) "100-continue"
         && Py.str_geb protocol_version "HTTP/1.1"
         && Py.str_geb v "HTTP/1.1"
      then handle_expect_100
      else ret true
  end.

Definition parse_request (r : request) : M bool :=
  modify (set_command None);;
  modify (set_request_version default_request_version);;
  modify (set_close_connection true);;
  let line := Py.rstrip Py.is_crlf (raw_requestline r) in
  modify (set_requestline line);;
  let words := Py.split line in
  if (length words =? 0)%nat then ret false
  else
    ok <- parse_request_version words;;
    if negb ok then ret false
    else if negb ((2 <=? length words)%nat && (length words <=? 3)%nat) then
      send_error 400
        (Some ("Bad request syntax (" ++ py_repr W line ++ ")")) None;;
      ret false
    else
      ok <- parse_request_command words;;
      if negb ok then ret false
      else parse_request_headers (raw_headers r).

(** *** One request, one connection *)

(** [getattr(self, 'do_' + self.command)] where [hasattr] finds it. *)
Definition method (mname : string) : option (M unit) :=
  if String.eqb mname "do_GET" then Some do_GET
  else if String.eqb mname "do_HEAD" then Some do_HEAD
  else None.

Definition is_TimeoutError (e : exn) : bool :=
  match e with TimeoutError => true | _ => false end.

(** [self.wfile.flush()]: the socket writer holds no buffer. *)
Definition wfile_flush : M unit := ret tt.

Definition handle_one_request (r : request) : M unit :=
  try_except
    (if 65536 <? Py.len (raw_requestline r) then
       modify (set_requestline "");;
       modify (set_request_version "");;
       modify (set_command (Some ""));;
       send_error 414 None None
     else if Py.is_empty (raw_requestline r) then
       modify (set_close_connection true)
     else
       ok <- parse_request r;;
       if negb ok then ret tt
       else
         c <- gets command;;
         match c with
         | None => raise TypeError
         | Some command =>
             match method ("do_" ++ command) with
             | None =>
                 send_error 501
                   (Some ("Unsupported method (" ++ py_repr W command ++ ")"))
                   None
             | Some m => m;; wfile_flush
             end
         end)
    is_TimeoutError
    (fun e => log_error (LogTimeout e);;
              modify (set_close_connection true)).

(** What [readline] gives at the end of the stream. *)
Definition end_of_stream : request := mkRequest "" (Headers []).

(** [handle]: [handle_one_request] once, and again while the connection
    is kept open.  Every round takes one request off [rfile]. *)
Fixpoint handle_requests (rfile : list request) : M unit :=
  match rfile with
  | [] => handle_one_request end_of_stream
  | r :: rfile' =>
      handle_one_request r;;
      closing <- gets close_connection;;
      if closing then ret tt else handle_requests rfile'
  end.

Definition handle (rfile : list request) : M unit :=
  modify (set_close_connection true);;
  handle_requests rfile.

End Handler.

(** ** [socketserver]: the server and its connections *)

(** A handler object as [__init__] leaves it before [handle] runs:
    [directory] is [os.getcwd()], no header buffer and no
    [request_version] exist, nothing is written.  The attributes a
    request assigns before it reads them ([requestline], [command],
    [path], [headers]) start at an arbitrary value. *)
Definition new_handler (cwd : string) (fault : option exn) : handler :=
  mkHandler cwd "" None None "" [] false None [] fault [].

(** The process the script runs in: its arguments, its environment, its
    working directory, and the answer of the operating system to a
    [bind] of the listening socket ([false]: [OSError], the address is
    in use or not permitted). *)
Record process := mkProcess {
  argv : list string;
  environ : list (string * string);
  cwd : string;
  can_bind : string * Z -> bool
}.

(** An accepted connection: the requests the client sends on it, the
    world at that time, and whether the client has gone away. *)
Record connection := mkConnection {
  conn_world : World;
  conn_rfile : list request;
  conn_fault : option exn
}.

(** The calls on the listening socket. *)
Inductive socket_call :=
| SocketStream                       (* socket.socket(AF_INET, SOCK_STREAM) *)
| SetReuseAddr                       (* setsockopt(SOL_SOCKET, SO_REUSEADDR, 1) *)
| Bind (address : string * Z)
| Listen (backlog : Z)
| Close.

Record server := mkServer {
  server_address : string * Z;
  RequestHandlerClass : handler_class
}.

Definition request_queue_size : Z := 5.

(** [HTTPServer(address, cls)], that is [TCPServer.__init__]: the socket,
    [server_bind] (with [allow_reuse_address = 1]) and [server_activate].
    When [bind] raises, the socket is closed and the exception leaves
    the constructor: there is no server. *)
Definition HTTPServer (p : process) (address : string * Z)
  (cls : handler_class) : list socket_call * option server :=
  if can_bind p address
  then ([SocketStream; SetReuseAddr; Bind address; Listen request_queue_size],
        Some (mkServer address cls))
  else ([SocketStream; SetReuseAddr; Bind address; Close], None).

(** [finish_request]: a new handler object per connection, whose
    [directory] is the working directory at that time; its constructor
    runs [handle].  An exception that leaves the handler is reported by
    [handle_error] and the server goes on. *)
Definition finish_request (srv : server) (p : process) (c : connection)
  : result unit :=
  handle (conn_world c) (RequestHandlerClass srv) (conn_rfile c)
    (new_handler (cwd p) (conn_fault c)).

(** [serve_forever] on the connections accepted so far: what was written
    on each. *)
Definition serve_forever (srv : server) (p : process)
  (conns : list connection) : list (list chunk) :=
  map (fun c => wfile (final (finish_request srv p c))) conns.

(** What the script does: the calls on the listening socket, and what is
    written on each connection. *)
Record run := mkRun {
  calls : list socket_call;
  served : list (list chunk)
}.

(** The last line of [server.py]. *)
Definition main (p : process) (conns : list connection) : run :=
  match HTTPServer p ("0.0.0.0", 5000) NoCacheHandler with
  | (cs, Some srv) => mkRun cs (serve_forever srv p conns)
  | (cs, None) => mkRun cs []
  end.

(** ** A concrete world

    A server root [/srv] holding [index.html] with content [<h1>hi</h1>],
    an empty directory [/srv/docs], and nothing else.  The library
    functions are given on the inputs the examples use, where they agree
    with CPython 3.11. *)

Module Demo.

Definition is_digit (c : ascii) : bool :=
  let n := N_of_ascii c in ((48 <=? n) && (n <=? 57))%N.

Fixpoint digits_value (acc : Z) (s : string) : option Z :=
  match s with
  | EmptyString => Some acc
  | String c s' =>
      if is_digit c
      then digits_value (10 * acc + Z.of_N (N_of_ascii c) - 48) s'
      else None
  end.

(** [int(s)] on a plain run of decimal digits. *)
Definition int (s : string) : option Z :=
  if Py.is_empty s then None else digits_value 0 s.

(** [repr(s)] of a string of printable ASCII without quotes. *)
Definition repr (s : string) : string := "'" ++ s ++ "'".

Definition epoch : string := "Thu, 01 Jan 1970 00:00:00 GMT".

Definition index_html : file := mkFile "<h1>hi</h1>" 11 0.

Definition nul : string := String "000" "".

(** A request target that names the served directory and that
    [urlsplit] refuses ([Invalid IPv6 URL]). *)
Definition bad_url : string := "x://[/../..".

(** A query whose decoding puts a lone surrogate on the listing. *)
Definition surrogate_query : string := "/docs/?%ED%A0%80".

Definition world : World :=
  mkWorld
    "Python/3.11.2" int repr "utf-8"
    0 (fun _ => epoch)
    (fun s => if String.eqb s epoch then Some (0, TzUTC) else None)
    (fun p => String.eqb p "/srv" || String.eqb p "/srv/"
              || String.eqb p "/srv/docs" || String.eqb p "/srv/docs/")
    (fun p => String.eqb p "/srv/index.html")
    (fun p => if String.eqb p "/srv/index.html" then Opened index_html
              else if Py.contains "000" p then OpenValueError
              else OpenOSError)
    (fun p => if String.eqb p "/srv/docs/" then Some [] else None)
    (fun p => if String.eqb p "/%00" then "/" ++ nul else p)
    (fun p => if String.eqb p bad_url then "."
              else if String.eqb p "/../etc/passwd" then "/etc/passwd"
              else p)
    (fun p => if String.eqb p bad_url then None
              else Some (mkSplit "" "" (Py.before "?" p)
                           (match Py.after "?" p with
                            | Some q => q
                            | None => ""
                            end) ""))
    (fun parts => if Py.is_empty (query parts) then url_path parts
                  else url_path parts ++ "?" ++ query parts)
    (fun p => if Py.endswith p ".html" then "text/html"
              else "application/octet-stream")
    (fun _ p _ => if String.eqb p surrogate_query then None
                  else Some "<ul></ul>").

Definition line (s : string) : string := s ++ crlf.

Definition get (s : string) : request := mkRequest (line s) (Headers []).


Definition fresh : handler := new_handler "/srv" None.

Definition proc : process :=
  mkProcess ["server.py"] [] "/srv" (fun _ => true).

(** What a new handler of class [cls] does when it takes [r], and what
    it writes. *)
Definition answer (cls : handler_class) (r : request) : result unit :=
  handle_one_request world cls r fresh.

Definition served (cls : handler_class) (r : request) : list chunk :=
  wfile (final (answer cls r)).

End Demo.

(** ** Vocabulary of the specifications *)

(** The header line the override sends. *)
Definition cache_control_line : string :=
  header_line "Cache-Control" cache_control.

Definition healthy (h : handler) : Prop := wfile_fault h = None.

(** The request version is assigned, and whether it is HTTP/0.9. *)
Definition versioned (h : handler) : Prop := request_version h <> None.

Definition is_http09 (h : handler) : bool :=
  match request_version h with
  | Some v => String.eqb v "HTTP/0.9"
  | None => false
  end.

(** No header line is pending: the buffer is absent or empty. *)
Definition idle (h : handler) : Prop :=
  _headers_buffer h = None \/ _headers_buffer h = Some [].

Definition lines (b : option (list string)) : list string :=
  match b with Some l => l | None => [] end.

(** The header buffer after lines [l] are sent to it; nothing is buffered
    for an HTTP/0.9 request. *)
Definition push (v09 : bool) (b : option (list string)) (l : list string)
  : option (list string) :=
  if v09 then b else Some (lines b ++ l)%list.

Definition flushed (v09 : bool) (b : option (list string))
  : option (list string) :=
  if v09 then b else Some [].

(** What an [end_headers] of class [cls] puts behind the buffered lines. *)
Definition tail (cls : handler_class) : list string :=
  match cls with
  | SimpleHTTPRequestHandler => [crlf]
  | NoCacheHandler => [cache_control_line; crlf]
  end.

(** The write [end_headers] makes when [ls] is buffered. *)
Definition block (cls : handler_class) (v09 : bool) (ls : list string)
  : list chunk :=
  if v09 then [] else [HeaderBlock (ls ++ tail cls)%list].

(** The effect of [send_header] on [close_connection]. *)
Definition conn (keyword value : string) (c : bool) : bool :=
  if String.eqb (Py.lower keyword) "connection" then
    if String.eqb (Py.lower value) "close" then true
    else if String.eqb (Py.lower value) "keep-alive" then false
    else c
  else c.

(** The handler [h] after it logged [logs], wrote [out], and was left
    with header buffer [buf] and [close_connection = close]. *)
Definition after (h : handler) (logs : list log_entry) (out : list chunk)
  (buf : option (list string)) (close : bool) : handler :=
  mkHandler (directory h) (requestline h) (request_version h) (command h)
    (path h) (headers h) close buf (wfile h ++ out)%list (wfile_fault h)
    (stderr h ++ logs)%list.

Definition is_body (c : chunk) : Prop :=
  match c with Body _ => True | HeaderBlock _ => False end.

(** The lines of an error response, and its body. *)
Definition error_with_body (code : Z) : bool :=
  (200 <=? code) && negb ((code =? 204) || (code =? 205) || (code =? 304)).

Definition error_message (code : Z) (message : option string) : string :=
  match message with
  | Some m => m
  | None => match responses code with Some (s, _) => s | None => "???" end
  end.

Definition error_explain (code : Z) (explain : option string) : string :=
  match explain with
  | Some e => e
  | None => match responses code with Some (_, l) => l | None => "???" end
  end.

Definition error_page (code : Z) (message explain : option string) : string :=
  Py.utf8 (error_message_format code
             (Py.html_escape (error_message code message))
             (Py.html_escape (error_explain code explain))).

Definition error_head (W : World) (code : Z) (message explain : option string)
  : list string :=
  [ status_line code (error_message code message);
    header_line "Server" (version_string W);
    header_line "Date" (date_time_string W None);
    header_line "Connection" "close" ]
  ++ (if error_with_body code
      then [ header_line "Content-Type" error_content_type;
             header_line "Content-Length"
               (Py.str (Py.len (error_page code message explain))) ]
      else [])%list.

Definition error_body (c : option string) (code : Z)
  (message explain : option string) : list chunk :=
  if negb (is_HEAD c) && error_with_body code
     && negb (Py.is_empty (error_page code message explain))
  then [Body (error_page code message explain)] else [].

(** The lines of a [200] answer for a file. *)
Definition file_head (W : World) (fspath : string) (f : file) : list string :=
  [ status_line 200 "OK";
    header_line "Server" (version_string W);
    header_line "Date" (date_time_string W None);
    header_line "Content-type" (guess_type W fspath);
    header_line "Content-Length" (Py.str (st_size f));
    header_line "Last-Modified" (date_time_string W (Some (st_mtime f))) ].

Definition copied (source : string) : list chunk :=
  if Py.is_empty source then [] else [Body source].

(** ** The response as a function of the request

    What a method does to the handler, seen from outside: the lines it
    logs, the lines it sends before [end_headers], the chunks it writes
    behind the header block, and whether it sets [close_connection]. *)

Record effect := mkEffect {
  logged : list log_entry;
  front : list string;
  bodies : list chunk;
  closes : bool
}.

Definition effected (cls : handler_class) (h : handler)
  (l : list log_entry) (o : list chunk) (b : option (list string)) (c : bool)
  (e : effect) : handler :=
  after h (l ++ logged e)
    (o ++ block cls (is_http09 h) (lines b ++ front e) ++ bodies e)
    (flushed (is_http09 h) b) (c || closes e).

(** What a method comes to when an exception of a library call may
    leave it before anything is sent or logged. *)
Inductive attempt (A : Type) :=
| Gives (a : A)
| Throws (x : exn).
Arguments Gives {A} a.
Arguments Throws {A} x.

(** The outcome of a method whose plan is [pl]: the effect is carried
    out, or the exception leaves the method with nothing done. *)
Definition planned {A} (cls : handler_class) (h : handler)
  (l : list log_entry) (o : list chunk) (b : option (list string)) (c : bool)
  (pl : attempt (A * effect)) : result A :=
  match pl with
  | Gives (a, e) => Ok a (effected cls h l o b c e)
  | Throws x => Raise x (after h l o b c)
  end.

(** The same for a method that returns nothing. *)
Definition carried (cls : handler_class) (h : handler)
  (l : list log_entry) (o : list chunk) (b : option (list string)) (c : bool)
  (a : attempt effect) : result unit :=
  match a with
  | Gives e => Ok tt (effected cls h l o b c e)
  | Throws x => Raise x (after h l o b c)
  end.

Definition error_effect (W : World) (rl : string) (cmd : option string)
  (code : Z) (message explain : option string) : effect :=
  mkEffect
    [LogError code (error_message code message); LogRequest rl code]
    (error_head W code message explain)
    (error_body cmd code message explain)
    true.

Definition reply_effect (rl : string) (code : Z) (ls : list string) : effect :=
  mkEffect [LogRequest rl code] ls [] false.

Definition reply_head (W : World) (code : Z) (phrase : string) : list string :=
  [ status_line code phrase;
    header_line "Server" (version_string W);
    header_line "Date" (date_time_string W None) ].

Definition not_found (W : World) (rl : string) (cmd : option string) : effect :=
  error_effect W rl cmd 404 (Some "File not found") None.

(** [send_head_file]: the file object returned and the effect. *)
Definition file_plan (W : World) (rl : string) (cmd : option string)
  (hs : list (string * string)) (fspath : string)
  : attempt (option string * effect) :=
  if Py.endswith fspath "/" then Gives (None, not_found W rl cmd)
  else match open_rb W fspath with
       | OpenOSError => Gives (None, not_found W rl cmd)
       | OpenValueError => Throws ValueError
       | OpenUnicodeEncodeError => Throws UnicodeEncodeError
       | Opened f =>
           if not_modified W f hs
           then Gives (None,
                       reply_effect rl 304 (reply_head W 304 "Not Modified"))
           else Gives (Some (contents f),
                       reply_effect rl 200 (file_head W fspath f))
       end.

Definition listing_plan (W : World) (rl : string) (cmd : option string)
  (p fspath : string) : attempt (option string * effect) :=
  match listdir W fspath with
  | None =>
      Gives
        (None,
         error_effect W rl cmd 404 (Some "No permission to list directory")
           None)
  | Some names =>
      match listing_html W fspath p names with
      | None => Throws UnicodeEncodeError
      | Some encoded =>
          Gives
            (Some encoded,
             reply_effect rl 200
               (reply_head W 200 "OK" ++
                [ header_line "Content-type"
                    ("text/html; charset=" ++ getfilesystemencoding W);
                  header_line "Content-Length" (Py.str (Py.len encoded)) ]))
      end
  end.

Definition head_plan (W : World) (d rl : string) (cmd : option string)
  (p : string) (hs : list (string * string))
  : attempt (option string * effect) :=
  let fspath := translate_path W d p in
  if isdir W fspath then
    match urlsplit W p with
    | None => Throws ValueError
    | Some parts =>
        if negb (Py.endswith (url_path parts) "/") then
          Gives
            (None,
             reply_effect rl 301
               (reply_head W 301 "Moved Permanently" ++
                [ header_line "Location" (urlunsplit W (with_slash parts));
                  header_line "Content-Length" "0" ]))
        else match find_index W fspath with
             | Some index => file_plan W rl cmd hs index
             | None => listing_plan W rl cmd p fspath
             end
    end
  else file_plan W rl cmd hs fspath.

Definition with_bodies (e : effect) (extra : list chunk) : effect :=
  mkEffect (logged e) (front e) (bodies e ++ extra) (closes e).

Definition GET_effect (W : World) (d rl : string) (cmd : option string)
  (p : string) (hs : list (string * string)) : attempt effect :=
  match head_plan W d rl cmd p hs with
  | Throws x => Throws x
  | Gives (Some source, e) => Gives (with_bodies e (copied source))
  | Gives (None, e) => Gives e
  end.

Definition HEAD_effect (W : World) (d rl : string) (cmd : option string)
  (p : string) (hs : list (string * string)) : attempt effect :=
  match head_plan W d rl cmd p hs with
  | Throws x => Throws x
  | Gives (_, e) => Gives e
  end.

(** What [parse_request] makes of a request. *)
Inductive outcome :=
| Silent
| Failed (version : string) (cmd : option string) (code : Z)
    (message : string) (explain : option string)
| Parsed (version command p : string) (hs : list (string * string)).

Definition request_line (r : request) : string :=
  Py.rstrip Py.is_crlf (raw_requestline r).

(** The version in force after [if len(words) >= 3: ...], or the error
    sent there. *)
Definition version_outcome (W : World) (words : list string)
  : (Z * string) + string :=
  if (3 <=? length words)%nat then
    match parse_version W (last words "") with
    | None =>
        inl (400, "Bad request version (" ++ py_repr W (last words "") ++ ")")
    | Some (version_number, base_version_number) =>
        if Py.pair_geb version_number (2, 0)
        then inl (505, "Invalid HTTP version (" ++ base_version_number ++ ")")
        else inr (last words "")
    end
  else inr default_request_version.

Definition path_of (p : string) : string :=
  if Py.startswith p "//" then "/" ++ Py.lstrip Py.is_slash p else p.

Definition parse_outcome (W : World) (r : request) : outcome :=
  let words := Py.split (request_line r) in
  if (length words =? 0)%nat then Silent
  else
    match version_outcome W words with
    | inl (code, message) =>
        Failed default_request_version None code message None
    | inr version =>
        if negb ((2 <=? length words)%nat && (length words <=? 3)%nat) then
          Failed version None 400
            ("Bad request syntax (" ++ py_repr W (request_line r) ++ ")") None
        else if (length words =? 2)%nat
                && negb (String.eqb (nth 0 words "") "GET") then
          Failed version None 400
            ("Bad HTTP/0.9 request type (" ++ py_repr W (nth 0 words "") ++ ")")
            None
        else
          match raw_headers r with
          | LineTooLong err =>
              Failed version (Some (nth 0 words "")) 431 "Line too long"
                (Some err)
          | TooManyHeaders err =>
              Failed version (Some (nth 0 words "")) 431 "Too many headers"
                (Some err)
          | Headers hs =>
              Parsed version (nth 0 words "") (path_of (nth 1 words "")) hs
          end
    end.

(** The response to a request: the request version it is sent under and
    the effect, or the exception that leaves the method before anything
    is sent; [None] when nothing is answered. *)
Definition response (W : World) (d : string) (r : request)
  : option (string * attempt effect) :=
  if 65536 <? Py.len (raw_requestline r) then
    Some ("", Gives (error_effect W "" (Some "") 414 None None))
  else if Py.is_empty (raw_requestline r) then None
  else
    match parse_outcome W r with
    | Silent => None
    | Failed version cmd code message explain =>
        Some (version,
              Gives (error_effect W (request_line r) cmd code (Some message)
                       explain))
    | Parsed version command p hs =>
        Some (version,
              if String.eqb ("do_" ++ command) "do_GET"
              then GET_effect W d (request_line r) (Some command) p hs
              else if String.eqb ("do_" ++ command) "do_HEAD"
              then HEAD_effect W d (request_line r) (Some command) p hs
              else Gives
                     (error_effect W (request_line r) (Some command) 501
                        (Some ("Unsupported method ("
                               ++ py_repr W command ++ ")"))
                        None))
    end.

(** The chunks a handler of class [cls] writes for a response. *)
Definition written (cls : handler_class)
  (resp : option (string * attempt effect)) : list chunk :=
  match resp with
  | Some (version, Gives e) =>
      block cls (String.eqb version "HTTP/0.9") (front e) ++ bodies e
  | _ => []
  end.

Definition logs_of (resp : option (string * attempt effect))
  : list log_entry :=
  match resp with
  | Some (_, Gives e) => logged e
  | _ => []
  end.

(** The exception that leaves [handle_one_request] on a healthy
    connection. *)
Definition escapes (resp : option (string * attempt effect)) : option exn :=
  match resp with
  | Some (_, Throws x) => Some x
  | _ => None
  end.

(** The outcome of a method that returns nothing: the state [h'] is
    returned, or left with the exception. *)
Definition ends (x : option exn) (h' : handler) : result unit :=
  match x with
  | Some e => Raise e h'
  | None => Ok tt h'
  end.

Arguments header_line : simpl never.
Arguments status_line : simpl never.
Arguments Py.str : simpl never.
Arguments Py.len : simpl never.
Arguments Py.utf8 : simpl never.
Arguments Py.html_escape : simpl never.
Arguments Py.is_empty : simpl never.
Arguments error_message_format : simpl never.
Arguments version_string : simpl never.
Arguments date_time_string : simpl never.
Arguments translate_path : simpl never.
Arguments guess_type : simpl never.

(** [h'] is [h] with the request attributes assigned. *)
Definition assigned (h h' : handler) (line version : string)
  (cmd : option string) : Prop :=
  directory h' = directory h /\ wfile_fault h' = wfile_fault h
  /\ wfile h' = wfile h /\ stderr h' = stderr h
  /\ requestline h' = line /\ request_version h' = Some version
  /\ command h' = cmd.

(** [h'] is the handler after a handler of class [cls] that had logged
    [l], written [o] and buffered [b] on top of [h] took the request [r]:
    in terms of the response to [r]. *)
Definition answered (W : World) (cls : handler_class) (h : handler)
  (l : list log_entry) (o : list chunk) (b : option (list string))
  (r : request) (h' : handler) : Prop :=
  let resp := response W (directory h) r in
  directory h' = directory h
  /\ wfile_fault h' = wfile_fault h
  /\ close_connection h' = true
  /\ stderr h' = (stderr h ++ l ++ logs_of resp)%list
  /\ match resp with
     | None => wfile h' = (wfile h ++ o)%list /\ _headers_buffer h' = b
     | Some (version, Throws x) =>
         request_version h' = Some version
         /\ wfile h' = (wfile h ++ o)%list /\ _headers_buffer h' = b
     | Some (version, Gives e) =>
         request_version h' = Some version
         /\ wfile h'
            = (wfile h ++ o
               ++ block cls (String.eqb version "HTTP/0.9") (lines b ++ front e)
               ++ bodies e)%list
         /\ _headers_buffer h' = flushed (String.eqb version "HTTP/0.9") b
     end.

(** A chunk of the plain handler's output and the chunk the no-cache
    handler writes in its place: a header block gains the one line before
    its closing blank line, a body chunk is the same. *)
Inductive adds_cache_control : chunk -> chunk -> Prop :=
| acc_block (ls : list string) :
    adds_cache_control (HeaderBlock (ls ++ [crlf])%list)
      (HeaderBlock (ls ++ [cache_control_line; crlf])%list)
| acc_body (d : string) : adds_cache_control (Body d) (Body d).

(** A response carries the header when one of its header blocks holds
    the line. *)
Definition carries_cache_control (w : list chunk) : Prop :=
  exists ls, In (HeaderBlock ls) w /\ In cache_control_line ls.

(** A header block ends with the injected line and the blank line. *)
Definition ends_with_cache_control (ls : list string) : Prop :=
  exists fr, ls = (fr ++ [cache_control_line; crlf])%list.

(** An effect of a response is well formed: its front starts with a
    status line, and only body chunks follow its header block. *)
Definition well_formed (e : effect) : Prop :=
  (exists code phrase rest, front e = status_line code phrase :: rest)
  /\ Forall is_body (bodies e).

(** A response with status [code] whose body is [body]: a header block
    that opens with the status line, then chunks that make up [body]. *)
Definition has_status_and_body (w : list chunk) (code : Z) (body : string)
  : Prop :=
  exists phrase hs bs,
    w = HeaderBlock (status_line code phrase :: hs) :: bs /\ wire bs = body.

(** [m] keeps [I]: from a state where [I] holds, [m] ends, normally or
    by an exception, in a state where [I] holds. *)
Definition keeps {A} (I : handler -> Prop) (m : M A) : Prop :=
  forall h, I h -> I (final (m h)).

(** ** Further vocabulary *)

(** A header line whose field name is [Cache-Control], in any case. *)
Definition names_cache_control (l : string) : bool :=
  Py.startswith (Py.lower l) "cache-control:".

(** The status codes the handler sends. *)
Definition status_codes : list Z :=
  [200; 301; 304; 400; 404; 414; 431; 501; 505].

(** A path component [translate_path] appends: not empty, not [.] or
    [..], without a slash. *)
Definition plain_word (w : string) : bool :=
  negb (Py.is_empty w)
  && negb (Py.contains "/" w || String.eqb w "." || String.eqb w "..").




(** More concrete requests. *)
Module Cases.

Fixpoint replicate (n : nat) (c : ascii) : string :=
  match n with
  | O => EmptyString
  | S n' => String c (replicate n' c)
  end.

(** A request line of 65537 bytes. *)
Definition long_line : request :=
  mkRequest (replicate (N.to_nat 65537) "a") (Headers []).

Definition blank_line : request := mkRequest crlf (Headers []).

Definition with_headers (s : string) (hs : list (string * string))
  : request :=
  mkRequest (Demo.line s) (Headers hs).

Definition keep_alive : request :=
  with_headers "GET /index.html HTTP/1.1" [("Connection", "keep-alive")].

Definition ranged : request :=
  with_headers "GET /index.html HTTP/1.1"
    [("Range", "bytes=0-3"); ("Expect", "100-continue");
     ("Connection", "keep-alive")].

(** The concrete world with a directory [/srv/docs] that cannot be
    listed. *)
Definition locked : World :=
  mkWorld
    (sys_version Demo.world) (py_int Demo.world) (py_repr Demo.world)
    (getfilesystemencoding Demo.world)
    (time_time Demo.world) (formatdate Demo.world)
    (parsedate_to_datetime Demo.world)
    (isdir Demo.world) (isfile Demo.world) (open_rb Demo.world)
    (fun _ => None)
    (unquote Demo.world) (normpath Demo.world) (urlsplit Demo.world)
    (urlunsplit Demo.world) (mimetypes_guess Demo.world)
    (listing_html Demo.world).

End Cases.

(** An effect that answers with status [code]: the header lines open
    with the status line, [Server] and [Date], and the request is logged
    once, with that code, after the one error line (with the phrase of
    the status line) if there is one. *)
Definition has_code (W : World) (code : Z) (e : effect) : Prop :=
  exists phrase rest rl,
    front e = (reply_head W code phrase ++ rest)%list
    /\ (logged e = [LogRequest rl code]
        \/ logged e = [LogError code phrase; LogRequest rl code]).





(** The method [handle_one_request] looks up for the command [m], as the
    effect it has. *)
Definition method_effect (W : World) (h1 : handler) (rl m : string)
  : attempt effect :=
  if String.eqb m "GET"
  then GET_effect W (directory h1) rl (Some m) (path h1) (headers h1)
  else if String.eqb m "HEAD"
  then HEAD_effect W (directory h1) rl (Some m) (path h1) (headers h1)
  else Gives (error_effect W rl (Some m) 501
                (Some ("Unsupported method (" ++ py_repr W m ++ ")")) None).

(** * Proofs *)

(** ** The monad and the state *)

Lemma bind_ok {A B} (m : M A) (k : A -> M B) h a h' :
  m h = Ok a h' -> bind m k h = k a h'.
Proof. intros E. unfold bind. now rewrite E. Qed.

Lemma bind_eq {A B} (m : M A) (k : A -> M B) h :
  bind m k h = match m h with
               | Ok a h' => k a h'
               | Raise e h' => Raise e h'
               end.
Proof. reflexivity. Qed.

Lemma bind_assoc {A B C} (m : M A) (k1 : A -> M B) (k2 : B -> M C) h :
  bind (bind m k1) k2 h = bind m (fun a => bind (k1 a) k2) h.
Proof. unfold bind. destruct (m h); reflexivity. Qed.

Lemma try_except_ok {A} (m : M A) catches k h a h' :
  m h = Ok a h' -> try_except m catches k h = Ok a h'.
Proof. intros E. unfold try_except. now rewrite E. Qed.

Lemma after_id h :
  after h [] [] (_headers_buffer h) (close_connection h) = h.
Proof. destruct h. unfold after. simpl. now rewrite !app_nil_r. Qed.

Lemma push_push v b l1 l2 :
  push v (push v b l1) l2 = push v b (l1 ++ l2).
Proof. destruct v, b; simpl; now rewrite <- ?app_assoc. Qed.

Lemma flushed_push v b l : flushed v (push v b l) = flushed v b.
Proof. now destruct v. Qed.

Lemma block_push cls v b l :
  block cls v (lines (push v b l)) = block cls v (lines b ++ l).
Proof. now destruct v. Qed.

Lemma push_ready (cls : handler_class) v b l :
  cls = NoCacheHandler \/ v = true \/ push v b l <> None.
Proof. right. destruct v; [now left|now right]. Qed.

Lemma get_request_version_ok {A} (k : string -> M A) s v :
  request_version s = Some v -> bind get_request_version k s = k v s.
Proof. intros V. unfold bind, get_request_version. now rewrite V. Qed.

(** ** The buffer methods on [after h l o b c] *)

Section Steps.

Variables (h : handler) (l : list log_entry) (o : list chunk)
  (b : option (list string)) (c : bool).

Lemma gets_after {A} (f : handler -> A) :
  gets f (after h l o b c) = Ok (f (after h l o b c)) (after h l o b c).
Proof. reflexivity. Qed.

Lemma ret_after {A} (a : A) :
  ret a (after h l o b c) = Ok a (after h l o b c).
Proof. reflexivity. Qed.

Lemma log_message_after e :
  log_message e (after h l o b c) = Ok tt (after h (l ++ [e]) o b c).
Proof.
  unfold log_message, modify, after. simpl. now rewrite <- app_assoc.
Qed.

Lemma log_request_after code :
  log_request code (after h l o b c)
  = Ok tt (after h (l ++ [LogRequest (requestline h) code]) o b c).
Proof.
  unfold log_request. rewrite (bind_ok _ _ _ _ _ (gets_after _)).
  apply log_message_after.
Qed.

Lemma send_response_only_after code message :
  versioned h ->
  send_response_only code message (after h l o b c)
  = Ok tt (after h l o
             (push (is_http09 h) b
                [status_line code
                   match message with
                   | Some m => m
                   | None => match responses code with
                             | Some (phrase, _) => phrase
                             | None => ""
                             end
                   end]) c).
Proof.
  unfold versioned, is_http09. intros Hv.
  destruct (request_version h) as [v|] eqn:V; [|congruence].
  unfold send_response_only. erewrite get_request_version_ok by exact V.
  unfold bind, push.
  destruct (String.eqb v "HTTP/0.9"); simpl; [reflexivity|].
  unfold ensure_headers_buffer, headers_buffer_append.
  destruct b; reflexivity.
Qed.

Lemma send_header_after keyword value :
  versioned h ->
  send_header keyword value (after h l o b c)
  = Ok tt (after h l o (push (is_http09 h) b [header_line keyword value])
             (conn keyword value c)).
Proof.
  unfold versioned, is_http09. intros Hv.
  destruct (request_version h) as [v|] eqn:V; [|congruence].
  unfold send_header. erewrite get_request_version_ok by exact V.
  unfold bind, push, conn.
  destruct (String.eqb v "HTTP/0.9"); simpl.
  - destruct (String.eqb (Py.lower keyword) "connection"); [|reflexivity].
    destruct (String.eqb (Py.lower value) "close"); [reflexivity|].
    destruct (String.eqb (Py.lower value) "keep-alive"); reflexivity.
  - unfold ensure_headers_buffer, headers_buffer_append.
    destruct b; simpl;
      (destruct (String.eqb (Py.lower keyword) "connection"); [|reflexivity];
       destruct (String.eqb (Py.lower value) "close"); [reflexivity|];
       destruct (String.eqb (Py.lower value) "keep-alive"); reflexivity).
Qed.

Lemma wfile_write_after ch :
  healthy h ->
  wfile_write ch (after h l o b c) = Ok tt (after h l (o ++ [ch]) b c).
Proof.
  unfold healthy, wfile_write, after. simpl. intros ->.
  unfold set_wfile. simpl. now rewrite <- app_assoc.
Qed.

Lemma super_end_headers_after :
  healthy h -> versioned h -> is_http09 h = true \/ b <> None ->
  super_end_headers (after h l o b c)
  = Ok tt
      (after h l (o ++ block SimpleHTTPRequestHandler (is_http09 h) (lines b))
         (flushed (is_http09 h) b) c).
Proof.
  unfold healthy, versioned, is_http09. intros Hf Hv Hb.
  destruct (request_version h) as [v|] eqn:V; [|congruence].
  unfold super_end_headers. erewrite get_request_version_ok by exact V.
  unfold block, flushed in *.
  destruct (String.eqb v "HTTP/0.9"); simpl.
  - now rewrite app_nil_r.
  - destruct Hb as [Hb|Hb]; [discriminate|].
    destruct b as [ls|]; [|congruence].
    unfold headers_buffer_append, flush_headers, bind, gets, wfile_write,
      modify.
    simpl. rewrite Hf. unfold after, set_wfile, set_headers_buffer. simpl.
    now rewrite <- app_assoc.
Qed.

Lemma NoCacheHandler_end_headers_after :
  healthy h -> versioned h ->
  NoCacheHandler_end_headers (after h l o b c)
  = Ok tt (after h l (o ++ block NoCacheHandler (is_http09 h) (lines b))
             (flushed (is_http09 h) b) c).
Proof.
  intros Hf Hv. unfold NoCacheHandler_end_headers.
  rewrite (bind_ok _ _ _ _ _ (send_header_after _ _ Hv)).
  change (conn "Cache-Control" cache_control c) with c.
  unfold healthy, versioned, is_http09 in *.
  destruct (request_version h) as [v|] eqn:V; [|congruence].
  unfold super_end_headers. erewrite get_request_version_ok by exact V.
  unfold block, flushed, push in *.
  destruct (String.eqb v "HTTP/0.9"); simpl.
  - now rewrite app_nil_r.
  - unfold headers_buffer_append, flush_headers, bind, gets, wfile_write,
      modify.
    simpl. rewrite Hf. unfold after, set_wfile, set_headers_buffer. simpl.
    now rewrite <- !app_assoc.
Qed.

Lemma end_headers_after cls :
  healthy h -> versioned h ->
  cls = NoCacheHandler \/ is_http09 h = true \/ b <> None ->
  end_headers cls (after h l o b c)
  = Ok tt (after h l (o ++ block cls (is_http09 h) (lines b))
             (flushed (is_http09 h) b) c).
Proof.
  intros Hf Hv Hb. destruct cls; simpl.
  - apply super_end_headers_after; [assumption|assumption|].
    destruct Hb as [Hb|Hb]; [discriminate|assumption].
  - now apply NoCacheHandler_end_headers_after.
Qed.

End Steps.

(** One step of a sequence: the first method runs on [after h l o b c]. *)
Tactic Notation "step" uconstr(E) := erewrite (bind_ok _ _ _ _ _ E).

Section Responses.

Variable W : World.

Lemma send_response_after h l o b c code message :
  versioned h ->
  send_response W code message (after h l o b c)
  = Ok tt (after h (l ++ [LogRequest (requestline h) code]) o
             (push (is_http09 h) b
                [status_line code
                   match message with
                   | Some m => m
                   | None => match responses code with
                             | Some (phrase, _) => phrase
                             | None => ""
                             end
                   end;
                 header_line "Server" (version_string W);
                 header_line "Date" (date_time_string W None)]) c).
Proof.
  intros Hv. unfold send_response.
  step (log_request_after _ _ _ _ _ _).
  step (send_response_only_after _ _ _ _ _ _ _ Hv).
  step (send_header_after _ _ _ _ _ _ _ Hv).
  rewrite send_header_after, !push_push by exact Hv. reflexivity.
Qed.

Lemma send_error_after cls h l o b c code message explain :
  healthy h -> versioned h ->
  send_error W cls code message explain (after h l o b c)
  = Ok tt (after h
             (l ++ [LogError code (error_message code message);
                    LogRequest (requestline h) code])
             (o ++ block cls (is_http09 h)
                     (lines b ++ error_head W code message explain)
                ++ error_body (command h) code message explain)
             (flushed (is_http09 h) b) true).
Proof.
  intros Hf Hv. unfold send_error, error_head, error_body, error_page,
    error_message, error_explain, log_error.
  destruct (responses code) as [[shortmsg longmsg]|];
    fold (error_with_body code).
  all: step (log_message_after _ _ _ _ _ _).
  all: step (send_response_after _ _ _ _ _ _ _ Hv).
  all: step (send_header_after _ _ _ _ _ _ _ Hv).
  all: rewrite !push_push.
  all: change (conn "Connection" "close" c) with true.
  all: destruct (error_with_body code); cbv beta iota.
  all: rewrite ?bind_assoc.
  all: try (step (send_header_after _ _ _ _ _ _ _ Hv);
            step (send_header_after _ _ _ _ _ _ _ Hv);
            rewrite !push_push).
  all: try step (ret_after _ _ _ _ _ _).
  all: try change (conn "Content-Length" _ true) with true.
  all: try change (conn "Content-Type" _ true) with true.
  all: step (end_headers_after _ _ _ _ _ _ Hf Hv (push_ready _ _ _ _)).
  all: rewrite block_push, flushed_push.
  all: step (gets_after _ _ _ _ _ _).
  all: change (command (after _ _ _ _ _)) with (command h).
  all: rewrite ?andb_true_r, ?andb_false_r.
  all: repeat match goal with
         | |- context [if ?x then _ else _] => destruct x
         end; cbv beta iota.
  all: rewrite ?(wfile_write_after _ _ _ _ _ _ Hf), ?ret_after.
  all: rewrite <- ?app_assoc; cbn [app]; rewrite ?app_nil_r.
  all: reflexivity.
Qed.

End Responses.

Section Methods.

Variable W : World.

Lemma send_error_effect cls h l o b c code message explain :
  healthy h -> versioned h ->
  send_error W cls code message explain (after h l o b c)
  = Ok tt (effected cls h l o b c
             (error_effect W (requestline h) (command h) code message explain)).
Proof.
  intros Hf Hv. unfold effected, error_effect.
  cbn [logged front bodies closes].
  rewrite orb_true_r. now apply send_error_after.
Qed.

Lemma responses_200 : responses 200 = Some ("OK", "Request fulfilled, document follows").
Proof. reflexivity. Qed.
Lemma responses_301 :
  responses 301 = Some ("Moved Permanently", "Object moved permanently -- see URI list").
Proof. reflexivity. Qed.
Lemma responses_304 :
  responses 304 = Some ("Not Modified", "Document has not changed since given time").
Proof. reflexivity. Qed.

Lemma conn_other keyword value c :
  String.eqb (Py.lower keyword) "connection" = false ->
  conn keyword value c = c.
Proof. unfold conn. now intros ->. Qed.

(** The steps that finish a reply: headers, [end_headers], the value. *)
Ltac reply Hf Hv :=
  repeat (step (send_header_after _ _ _ _ _ _ _ Hv));
  rewrite ?push_push;
  step (end_headers_after _ _ _ _ _ _ Hf Hv (push_ready _ _ _ _));
  rewrite block_push, flushed_push, ret_after;
  unfold planned, effected, reply_effect, reply_head, file_head;
  cbn [logged front bodies closes app fst snd];
  repeat rewrite conn_other by reflexivity;
  rewrite ?orb_false_r, ?app_nil_r;
  try reflexivity.

Lemma send_head_file_effect cls h l o b c fspath :
  healthy h -> versioned h ->
  send_head_file W cls fspath (after h l o b c)
  = planned cls h l o b c
      (file_plan W (requestline h) (command h) (headers h) fspath).
Proof.
  intros Hf Hv. unfold send_head_file, file_plan, not_found.
  destruct (Py.endswith fspath "/").
  { step (send_error_effect _ _ _ _ _ _ _ _ _ Hf Hv). apply ret_after. }
  destruct (open_rb W fspath) as [f| | |]; [| |reflexivity|reflexivity].
  2: { step (send_error_effect _ _ _ _ _ _ _ _ _ Hf Hv). apply ret_after. }
  step (gets_after _ _ _ _ _ _). cbn [headers after].
  destruct (not_modified W f (headers h)); cbn [fst snd].
  - step (send_response_after _ _ _ _ _ _ _ _ Hv). rewrite responses_304.
    reply Hf Hv.
  - step (send_response_after _ _ _ _ _ _ _ _ Hv). rewrite responses_200.
    reply Hf Hv.
Qed.

Lemma list_directory_effect cls h l o b c fspath :
  healthy h -> versioned h ->
  list_directory W cls fspath (after h l o b c)
  = planned cls h l o b c
      (listing_plan W (requestline h) (command h) (path h) fspath).
Proof.
  intros Hf Hv. unfold list_directory, listing_plan.
  destruct (listdir W fspath) as [names|].
  2: { step (send_error_effect _ _ _ _ _ _ _ _ _ Hf Hv). apply ret_after. }
  step (gets_after _ _ _ _ _ _). cbn [path after].
  destruct (listing_html W fspath (path h) names) as [encoded|];
    [|reflexivity].
  step (send_response_after _ _ _ _ _ _ _ _ Hv). rewrite responses_200.
  reply Hf Hv.
Qed.

Lemma send_head_effect cls h l o b c :
  healthy h -> versioned h ->
  send_head W cls (after h l o b c)
  = planned cls h l o b c
      (head_plan W (directory h) (requestline h) (command h) (path h)
         (headers h)).
Proof.
  intros Hf Hv. unfold send_head, head_plan.
  step (gets_after _ _ _ _ _ _). step (gets_after _ _ _ _ _ _).
  cbn [path directory after].
  destruct (isdir W (translate_path W (directory h) (path h))).
  2: now apply send_head_file_effect.
  destruct (urlsplit W (path h)) as [parts|]; [|reflexivity].
  destruct (negb (Py.endswith (url_path parts) "/")).
  - step (send_response_after _ _ _ _ _ _ _ _ Hv). rewrite responses_301.
    reply Hf Hv.
  - destruct (find_index W (translate_path W (directory h) (path h))).
    + now apply send_head_file_effect.
    + now apply list_directory_effect.
Qed.

Lemma do_GET_effect cls h l o b c :
  healthy h -> versioned h ->
  do_GET W cls (after h l o b c)
  = carried cls h l o b c
      (GET_effect W (directory h) (requestline h) (command h) (path h)
         (headers h)).
Proof.
  intros Hf Hv. unfold do_GET, GET_effect.
  rewrite bind_eq, (send_head_effect _ _ _ _ _ _ Hf Hv).
  destruct (head_plan W (directory h) (requestline h) (command h) (path h)
              (headers h)) as [[[source|] e]|x]; cbn [planned carried].
  2: apply ret_after.
  2: reflexivity.
  unfold copyfile, copied, with_bodies, effected.
  cbn [logged front bodies closes].
  destruct (Py.is_empty source); cbn [negb].
  - rewrite ret_after, app_nil_r. reflexivity.
  - rewrite (wfile_write_after _ _ _ _ _ _ Hf), <- !app_assoc. reflexivity.
Qed.

Lemma do_HEAD_effect cls h l o b c :
  healthy h -> versioned h ->
  do_HEAD W cls (after h l o b c)
  = carried cls h l o b c
      (HEAD_effect W (directory h) (requestline h) (command h) (path h)
         (headers h)).
Proof.
  intros Hf Hv. unfold do_HEAD, HEAD_effect.
  rewrite bind_eq, (send_head_effect _ _ _ _ _ _ Hf Hv).
  destruct (head_plan W (directory h) (requestline h) (command h) (path h)
              (headers h)) as [[f e]|x]; cbn [planned carried];
    [apply ret_after|reflexivity].
Qed.

End Methods.

(** ** Parsing *)

Section Assignments.

Variables (h : handler) (l : list log_entry) (o : list chunk)
  (b : option (list string)) (c : bool).

Lemma set_requestline_after v :
  modify (set_requestline v) (after h l o b c)
  = Ok tt (after (set_requestline v h) l o b c).
Proof. reflexivity. Qed.

Lemma set_request_version_after v :
  modify (set_request_version v) (after h l o b c)
  = Ok tt (after (set_request_version v h) l o b c).
Proof. reflexivity. Qed.

Lemma set_command_after v :
  modify (set_command v) (after h l o b c)
  = Ok tt (after (set_command v h) l o b c).
Proof. reflexivity. Qed.

Lemma set_path_after v :
  modify (set_path v) (after h l o b c) = Ok tt (after (set_path v h) l o b c).
Proof. reflexivity. Qed.

Lemma set_headers_after v :
  modify (set_headers v) (after h l o b c)
  = Ok tt (after (set_headers v h) l o b c).
Proof. reflexivity. Qed.

Lemma set_close_connection_after v :
  modify (set_close_connection v) (after h l o b c) = Ok tt (after h l o b v).
Proof. reflexivity. Qed.

End Assignments.

Lemma protocol_is_old : Py.str_geb protocol_version "HTTP/1.1" = false.
Proof. reflexivity. Qed.

Section Parsing.

Variable W : World.
Variable cls : handler_class.

Lemma parse_request_version_after h l o b words :
  healthy h -> request_version h = Some default_request_version ->
  parse_request_version W cls words (after h l o b true)
  = match version_outcome W words with
    | inl (code, message) =>
        Ok false
          (effected cls h l o b true
             (error_effect W (requestline h) (command h) code (Some message)
                None))
    | inr version => Ok true (after (set_request_version version h) l o b true)
    end.
Proof.
  intros Hf V. assert (Hv : versioned h) by (unfold versioned; congruence).
  unfold parse_request_version, version_outcome.
  destruct (3 <=? length words)%nat.
  2: { rewrite ret_after. unfold after, set_request_version. cbn.
       now rewrite V. }
  destruct (parse_version W (last words "")) as [[vn base]|].
  2: { step (send_error_effect _ _ _ _ _ _ _ _ _ _ Hf Hv). apply ret_after. }
  rewrite protocol_is_old, andb_false_r. step (ret_after _ _ _ _ _ _).
  destruct (Py.pair_geb vn (2, 0)).
  - step (send_error_effect _ _ _ _ _ _ _ _ _ _ Hf Hv). apply ret_after.
  - step (set_request_version_after _ _ _ _ _ _). apply ret_after.
Qed.

Lemma parse_request_command_after h l o b words :
  healthy h -> versioned h ->
  parse_request_command W cls words (after h l o b true)
  = if (length words =? 2)%nat && negb (String.eqb (nth 0 words "") "GET")
    then Ok false
           (effected cls h l o b true
              (error_effect W (requestline h) (command h) 400
                 (Some ("Bad HTTP/0.9 request type ("
                        ++ py_repr W (nth 0 words "") ++ ")")) None))
    else Ok true
           (after (set_path (path_of (nth 1 words ""))
                     (set_command (Some (nth 0 words "")) h)) l o b true).
Proof.
  intros Hf Hv. unfold parse_request_command, path_of.
  assert (Hset : forall h0 : handler,
    bind (modify (set_command (Some (nth 0 words ""))))
      (fun _ => bind (modify (set_path (nth 1 words "")))
         (fun _ => bind (if Py.startswith (nth 1 words "") "//"
                          then modify (set_path
                                 ("/" ++ Py.lstrip Py.is_slash (nth 1 words "")))
                          else ret tt)
            (fun _ => ret true))) (after h0 l o b true)
    = Ok true
        (after (set_path (if Py.startswith (nth 1 words "") "//"
                          then "/" ++ Py.lstrip Py.is_slash (nth 1 words "")
                          else nth 1 words "")
                  (set_command (Some (nth 0 words "")) h0)) l o b true)).
  { intros h0. step (set_command_after _ _ _ _ _ _).
    step (set_path_after _ _ _ _ _ _).
    destruct (Py.startswith (nth 1 words "") "//").
    - step (set_path_after _ _ _ _ _ _). reflexivity.
    - step (ret_after _ _ _ _ _ _). reflexivity. }
  destruct (length words =? 2)%nat; cbn [andb].
  - rewrite bind_assoc.
    step (set_close_connection_after _ _ _ _ _ _).
    destruct (String.eqb (nth 0 words "") "GET"); cbn [negb].
    + step (ret_after _ _ _ _ _ _). cbn [negb]. apply Hset.
    + rewrite bind_assoc.
      step (send_error_effect _ _ _ _ _ _ _ _ _ _ Hf Hv). reflexivity.
  - step (ret_after _ _ _ _ _ _). cbn [negb]. apply Hset.
Qed.

Lemma parse_request_headers_after h l o b hp :
  healthy h -> versioned h ->
  parse_request_headers W cls hp (after h l o b true)
  = match hp with
    | LineTooLong err =>
        Ok false
          (effected cls h l o b true
             (error_effect W (requestline h) (command h) 431
                (Some "Line too long") (Some err)))
    | TooManyHeaders err =>
        Ok false
          (effected cls h l o b true
             (error_effect W (requestline h) (command h) 431
                (Some "Too many headers") (Some err)))
    | Headers hs => Ok true (after (set_headers hs h) l o b true)
    end.
Proof.
  intros Hf Hv. unfold parse_request_headers. destruct hp as [hs|err|err].
  2,3: step (send_error_effect _ _ _ _ _ _ _ _ _ _ Hf Hv); apply ret_after.
  step (set_headers_after _ _ _ _ _ _).
  rewrite protocol_is_old, !andb_false_r. cbn [andb].
  unfold versioned in Hv.
  destruct (request_version h) as [v|] eqn:V; [|congruence].
  destruct (String.eqb (Py.lower (headers_get "Connection" "" hs)) "close").
  - step (set_close_connection_after _ _ _ _ _ _).
    erewrite get_request_version_ok by exact V. reflexivity.
  - step (ret_after _ _ _ _ _ _).
    erewrite get_request_version_ok by exact V. reflexivity.
Qed.

Lemma parse_request_after h l o b c r :
  healthy h ->
  exists h',
    parse_request W cls r (after h l o b c)
    = match parse_outcome W r with
      | Silent => Ok false (after h' l o b true)
      | Failed version cmd code message explain =>
          Ok false
            (effected cls h' l o b true
               (error_effect W (request_line r) cmd code (Some message)
                  explain))
      | Parsed version command p hs => Ok true (after h' l o b true)
      end
    /\ match parse_outcome W r with
       | Silent =>
           assigned h h' (request_line r) default_request_version None
       | Failed version cmd _ _ _ =>
           assigned h h' (request_line r) version cmd
       | Parsed version command p hs =>
           assigned h h' (request_line r) version (Some command)
           /\ path h' = p /\ headers h' = hs
       end.
Proof.
  intros Hf. unfold parse_request, parse_outcome. fold (request_line r).
  set (words := Py.split (request_line r)).
  step (set_command_after _ _ _ _ _ _).
  step (set_request_version_after _ _ _ _ _ _).
  step (set_close_connection_after _ _ _ _ _ _).
  step (set_requestline_after _ _ _ _ _ _).
  destruct (length words =? 0)%nat.
  { eexists. split; [apply ret_after|repeat split]. }
  set (h0 := set_requestline (request_line r)
               (set_request_version default_request_version
                  (set_command None h))).
  assert (Hf0 : healthy h0) by exact Hf.
  assert (Hv0 : forall version, versioned (set_request_version version h0))
    by (intros version; discriminate).
  assert (A0 : forall version cmd h',
             assigned h0 h' (request_line r) version cmd ->
             assigned h h' (request_line r) version cmd).
  { intros version cmd h' A. exact A. }
  rewrite bind_eq, (parse_request_version_after h0 l o b words Hf0 eq_refl).
  destruct (version_outcome W words) as [[code message]|version].
  { eexists. split; [reflexivity|]. now apply A0. }
  cbn [negb].
  destruct (negb ((2 <=? length words)%nat && (length words <=? 3)%nat)).
  { step (send_error_effect W cls (set_request_version version h0)
            _ _ _ _ _ _ _ Hf0 (Hv0 version)).
    eexists. split; [reflexivity|]. now apply A0. }
  rewrite bind_eq,
    (parse_request_command_after (set_request_version version h0) _ _ _ _ Hf0
       (Hv0 version)).
  destruct ((length words =? 2)%nat && negb (String.eqb (nth 0 words "") "GET")).
  { eexists. split; [reflexivity|]. now apply A0. }
  cbn [negb].
  rewrite (parse_request_headers_after
             (set_path (path_of (nth 1 words ""))
                (set_command (Some (nth 0 words ""))
                   (set_request_version version h0))) _ _ _ _ Hf0
             (Hv0 version)).
  destruct (raw_headers r) as [hs|err|err].
  all: eexists; (split; [reflexivity|]); repeat split.
Qed.

End Parsing.

(** ** One request *)

Section Request.

Variable W : World.
Variable cls : handler_class.

Lemma effected_answers h0 h l o b c e version :
  directory h0 = directory h -> wfile_fault h0 = wfile_fault h ->
  wfile h0 = wfile h -> stderr h0 = stderr h ->
  request_version h0 = Some version -> (c || closes e = true) ->
  let h' := effected cls h0 l o b c e in
  directory h' = directory h
  /\ wfile_fault h' = wfile_fault h
  /\ close_connection h' = true
  /\ stderr h' = (stderr h ++ l ++ logged e)%list
  /\ request_version h' = Some version
  /\ wfile h'
     = (wfile h ++ o
        ++ block cls (String.eqb version "HTTP/0.9") (lines b ++ front e)
        ++ bodies e)%list
  /\ _headers_buffer h' = flushed (String.eqb version "HTTP/0.9") b.
Proof.
  intros Hd Hf Hw He Hv Hc. unfold effected, after, is_http09. cbn.
  rewrite Hd, Hf, Hw, He, Hv, Hc. repeat split.
Qed.

(** The exceptions of the library calls are not [TimeoutError]: the
    [except] of [handle_one_request] lets them through. *)
Lemma file_plan_throws rl cmd hs fspath x :
  file_plan W rl cmd hs fspath = Throws x -> is_TimeoutError x = false.
Proof.
  unfold file_plan. destruct (Py.endswith fspath "/"); [discriminate|].
  destruct (open_rb W fspath) as [f| | |]; try discriminate.
  - now destruct (not_modified W f hs).
  - now intros [= <-].
  - now intros [= <-].
Qed.

Lemma head_plan_throws d rl cmd p hs x :
  head_plan W d rl cmd p hs = Throws x -> is_TimeoutError x = false.
Proof.
  unfold head_plan.
  destruct (isdir W (translate_path W d p)); [|apply file_plan_throws].
  destruct (urlsplit W p) as [parts|]; [|now intros [= <-]].
  destruct (negb (Py.endswith (url_path parts) "/")); [discriminate|].
  destruct (find_index W (translate_path W d p)); [apply file_plan_throws|].
  unfold listing_plan.
  destruct (listdir W (translate_path W d p)) as [names|]; [|discriminate].
  destruct (listing_html W (translate_path W d p) p names); [discriminate|].
  now intros [= <-].
Qed.

Lemma GET_effect_throws d rl cmd p hs x :
  GET_effect W d rl cmd p hs = Throws x -> is_TimeoutError x = false.
Proof.
  unfold GET_effect.
  destruct (head_plan W d rl cmd p hs) as [[[source|] e]|y] eqn:E;
    try discriminate.
  intros [= <-]. exact (head_plan_throws _ _ _ _ _ _ E).
Qed.

Lemma HEAD_effect_throws d rl cmd p hs x :
  HEAD_effect W d rl cmd p hs = Throws x -> is_TimeoutError x = false.
Proof.
  unfold HEAD_effect.
  destruct (head_plan W d rl cmd p hs) as [[f e]|y] eqn:E; try discriminate.
  intros [= <-]. exact (head_plan_throws _ _ _ _ _ _ E).
Qed.

(** A method that is left by an exception of a library call leaves the
    handler as [parse_request] left it. *)
Lemma carried_answers h0 h l o b (a : attempt effect) version x h' :
  directory h0 = directory h -> wfile_fault h0 = wfile_fault h ->
  wfile h0 = wfile h -> stderr h0 = stderr h ->
  request_version h0 = Some version ->
  a = Throws x -> h' = after h0 l o b true ->
  directory h' = directory h
  /\ wfile_fault h' = wfile_fault h
  /\ close_connection h' = true
  /\ stderr h' = (stderr h ++ l ++ [])%list
  /\ request_version h' = Some version
  /\ wfile h' = (wfile h ++ o)%list /\ _headers_buffer h' = b.
Proof.
  intros Hd Hf Hw He Hv _ ->. unfold after. cbn.
  rewrite Hd, Hf, Hw, He, Hv, app_nil_r. repeat split.
Qed.

Lemma handle_one_request_after h l o b c r :
  healthy h ->
  exists h',
    handle_one_request W cls r (after h l o b c)
    = ends (escapes (response W (directory h) r)) h'
    /\ answered W cls h l o b r h'.
Proof.
  intros Hf. unfold handle_one_request, answered, response.
  destruct (65536 <? Py.len (raw_requestline r)).
  { eexists. split.
    - apply try_except_ok.
      step (set_requestline_after _ _ _ _ _ _).
      step (set_request_version_after _ _ _ _ _ _).
      step (set_command_after _ _ _ _ _ _).
      apply (send_error_effect W cls
               (set_command (Some "") (set_request_version ""
                  (set_requestline "" h)))); [exact Hf|discriminate].
    - cbn [logs_of].
      pose proof (effected_answers
                    (set_command (Some "") (set_request_version ""
                       (set_requestline "" h))) h l o b c
                    (error_effect W "" (Some "") 414 None None) ""
                    eq_refl eq_refl eq_refl eq_refl eq_refl
                    (orb_true_r c)) as A.
      cbv zeta in A. tauto. }
  destruct (Py.is_empty (raw_requestline r)).
  { eexists. split.
    - apply try_except_ok. apply set_close_connection_after.
    - cbn. rewrite app_nil_r. repeat split. }
  destruct (parse_request_after W cls h l o b c r Hf) as (h1 & E & A).
  destruct (parse_outcome W r) as [|version cmd code message explain
                                   |version meth p hs].
  - destruct A as (Hd & Hff & Hw & He & Hl & Hv & Hc).
    eexists. split.
    + apply try_except_ok. rewrite bind_eq, E. reflexivity.
    + cbn. rewrite Hd, Hff, Hw, He, app_nil_r. repeat split.
  - destruct A as (Hd & Hff & Hw & He & Hl & Hv & Hc).
    eexists. split.
    + apply try_except_ok. rewrite bind_eq, E. reflexivity.
    + cbn [logs_of].
      pose proof (effected_answers h1 h l o b true
                    (error_effect W (request_line r) cmd code (Some message)
                       explain) version Hd Hff Hw He Hv eq_refl) as A.
      cbv zeta in A. tauto.
  - destruct A as ((Hd & Hff & Hw & He & Hl & Hv & Hc) & Hp & Hh).
    assert (Hf1 : healthy h1) by (unfold healthy; congruence).
    assert (Hv1 : versioned h1) by (unfold versioned; congruence).
    assert (B : forall m : M unit,
               (ok <- parse_request W cls r;;
                if negb ok then ret tt
                else c0 <- gets command;;
                     match c0 with
                     | None => raise TypeError
                     | Some command0 =>
                         match method W cls ("do_" ++ command0) with
                         | None =>
                             send_error W cls 501
                               (Some ("Unsupported method ("
                                      ++ py_repr W command0 ++ ")")) None
                         | Some m0 => m0;; wfile_flush
                         end
                     end) (after h l o b c)
               = match method W cls ("do_" ++ meth) with
                 | None =>
                     send_error W cls 501
                       (Some ("Unsupported method (" ++ py_repr W meth ++ ")"))
                       None (after h1 l o b true)
                 | Some m0 => (m0;; wfile_flush) (after h1 l o b true)
                 end).
    { intros _. rewrite bind_eq, E. cbn [negb].
      step (gets_after _ _ _ _ _ _). cbn [command after]. rewrite Hc.
      now destruct (method W cls ("do_" ++ meth)). }
    unfold try_except. rewrite (B (ret tt)). clear B. unfold method.
    destruct (String.eqb ("do_" ++ meth) "do_GET") eqn:EG;
      [|destruct (String.eqb ("do_" ++ meth) "do_HEAD") eqn:EH].
    + rewrite bind_eq, (do_GET_effect W cls h1 _ _ _ _ Hf1 Hv1).
      rewrite Hd, Hl, Hc, Hp, Hh.
      destruct (GET_effect W (directory h) (request_line r) (Some meth) p hs)
        as [e|x] eqn:G; cbn [carried escapes ends logs_of].
      * eexists. split; [reflexivity|].
        pose proof (effected_answers h1 h l o b true e version
                      Hd Hff Hw He Hv eq_refl) as A.
        cbv zeta in A. tauto.
      * rewrite (GET_effect_throws _ _ _ _ _ _ G).
        eexists. split; [reflexivity|].
        pose proof (carried_answers h1 h l o b _ version x _
                      Hd Hff Hw He Hv G eq_refl) as A. tauto.
    + rewrite bind_eq, (do_HEAD_effect W cls h1 _ _ _ _ Hf1 Hv1).
      rewrite Hd, Hl, Hc, Hp, Hh.
      destruct (HEAD_effect W (directory h) (request_line r) (Some meth) p hs)
        as [e|x] eqn:G; cbn [carried escapes ends logs_of].
      * eexists. split; [reflexivity|].
        pose proof (effected_answers h1 h l o b true e version
                      Hd Hff Hw He Hv eq_refl) as A.
        cbv zeta in A. tauto.
      * rewrite (HEAD_effect_throws _ _ _ _ _ _ G).
        eexists. split; [reflexivity|].
        pose proof (carried_answers h1 h l o b _ version x _
                      Hd Hff Hw He Hv G eq_refl) as A. tauto.
    + rewrite (send_error_effect W cls h1 _ _ _ _ _ _ _ Hf1 Hv1).
      eexists. split; [reflexivity|].
      rewrite Hl, Hc. cbn [logs_of].
      pose proof (effected_answers h1 h l o b true
                    (error_effect W (request_line r) (Some meth) 501
                       (Some ("Unsupported method (" ++ py_repr W meth
                              ++ ")")) None)
                    version Hd Hff Hw He Hv eq_refl) as A.
      cbv zeta in A. tauto.
Qed.

End Request.

(** ** The model on concrete requests

    The scenario of the specification: the root holds [index.html] with
    content [<h1>hi</h1>]. *)

Example get_index_html :
  Demo.served NoCacheHandler (Demo.get "GET /index.html HTTP/1.1")
  = [ HeaderBlock
        [ "HTTP/1.0 200 OK" ++ crlf;
          "Server: SimpleHTTP/0.6 Python/3.11.2" ++ crlf;
          "Date: Thu, 01 Jan 1970 00:00:00 GMT" ++ crlf;
          "Content-type: text/html" ++ crlf;
          "Content-Length: 11" ++ crlf;
          "Last-Modified: Thu, 01 Jan 1970 00:00:00 GMT" ++ crlf;
          "Cache-Control: no-cache, no-store, must-revalidate" ++ crlf;
          crlf ];
      Body "<h1>hi</h1>" ].
Proof. vm_compute. reflexivity. Qed.

Example get_index_html_plain_handler :
  Demo.served SimpleHTTPRequestHandler (Demo.get "GET /index.html HTTP/1.1")
  = [ HeaderBlock
        [ "HTTP/1.0 200 OK" ++ crlf;
          "Server: SimpleHTTP/0.6 Python/3.11.2" ++ crlf;
          "Date: Thu, 01 Jan 1970 00:00:00 GMT" ++ crlf;
          "Content-type: text/html" ++ crlf;
          "Content-Length: 11" ++ crlf;
          "Last-Modified: Thu, 01 Jan 1970 00:00:00 GMT" ++ crlf;
          crlf ];
      Body "<h1>hi</h1>" ].
Proof. vm_compute. reflexivity. Qed.

Example get_missing_txt :
  exists page,
    Demo.served NoCacheHandler (Demo.get "GET /missing.txt HTTP/1.1")
    = [ HeaderBlock
          [ "HTTP/1.0 404 File not found" ++ crlf;
            "Server: SimpleHTTP/0.6 Python/3.11.2" ++ crlf;
            "Date: Thu, 01 Jan 1970 00:00:00 GMT" ++ crlf;
            "Connection: close" ++ crlf;
            "Content-Type: text/html;charset=utf-8" ++ crlf;
            "Content-Length: 335" ++ crlf;
            "Cache-Control: no-cache, no-store, must-revalidate" ++ crlf;
            crlf ];
        Body page ]
    /\ String.length page = 335%nat.
Proof. eexists. split; vm_compute; reflexivity. Qed.

Example get_directory_without_slash :
  Demo.served NoCacheHandler (Demo.get "GET /docs HTTP/1.1")
  = [ HeaderBlock
        [ "HTTP/1.0 301 Moved Permanently" ++ crlf;
          "Server: SimpleHTTP/0.6 Python/3.11.2" ++ crlf;
          "Date: Thu, 01 Jan 1970 00:00:00 GMT" ++ crlf;
          "Location: /docs/" ++ crlf;
          "Content-Length: 0" ++ crlf;
          "Cache-Control: no-cache, no-store, must-revalidate" ++ crlf;
          crlf ] ].
Proof. vm_compute. reflexivity. Qed.

Example second_request_on_a_connection_is_not_read :
  served
    (main Demo.proc
       [ mkConnection Demo.world
           [ Demo.get "HEAD /index.html HTTP/1.1";
             Demo.get "GET /index.html HTTP/1.1" ] None ])
  = [ Demo.served NoCacheHandler (Demo.get "HEAD /index.html HTTP/1.1") ].
Proof. vm_compute. reflexivity. Qed.

(** Requests on which a library call raises an exception that nothing
    catches: a NUL byte in the path ([open]), a target that [urlsplit]
    refuses, a lone surrogate on the page of a listing ([encode]).
    Nothing is written and nothing is logged. *)
Example get_nul_byte_raises_ValueError :
  let res := handle_one_request Demo.world NoCacheHandler
               (Demo.get "GET /%00 HTTP/1.0") Demo.fresh in
  raised res = Some ValueError
  /\ wfile (final res) = [] /\ stderr (final res) = [].
Proof. vm_compute. repeat split. Qed.

Example get_bad_url_raises_ValueError :
  let res := handle_one_request Demo.world NoCacheHandler
               (Demo.get "GET x://[/../.. HTTP/1.0") Demo.fresh in
  raised res = Some ValueError
  /\ wfile (final res) = [] /\ stderr (final res) = [].
Proof. vm_compute. repeat split. Qed.

Example get_surrogate_listing_raises_UnicodeEncodeError :
  let res := handle_one_request Demo.world NoCacheHandler
               (Demo.get "GET /docs/?%ED%A0%80 HTTP/1.0") Demo.fresh in
  raised res = Some UnicodeEncodeError
  /\ wfile (final res) = [] /\ stderr (final res) = [].
Proof. vm_compute. repeat split. Qed.

(** ** Properties of the response function *)

Lemma handle_one_request_spec W cls r h :
  healthy h ->
  exists h',
    handle_one_request W cls r h
    = ends (escapes (response W (directory h) r)) h'
    /\ answered W cls h [] [] (_headers_buffer h) r h'.
Proof.
  intros Hf.
  destruct (handle_one_request_after W cls h [] [] (_headers_buffer h)
              (close_connection h) r Hf) as (h' & E & A).
  rewrite after_id in E. now exists h'.
Qed.

Lemma error_body_is_body c code message explain :
  Forall is_body (error_body c code message explain).
Proof.
  unfold error_body.
  destruct (negb (is_HEAD c) && error_with_body code
            && negb (Py.is_empty (error_page code message explain)));
    repeat constructor.
Qed.

Lemma copied_is_body source : Forall is_body (copied source).
Proof. unfold copied. destruct (Py.is_empty source); repeat constructor. Qed.

Lemma error_effect_well_formed W rl cmd code message explain :
  well_formed (error_effect W rl cmd code message explain).
Proof.
  split; [|apply error_body_is_body].
  unfold error_effect, error_head. cbn [front app]. eauto.
Qed.

Lemma reply_effect_well_formed W rl code phrase extra :
  well_formed (reply_effect rl code (reply_head W code phrase ++ extra)).
Proof.
  split; [|constructor]. unfold reply_effect, reply_head. cbn [front app].
  eauto.
Qed.

(** What holds of every error effect and of every reply effect holds of
    the effect of a plan. *)
Section Plans.

Variables (W : World) (rl : string) (cmd : option string).
Variable P : effect -> Prop.
Hypothesis P_error :
  forall code message explain,
    P (error_effect W rl cmd code message explain).
Hypothesis P_reply :
  forall code phrase extra,
    P (reply_effect rl code (reply_head W code phrase ++ extra)).

Lemma file_plan_gives hs fspath f e :
  file_plan W rl cmd hs fspath = Gives (f, e) -> P e.
Proof.
  unfold file_plan, not_found.
  destruct (Py.endswith fspath "/"); [intros [= _ <-]; apply P_error|].
  destruct (open_rb W fspath) as [f0| | |]; try discriminate.
  2: intros [= _ <-]; apply P_error.
  destruct (not_modified W f0 hs); intros [= _ <-].
  - rewrite <- (app_nil_r (reply_head W 304 "Not Modified")). apply P_reply.
  - apply (P_reply 200 "OK"
             [ header_line "Content-type" (guess_type W fspath);
               header_line "Content-Length" (Py.str (st_size f0));
               header_line "Last-Modified"
                 (date_time_string W (Some (st_mtime f0))) ]).
Qed.

Lemma listing_plan_gives p fspath f e :
  listing_plan W rl cmd p fspath = Gives (f, e) -> P e.
Proof.
  unfold listing_plan.
  destruct (listdir W fspath) as [names|]; [|intros [= _ <-]; apply P_error].
  destruct (listing_html W fspath p names); [|discriminate].
  intros [= _ <-]. apply P_reply.
Qed.

Lemma head_plan_gives d p hs f e :
  head_plan W d rl cmd p hs = Gives (f, e) -> P e.
Proof.
  unfold head_plan.
  destruct (isdir W (translate_path W d p)); [|apply file_plan_gives].
  destruct (urlsplit W p) as [parts|]; [|discriminate].
  destruct (negb (Py.endswith (url_path parts) "/")).
  - intros [= _ <-]. apply P_reply.
  - destruct (find_index W (translate_path W d p)).
    + apply file_plan_gives.
    + apply listing_plan_gives.
Qed.

Lemma HEAD_effect_gives d p hs e :
  HEAD_effect W d rl cmd p hs = Gives e -> P e.
Proof.
  unfold HEAD_effect.
  destruct (head_plan W d rl cmd p hs) as [[f e0]|x] eqn:E; [|discriminate].
  intros [= <-]. exact (head_plan_gives _ _ _ _ _ E).
Qed.

End Plans.

Lemma head_plan_well_formed W d rl cmd p hs f e :
  head_plan W d rl cmd p hs = Gives (f, e) -> well_formed e.
Proof.
  apply head_plan_gives.
  - apply error_effect_well_formed.
  - apply reply_effect_well_formed.
Qed.

Lemma GET_effect_well_formed W d rl cmd p hs e :
  GET_effect W d rl cmd p hs = Gives e -> well_formed e.
Proof.
  unfold GET_effect.
  destruct (head_plan W d rl cmd p hs) as [[[source|] e0]|x] eqn:E;
    [| |discriminate]; intros [= <-];
    destruct (head_plan_well_formed _ _ _ _ _ _ _ _ E) as [Hfr Hb].
  - split; [exact Hfr|]. unfold with_bodies. cbn [bodies].
    apply Forall_app. split; [exact Hb|apply copied_is_body].
  - now split.
Qed.

Lemma HEAD_effect_well_formed W d rl cmd p hs e :
  HEAD_effect W d rl cmd p hs = Gives e -> well_formed e.
Proof.
  apply HEAD_effect_gives.
  - apply error_effect_well_formed.
  - apply reply_effect_well_formed.
Qed.

Lemma response_well_formed W d r version e :
  response W d r = Some (version, Gives e) -> well_formed e.
Proof.
  unfold response.
  destruct (65536 <? Py.len (raw_requestline r)).
  { intros [= _ <-]. apply error_effect_well_formed. }
  destruct (Py.is_empty (raw_requestline r)); [discriminate|].
  destruct (parse_outcome W r) as [|v cmd code message explain|v meth p hs].
  - discriminate.
  - intros [= _ <-]. apply error_effect_well_formed.
  - destruct (String.eqb ("do_" ++ meth) "do_GET");
      [intros [= _ E]; exact (GET_effect_well_formed _ _ _ _ _ _ _ E)|].
    destruct (String.eqb ("do_" ++ meth) "do_HEAD"); intros [= _ E];
      [exact (HEAD_effect_well_formed _ _ _ _ _ _ _ E)|].
    rewrite <- E. apply error_effect_well_formed.
Qed.

Lemma idle_lines h : idle h -> lines (_headers_buffer h) = [].
Proof. now intros [-> | ->]. Qed.

Lemma flushed_idle v b :
  b = None \/ b = Some [] -> flushed v b = None \/ flushed v b = Some [].
Proof. destruct v; cbn; auto. Qed.

Lemma empty_line_has_no_words r :
  Py.is_empty (raw_requestline r) = true -> Py.split (request_line r) = [].
Proof.
  unfold request_line. destruct (raw_requestline r); [reflexivity|discriminate].
Qed.




(** What [parse_request] accepted, in terms of [parse_outcome]. *)
Lemma parse_request_accepts W cls r h h1 :
  healthy h -> parse_request W cls r h = Ok true h1 ->
  exists v,
    request_version h1 = Some v
    /\ parse_outcome W r
       = Parsed v match command h1 with Some m => m | None => "" end
           (path h1) (headers h1)
    /\ command h1 <> None /\ directory h1 = directory h.
Proof.
  intros Hf E.
  destruct (parse_request_after W cls h [] [] (_headers_buffer h)
              (close_connection h) r Hf) as (h' & E' & A).
  rewrite after_id, E in E'.
  destruct (parse_outcome W r) as [|v cmd code message explain|v meth p hs];
    try discriminate.
  destruct A as ((Hd & _ & _ & _ & _ & Hv & Hc) & Hp & Hh).
  injection E' as ->. exists v.
  cbn [request_version command path headers directory after].
  rewrite Hv, Hc, Hp, Hh, Hd. repeat split. discriminate.
Qed.

Lemma wire_copied source : wire (copied source) = source.
Proof.
  unfold copied, Py.is_empty.
  destruct source; reflexivity.
Qed.

(** ** Paths stay under the served directory *)

Lemma prefix_nil p : String.prefix "" p = true.
Proof. now destruct p. Qed.

Lemma prefix_refl s : String.prefix s s = true.
Proof.
  induction s as [|c s IH]; cbn; [reflexivity|].
  now destruct (ascii_dec c c).
Qed.

Lemma prefix_append d p x :
  String.prefix d p = true -> String.prefix d (p ++ x) = true.
Proof.
  revert p. induction d as [|c d IH]; intros p; [intros _; apply prefix_nil|].
  destruct p as [|c' p]; cbn; [discriminate|].
  destruct (ascii_dec c c'); [apply IH|discriminate].
Qed.

Lemma no_slash_not_absolute word :
  Py.contains "/" word = false -> Py.startswith word "/" = false.
Proof.
  destruct word as [|c w]; [reflexivity|]. intros H.
  change (Py.contains "/" (String c w))
    with (Ascii.eqb "/" c || Py.contains "/" w) in H.
  apply orb_false_iff in H as [H _].
  unfold Py.startswith.
  change (String.prefix "/" (String c w))
    with (match ascii_dec "/" c with
          | left _ => String.prefix "" w
          | right _ => false
          end).
  destruct (ascii_dec "/" c) as [<-|]; [|reflexivity].
  rewrite Ascii.eqb_refl in H. discriminate.
Qed.

Lemma translate_step_prefix d p word :
  String.prefix d p = true -> String.prefix d (translate_step p word) = true.
Proof.
  intros H. unfold translate_step.
  destruct (Py.contains "/" word) eqn:E; cbn [orb]; [exact H|].
  destruct (String.eqb word "." || String.eqb word ".."); [exact H|].
  unfold Py.path_join. rewrite (no_slash_not_absolute _ E).
  destruct (Py.is_empty p || Py.endswith p "/"); now apply prefix_append.
Qed.

Lemma translate_path_prefix W d p :
  String.prefix d (translate_path W d p) = true.
Proof.
  unfold translate_path.
  set (words := filter _ _).
  assert (H : forall q, String.prefix d q = true ->
                        String.prefix d (fold_left translate_step words q) = true).
  { induction words as [|w ws IH]; intros q Hq; [exact Hq|].
    cbn. apply IH. now apply translate_step_prefix. }
  destruct (Py.endswith _ "/"); [apply prefix_append|]; apply H, prefix_refl.
Qed.

(** ** The override on any handler state *)

Lemma handler_eta h :
  mkHandler (directory h) (requestline h) (request_version h) (command h)
    (path h) (headers h) (close_connection h) (_headers_buffer h) (wfile h)
    (wfile_fault h) (stderr h) = h.
Proof. now destruct h. Qed.

(** [send_header] reads [request_version], touches the header buffer and
    [close_connection] only, and raises nothing but the [AttributeError]
    of that read. *)
Lemma send_header_any keyword value h :
  send_header keyword value h
  = match request_version h with
    | None => Raise AttributeError h
    | Some v =>
        Ok tt (set_close_connection (conn keyword value (close_connection h))
                 (set_headers_buffer
                    (push (String.eqb v "HTTP/0.9") (_headers_buffer h)
                       [header_line keyword value]) h))
    end.
Proof.
  destruct (request_version h) as [v|] eqn:V.
  - assert (Hv : versioned h) by (unfold versioned; congruence).
    pose proof (send_header_after h [] [] (_headers_buffer h)
                  (close_connection h) keyword value Hv) as E.
    rewrite after_id in E. rewrite E. unfold is_http09. rewrite V.
    unfold after, set_close_connection, set_headers_buffer. cbn.
    now rewrite !app_nil_r.
  - unfold send_header, bind, get_request_version. now rewrite V.
Qed.

Lemma send_cache_control h :
  send_header "Cache-Control" cache_control h
  = match request_version h with
    | None => Raise AttributeError h
    | Some v =>
        Ok tt (set_headers_buffer
                 (push (String.eqb v "HTTP/0.9") (_headers_buffer h)
                    [cache_control_line]) h)
    end.
Proof.
  rewrite send_header_any. destruct (request_version h) as [v|]; [|reflexivity].
  change (conn "Cache-Control" cache_control (close_connection h))
    with (close_connection h).
  unfold set_close_connection, set_headers_buffer. cbn. reflexivity.
Qed.

(** The override is the base [end_headers] run on the state its
    [send_header] leaves. *)
Lemma override_unfolds h :
  NoCacheHandler_end_headers h
  = super_end_headers (final (send_header "Cache-Control" cache_control h)).
Proof.
  unfold NoCacheHandler_end_headers. rewrite bind_eq, send_cache_control.
  destruct (request_version h) as [v|] eqn:V; [reflexivity|].
  cbn [final]. unfold super_end_headers, bind, get_request_version.
  now rewrite V.
Qed.

(** What the override does on every handler state: without a request
    version the [AttributeError] of the read; under HTTP/0.9 nothing;
    otherwise one write of the buffered lines, the injected line and the
    blank line, or the exception of the failed write. *)
Lemma override_any h :
  NoCacheHandler_end_headers h
  = match request_version h with
    | None => Raise AttributeError h
    | Some v =>
        if String.eqb v "HTTP/0.9" then Ok tt h
        else match wfile_fault h with
             | Some e =>
                 Raise e
                   (set_headers_buffer
                      (Some (lines (_headers_buffer h)
                             ++ [cache_control_line; crlf])%list) h)
             | None =>
                 Ok tt
                   (set_headers_buffer (Some [])
                      (set_wfile
                         (wfile h
                          ++ [HeaderBlock
                                (lines (_headers_buffer h)
                                 ++ [cache_control_line; crlf])])%list h))
             end
    end.
Proof.
  rewrite override_unfolds, send_cache_control.
  destruct (request_version h) as [v|] eqn:V; cbn [final].
  2: { unfold super_end_headers, bind, get_request_version. now rewrite V. }
  unfold super_end_headers.
  erewrite get_request_version_ok by exact V.
  unfold push.
  destruct (String.eqb v "HTTP/0.9") eqn:V9; cbn [negb].
  - unfold ret, set_headers_buffer. now rewrite handler_eta.
  - unfold headers_buffer_append, flush_headers, bind, gets, wfile_write,
      modify. cbn.
    destruct (wfile_fault h); cbn; rewrite <- app_assoc; reflexivity.
Qed.

(** ** What every run keeps

    A property of the chunks written that holds after a body chunk is
    added and after a header block closed by the injected line is added
    holds after any method of the no-cache handler, on any handler state
    and however the method ends. *)

Section Keeps.

Variable P : list chunk -> Prop.
Hypothesis P_body : forall w d, P w -> P (w ++ [Body d]).
Hypothesis P_block :
  forall w ls, P w -> P (w ++ [HeaderBlock (ls ++ [cache_control_line; crlf])]).

Let I (h : handler) : Prop := P (wfile h).

Lemma keeps_ret {A} (a : A) : keeps I (ret a).
Proof. intros h H. exact H. Qed.

Lemma keeps_raise {A} e : keeps I (@raise A e).
Proof. intros h H. exact H. Qed.

Lemma keeps_gets {A} (f : handler -> A) : keeps I (gets f).
Proof. intros h H. exact H. Qed.

Lemma keeps_bind {A B} (m : M A) (k : A -> M B) :
  keeps I m -> (forall a, keeps I (k a)) -> keeps I (bind m k).
Proof.
  intros Hm Hk h H. unfold bind. specialize (Hm h H).
  destruct (m h) as [a h'|e h']; [apply Hk|]; exact Hm.
Qed.

Lemma keeps_try_except {A} (m : M A) catches k :
  keeps I m -> (forall e, keeps I (k e)) -> keeps I (try_except m catches k).
Proof.
  intros Hm Hk h H. unfold try_except. specialize (Hm h H).
  destruct (m h) as [a h'|e h']; [exact Hm|].
  destruct (catches e); [apply Hk|]; exact Hm.
Qed.

Lemma keeps_modify f :
  (forall h, wfile (f h) = wfile h) -> keeps I (modify f).
Proof. intros Hf h H. unfold I. cbn. now rewrite Hf. Qed.

Lemma keeps_wfile_write_body d : keeps I (wfile_write (Body d)).
Proof.
  intros h H. unfold wfile_write. destruct (wfile_fault h); [exact H|].
  apply P_body, H.
Qed.

Lemma keeps_get_request_version : keeps I get_request_version.
Proof.
  intros h H. unfold get_request_version.
  now destruct (request_version h).
Qed.

Lemma keeps_ensure_headers_buffer : keeps I ensure_headers_buffer.
Proof.
  intros h H. unfold ensure_headers_buffer.
  destruct (_headers_buffer h); exact H.
Qed.

Lemma keeps_headers_buffer_append line :
  keeps I (headers_buffer_append line).
Proof.
  intros h H. unfold headers_buffer_append.
  destruct (_headers_buffer h); exact H.
Qed.

Lemma keeps_send_response_only code message :
  keeps I (send_response_only code message).
Proof.
  unfold send_response_only. apply keeps_bind.
  - apply keeps_get_request_version.
  - intros v. destruct (negb (String.eqb v "HTTP/0.9")); [|apply keeps_ret].
    apply keeps_bind; [apply keeps_ensure_headers_buffer|].
    intros _. apply keeps_headers_buffer_append.
Qed.

Lemma keeps_send_header keyword value : keeps I (send_header keyword value).
Proof.
  intros h H. rewrite send_header_any.
  now destruct (request_version h).
Qed.

Lemma keeps_override : keeps I (end_headers NoCacheHandler).
Proof.
  intros h H. cbn [end_headers]. rewrite override_any.
  destruct (request_version h) as [v|]; [|exact H].
  destruct (String.eqb v "HTTP/0.9"); [exact H|].
  destruct (wfile_fault h); [exact H|]. apply P_block, H.
Qed.

Ltac keeps_step :=
  first
    [ apply keeps_ret | apply keeps_raise | apply keeps_gets
    | apply keeps_get_request_version
    | apply keeps_modify; reflexivity
    | apply keeps_wfile_write_body
    | apply keeps_send_response_only | apply keeps_send_header
    | apply keeps_override
    | apply keeps_bind; [|intros ?]
    | match goal with
      | |- keeps _ (match method _ _ _ with _ => _ end) => unfold method
      | |- keeps _ (match (if ?b then _ else _) with _ => _ end) => destruct b
      | |- keeps _ (if ?b then _ else _) => destruct b
      | |- keeps _ (match ?x with _ => _ end) => destruct x
      | |- keeps _ (let (_, _) := ?x in _) => destruct x
      end ].

Variable W : World.

Lemma keeps_send_response code message :
  keeps I (send_response W code message).
Proof. unfold send_response, log_request, log_message. repeat keeps_step. Qed.

Lemma keeps_send_error code message explain :
  keeps I (send_error W NoCacheHandler code message explain).
Proof.
  unfold send_error, log_error, log_message.
  repeat first [apply keeps_send_response | keeps_step].
Qed.

Lemma keeps_send_head : keeps I (send_head W NoCacheHandler).
Proof.
  unfold send_head, send_head_file, list_directory.
  repeat first [apply keeps_send_response | apply keeps_send_error
               | keeps_step].
Qed.

Lemma keeps_do_GET : keeps I (do_GET W NoCacheHandler).
Proof.
  unfold do_GET, copyfile. repeat first [apply keeps_send_head | keeps_step].
Qed.

Lemma keeps_do_HEAD : keeps I (do_HEAD W NoCacheHandler).
Proof. unfold do_HEAD. repeat first [apply keeps_send_head | keeps_step]. Qed.

Lemma keeps_parse_request r : keeps I (parse_request W NoCacheHandler r).
Proof.
  unfold parse_request, parse_request_version, parse_request_command,
    parse_request_headers, handle_expect_100.
  repeat first [apply keeps_send_error | keeps_step].
Qed.

Lemma keeps_handle_one_request r :
  keeps I (handle_one_request W NoCacheHandler r).
Proof.
  unfold handle_one_request, log_error, log_message, wfile_flush.
  apply keeps_try_except; [|intros e; repeat keeps_step].
  repeat first [apply keeps_send_error | apply keeps_parse_request
               | apply keeps_do_GET | apply keeps_do_HEAD | keeps_step].
Qed.

Lemma keeps_handle rfile : keeps I (handle W NoCacheHandler rfile).
Proof.
  unfold handle. apply keeps_bind; [apply keeps_modify; reflexivity|].
  intros _. induction rfile as [|r rfile' IH]; cbn [handle_requests].
  - apply keeps_handle_one_request.
  - repeat first [apply keeps_handle_one_request | exact IH | keeps_step].
Qed.

End Keeps.

(** Every header block the server writes, on any connection, ends with
    the injected line and the blank line. *)
Lemma server_header_blocks p conns w ls :
  In w (served (main p conns)) -> In (HeaderBlock ls) w ->
  ends_with_cache_control ls.
Proof.
  unfold main, HTTPServer.
  destruct (can_bind p ("0.0.0.0", 5000)); cbn [served]; [|intros []].
  unfold serve_forever. rewrite in_map_iff.
  intros (c & <- & _). unfold finish_request.
  cbn [RequestHandlerClass].
  apply (keeps_handle
           (fun w => forall ls, In (HeaderBlock ls) w ->
                                ends_with_cache_control ls)).
  - intros w0 d H ls0 Hin. apply in_app_or in Hin as [Hin|[Hin|[]]].
    + now apply H.
    + discriminate.
  - intros w0 ls1 H ls0 Hin. apply in_app_or in Hin as [Hin|[Hin|[]]].
    + now apply H.
    + injection Hin as <-. now exists ls1.
  - intros ls0 [].
Qed.

(** The same for one request on any handler state, whatever is pending
    in its buffer and whether or not the connection takes writes. *)
Lemma request_header_blocks W r h ls :
  In (HeaderBlock ls) (wfile (final (handle_one_request W NoCacheHandler r h)))
  -> In (HeaderBlock ls) (wfile h) \/ In cache_control_line ls.
Proof.
  revert ls.
  apply (keeps_handle_one_request
           (fun w => forall ls, In (HeaderBlock ls) w ->
                                In (HeaderBlock ls) (wfile h)
                                \/ In cache_control_line ls)).
  - intros w0 d H ls0 Hin. apply in_app_or in Hin as [Hin|[Hin|[]]].
    + now apply H.
    + discriminate.
  - intros w0 ls1 H ls0 Hin. apply in_app_or in Hin as [Hin|[Hin|[]]].
    + now apply H.
    + injection Hin as <-. right. apply in_or_app. right. now left.
  - intros ls0 Hin. now left.
Qed.

(** ** The header blocks of a response *)

Lemma no_block_among_bodies bs ls :
  Forall is_body bs -> ~ In (HeaderBlock ls) bs.
Proof.
  intros Hb Hin. rewrite Forall_forall in Hb. exact (Hb _ Hin).
Qed.

(** What a handler with no pending header line does with a request, on a
    connection that takes writes: the response function. *)
Lemma answered_written W cls r h :
  healthy h -> idle h ->
  exists h',
    handle_one_request W cls r h
    = ends (escapes (response W (directory h) r)) h'
    /\ wfile h' = (wfile h ++ written cls (response W (directory h) r))%list
    /\ stderr h' = (stderr h ++ logs_of (response W (directory h) r))%list
    /\ close_connection h' = true
    /\ idle h'
    /\ directory h' = directory h
    /\ healthy h'.
Proof.
  intros Hf Hi.
  destruct (handle_one_request_spec W cls r h Hf)
    as (h' & E & D & F & C & S & A).
  exists h'. split; [exact E|]. cbv zeta in *.
  rewrite (idle_lines _ Hi) in A. unfold written.
  assert (Hh : healthy h') by (unfold healthy; congruence).
  assert (Hi' : forall v, _headers_buffer h' = flushed v (_headers_buffer h)
                          -> idle h').
  { intros v Hb. unfold idle. rewrite Hb. now apply flushed_idle. }
  destruct (response W (directory h) r) as [[version [e|x]]|];
    cbn [logs_of app] in *.
  - destruct A as (_ & Hw & Hb). pose proof (Hi' _ Hb). cbn [app] in Hw.
    repeat split; assumption.
  - destruct A as (_ & Hw & Hb). rewrite !app_nil_r.
    rewrite ?app_nil_r in Hw, S.
    assert (idle h') by (unfold idle; now rewrite Hb).
    repeat split; assumption.
  - destruct A as (Hw & Hb). rewrite !app_nil_r.
    rewrite ?app_nil_r in Hw, S.
    assert (idle h') by (unfold idle; now rewrite Hb).
    repeat split; assumption.
Qed.



(** Every header block a no-cache handler writes for a request is a
    status line, headers, the injected line and the blank line. *)
Lemma written_header_blocks W d r ls :
  In (HeaderBlock ls) (written NoCacheHandler (response W d r)) ->
  exists code phrase hs,
    ls = (status_line code phrase :: hs ++ [cache_control_line; crlf])%list.
Proof.
  unfold written.
  destruct (response W d r) as [[version [e|x]]|] eqn:R; try (intros []).
  destruct (response_well_formed _ _ _ _ _ R)
    as ((code & phrase & rest & Hfr) & Hb).
  intros Hin. destruct (String.eqb version "HTTP/0.9"); cbn in Hin.
  - destruct (no_block_among_bodies _ _ Hb Hin).
  - destruct Hin as [Hin|Hin];
      [|destruct (no_block_among_bodies _ _ Hb Hin)].
    injection Hin as <-. exists code, phrase, rest. now rewrite Hfr.
Qed.

Lemma bodies_unchanged bs :
  Forall is_body bs -> Forall2 adds_cache_control bs bs.
Proof.
  induction 1 as [|c bs Hc _ IH]; constructor; [|exact IH].
  destruct c; [contradiction|constructor].
Qed.

Lemma written_adds_cache_control v9 ls bs :
  Forall is_body bs ->
  Forall2 adds_cache_control
    (block SimpleHTTPRequestHandler v9 ls ++ bs)
    (block NoCacheHandler v9 ls ++ bs).
Proof.
  intros Hb. destruct v9; cbn; [now apply bodies_unchanged|].
  constructor; [constructor|now apply bodies_unchanged].
Qed.

(** Both classes of handler do the same with a request, up to the one
    line: the same exception or none, the same log, chunks that differ by
    the injected line. *)
Lemma written_same_but_header W d r :
  Forall2 adds_cache_control
    (written SimpleHTTPRequestHandler (response W d r))
    (written NoCacheHandler (response W d r)).
Proof.
  unfold written.
  destruct (response W d r) as [[version [e|x]]|] eqn:R; try constructor.
  apply written_adds_cache_control.
  now destruct (response_well_formed _ _ _ _ _ R).
Qed.

(** ** Requests that [parse_request] accepts *)

Lemma error_page_not_empty code message explain :
  Py.is_empty (error_page code message explain) = false.
Proof. reflexivity. Qed.

Lemma error_body_page c code message explain :
  is_HEAD c = false -> error_with_body code = true ->
  error_body c code message explain
  = [Body (error_page code message explain)].
Proof.
  intros Hc Hw. unfold error_body.
  now rewrite Hc, Hw, error_page_not_empty.
Qed.

Lemma words_not_empty r :
  Py.split (request_line r) <> [] -> Py.is_empty (raw_requestline r) = false.
Proof.
  intros H. destruct (Py.is_empty (raw_requestline r)) eqn:E; [|reflexivity].
  now apply empty_line_has_no_words in E.
Qed.

(** The response to a request that [parse_request] accepts. *)
Lemma accepted_response W cls r h h1 :
  healthy h ->
  (65536 <? Py.len (raw_requestline r)) = false ->
  parse_request W cls r h = Ok true h1 ->
  exists m v,
    command h1 = Some m
    /\ request_version h1 = Some v
    /\ directory h1 = directory h
    /\ response W (directory h) r
       = Some (v, method_effect W h1 (request_line r) m).
Proof.
  intros Hf Hlen Hp.
  destruct (parse_request_accepts W cls r h h1 Hf Hp)
    as (v & Hv & Ho & Hc & Hd).
  destruct (command h1) as [m|]; [|congruence].
  exists m, v. split; [reflexivity|]. split; [exact Hv|]. split; [exact Hd|].
  unfold response. rewrite Hlen.
  destruct (Py.is_empty (raw_requestline r)) eqn:Em.
  { unfold parse_outcome in Ho.
    rewrite (empty_line_has_no_words _ Em) in Ho. discriminate. }
  rewrite Ho. unfold method_effect. rewrite Hd. reflexivity.
Qed.

(** An accepted request, under a version that takes headers, whose
    method has the effect [e]: one header block closed by the injected
    line, then the bodies. *)
Lemma accepted_written W r h h1 m e :
  healthy h -> idle h ->
  (65536 <? Py.len (raw_requestline r)) = false ->
  parse_request W NoCacheHandler r h = Ok true h1 ->
  command h1 = Some m ->
  request_version h1 <> Some "HTTP/0.9" ->
  method_effect W h1 (request_line r) m = Gives e ->
  exists h',
    handle_one_request W NoCacheHandler r h = Ok tt h'
    /\ wfile h'
       = (wfile h
          ++ HeaderBlock (front e ++ [cache_control_line; crlf])
          :: bodies e)%list
    /\ stderr h' = (stderr h ++ logged e)%list
    /\ close_connection h' = true.
Proof.
  intros Hf Hi Hlen Hp Hc Hv He.
  destruct (answered_written W NoCacheHandler r h Hf Hi)
    as (h' & E & Hw & Hs & Hcl & _).
  exists h'.
  destruct (accepted_response W NoCacheHandler r h h1 Hf Hlen Hp)
    as (m' & v & Hm & Hv' & _ & R).
  assert (m' = m) by congruence. subst m'.
  rewrite He in R. rewrite R in E, Hw, Hs. unfold written in Hw.
  assert (V : String.eqb v "HTTP/0.9" = false).
  { apply String.eqb_neq. congruence. }
  rewrite V in Hw.
  split; [exact E|]. split; [exact Hw|]. split; [exact Hs|exact Hcl].
Qed.

(** An accepted request whose method is left by an exception: nothing is
    written, nothing is logged. *)
Lemma accepted_escapes W cls r h h1 m x :
  healthy h -> idle h ->
  (65536 <? Py.len (raw_requestline r)) = false ->
  parse_request W cls r h = Ok true h1 ->
  command h1 = Some m ->
  method_effect W h1 (request_line r) m = Throws x ->
  exists h',
    handle_one_request W cls r h = Raise x h'
    /\ wfile h' = wfile h
    /\ stderr h' = stderr h.
Proof.
  intros Hf Hi Hlen Hp Hc He.
  destruct (answered_written W cls r h Hf Hi)
    as (h' & E & Hw & Hs & _).
  exists h'.
  destruct (accepted_response W cls r h h1 Hf Hlen Hp)
    as (m' & v & Hm & _ & _ & R).
  assert (m' = m) by congruence. subst m'.
  rewrite He in R. rewrite R in E, Hw, Hs. cbn in Hw, Hs.
  rewrite app_nil_r in Hw, Hs. now split.
Qed.

(** ** The status codes *)

Lemma error_effect_has_code W rl cmd code message explain :
  has_code W code (error_effect W rl cmd code message explain).
Proof.
  exists (error_message code message). eexists. exists rl.
  split; [reflexivity|now right].
Qed.

Lemma reply_effect_has_code W rl code phrase extra :
  has_code W code (reply_effect rl code (reply_head W code phrase ++ extra)).
Proof. exists phrase, extra, rl. split; [reflexivity|now left]. Qed.

Lemma file_plan_has_code W rl cmd hs fspath f e :
  file_plan W rl cmd hs fspath = Gives (f, e) ->
  exists code, In code [200; 304; 404] /\ has_code W code e.
Proof.
  unfold file_plan, not_found.
  destruct (Py.endswith fspath "/").
  { intros [= _ <-]. exists 404.
    split; [cbn; tauto|apply error_effect_has_code]. }
  destruct (open_rb W fspath) as [f0| | |]; try discriminate.
  2: { intros [= _ <-]. exists 404.
       split; [cbn; tauto|apply error_effect_has_code]. }
  destruct (not_modified W f0 hs); intros [= _ <-].
  - exists 304. split; [cbn; tauto|].
    rewrite <- (app_nil_r (reply_head W 304 "Not Modified")).
    apply reply_effect_has_code.
  - exists 200. split; [cbn; tauto|].
    apply (reply_effect_has_code W rl 200 "OK"
             [ header_line "Content-type" (guess_type W fspath);
               header_line "Content-Length" (Py.str (st_size f0));
               header_line "Last-Modified"
                 (date_time_string W (Some (st_mtime f0))) ]).
Qed.

Lemma head_plan_has_code W d rl cmd p hs f e :
  head_plan W d rl cmd p hs = Gives (f, e) ->
  exists code, In code [200; 301; 304; 404] /\ has_code W code e.
Proof.
  assert (F : forall fspath,
             file_plan W rl cmd hs fspath = Gives (f, e) ->
             exists code, In code [200; 301; 304; 404] /\ has_code W code e).
  { intros fspath E.
    destruct (file_plan_has_code _ _ _ _ _ _ _ E) as (code & Hc & H).
    exists code. split; [|exact H]. cbn in *. tauto. }
  unfold head_plan.
  destruct (isdir W (translate_path W d p)); [|apply F].
  destruct (urlsplit W p) as [parts|]; [|discriminate].
  destruct (negb (Py.endswith (url_path parts) "/")).
  { intros [= _ <-]. exists 301.
    split; [cbn; tauto|apply reply_effect_has_code]. }
  destruct (find_index W (translate_path W d p)); [apply F|].
  unfold listing_plan.
  destruct (listdir W (translate_path W d p)) as [names|].
  - destruct (listing_html W (translate_path W d p) p names); [|discriminate].
    intros [= _ <-]. exists 200.
    split; [cbn; tauto|apply reply_effect_has_code].
  - intros [= _ <-]. exists 404.
    split; [cbn; tauto|apply error_effect_has_code].
Qed.

Lemma version_outcome_codes W words code message :
  version_outcome W words = inl (code, message) -> In code [400; 505].
Proof.
  unfold version_outcome.
  destruct (3 <=? length words)%nat; [|discriminate].
  destruct (parse_version W (last words "")) as [[vn base]|].
  - destruct (Py.pair_geb vn (2, 0)); [|discriminate].
    intros [= <- _]. cbn. tauto.
  - intros [= <- _]. cbn. tauto.
Qed.

Lemma parse_outcome_codes W r v cmd code message explain :
  parse_outcome W r = Failed v cmd code message explain ->
  In code [400; 431; 505].
Proof.
  unfold parse_outcome.
  destruct (length (Py.split (request_line r)) =? 0)%nat; [discriminate|].
  destruct (version_outcome W (Py.split (request_line r)))
    as [[c m]|version] eqn:Hv.
  { intros [= _ _ <- _ _]. apply version_outcome_codes in Hv.
    cbn in *. tauto. }
  destruct (negb _).
  { intros [= _ _ <- _ _]. cbn. tauto. }
  destruct (_ && _).
  { intros [= _ _ <- _ _]. cbn. tauto. }
  destruct (raw_headers r); [discriminate| |];
    intros [= _ _ <- _ _]; cbn; tauto.
Qed.

Lemma response_has_code W d r version e :
  response W d r = Some (version, Gives e) ->
  exists code, In code status_codes /\ has_code W code e.
Proof.
  unfold response.
  destruct (65536 <? Py.len (raw_requestline r)).
  { intros [= _ <-]. exists 414.
    split; [cbn; tauto|apply error_effect_has_code]. }
  destruct (Py.is_empty (raw_requestline r)); [discriminate|].
  destruct (parse_outcome W r) as [|v cmd code message explain|v meth p hs]
    eqn:Ho.
  - discriminate.
  - intros [= _ <-]. exists code.
    split; [|apply error_effect_has_code].
    apply parse_outcome_codes in Ho. cbn in *. tauto.
  - destruct (String.eqb ("do_" ++ meth) "do_GET").
    { intros [= _ G]. unfold GET_effect in G.
      destruct (head_plan W d (request_line r) (Some meth) p hs)
        as [[[source|] e0]|x] eqn:E; [| |discriminate];
        injection G as <-;
        destruct (head_plan_has_code _ _ _ _ _ _ _ _ E) as (code & Hc & H);
        exists code; (split; [cbn in *; tauto|exact H]). }
    destruct (String.eqb ("do_" ++ meth) "do_HEAD").
    { intros [= _ G]. unfold HEAD_effect in G.
      destruct (head_plan W d (request_line r) (Some meth) p hs)
        as [[f e0]|x] eqn:E; [|discriminate].
      injection G as <-.
      destruct (head_plan_has_code _ _ _ _ _ _ _ _ E) as (code & Hc & H).
      exists code. split; [cbn in *; tauto|exact H]. }
    intros [= _ <-]. exists 501.
    split; [cbn; tauto|apply error_effect_has_code].
Qed.


(** ** Both classes of handler on the same request *)

Lemma both_classes W r h :
  healthy h ->
  exists hb hn wb wn,
    handle_one_request W SimpleHTTPRequestHandler r h
    = ends (escapes (response W (directory h) r)) hb
    /\ handle_one_request W NoCacheHandler r h
       = ends (escapes (response W (directory h) r)) hn
    /\ wfile hb = (wfile h ++ wb)%list
    /\ wfile hn = (wfile h ++ wn)%list
    /\ Forall2 adds_cache_control wb wn
    /\ stderr hn = stderr hb
    /\ close_connection hn = close_connection hb
    /\ _headers_buffer hn = _headers_buffer hb.
Proof.
  intros Hf.
  destruct (handle_one_request_spec W SimpleHTTPRequestHandler r h Hf)
    as (hb & Eb & _ & _ & Cb & Sb & Ab).
  destruct (handle_one_request_spec W NoCacheHandler r h Hf)
    as (hn & En & _ & _ & Cn & Sn & An).
  cbv zeta in *.
  destruct (response W (directory h) r) as [[version [e|x]]|] eqn:R.
  - destruct Ab as (_ & Wb & Bb), An as (_ & Wn & Bn).
    destruct (response_well_formed _ _ _ _ _ R) as (_ & Hb).
    eexists hb, hn, _, _. repeat split; try eassumption.
    + now apply written_adds_cache_control.
    + congruence.
    + congruence.
    + congruence.
  - destruct Ab as (_ & Wb & Bb), An as (_ & Wn & Bn).
    exists hb, hn, [], []. repeat split; try eassumption; try congruence.
    constructor.
  - destruct Ab as (Wb & Bb), An as (Wn & Bn).
    exists hb, hn, [], []. repeat split; try eassumption; try congruence.
    constructor.
Qed.

Lemma raised_ends x h : raised (ends x h) = x.
Proof. now destruct x. Qed.

Lemma final_ends x h : final (ends x h) = h.
Proof. now destruct x. Qed.

(** ** The names [translate_path] joins *)

Lemma translate_step_plain p w :
  plain_word w = true -> translate_step p w = Py.path_join p w.
Proof.
  unfold plain_word, translate_step. intros H.
  apply andb_true_iff in H as [_ H]. apply negb_true_iff in H.
  now rewrite H.
Qed.

Lemma translate_step_skips p w :
  Py.is_empty w = false -> plain_word w = false -> translate_step p w = p.
Proof.
  unfold plain_word, translate_step. intros He H. rewrite He in H.
  cbn [negb andb] in H. apply negb_false_iff in H. now rewrite H.
Qed.

Lemma fold_translate_step ws :
  Forall (fun w => Py.is_empty w = false) ws ->
  forall q,
    fold_left translate_step ws q
    = fold_left Py.path_join (filter plain_word ws) q.
Proof.
  induction 1 as [|w ws Hw _ IH]; intros q; [reflexivity|].
  cbn [fold_left filter]. destruct (plain_word w) eqn:E.
  - cbn [fold_left]. rewrite (translate_step_plain _ _ E). apply IH.
  - rewrite (translate_step_skips _ _ Hw E). apply IH.
Qed.










(** ** GET and HEAD *)

Lemma method_effect_GET W h1 rl :
  method_effect W h1 rl "GET"
  = GET_effect W (directory h1) rl (Some "GET") (path h1) (headers h1).
Proof. reflexivity. Qed.

Lemma method_effect_HEAD W h1 rl :
  method_effect W h1 rl "HEAD"
  = HEAD_effect W (directory h1) rl (Some "HEAD") (path h1) (headers h1).
Proof. reflexivity. Qed.

(** An accepted GET, under a version that takes headers, when
    [send_head] returns [f] with the effect [e]: the header block, what
    [send_head] wrote behind it, then the copy of [f]. *)
Lemma GET_written W r h h1 f e :
  healthy h -> idle h ->
  (65536 <? Py.len (raw_requestline r)) = false ->
  parse_request W NoCacheHandler r h = Ok true h1 ->
  command h1 = Some "GET" ->
  request_version h1 <> Some "HTTP/0.9" ->
  head_plan W (directory h1) (request_line r) (Some "GET") (path h1)
    (headers h1) = Gives (f, e) ->
  exists h',
    handle_one_request W NoCacheHandler r h = Ok tt h'
    /\ wfile h'
       = (wfile h
          ++ HeaderBlock (front e ++ [cache_control_line; crlf])
          :: bodies e
          ++ match f with Some source => copied source | None => [] end)%list
    /\ stderr h' = (stderr h ++ logged e)%list
    /\ close_connection h' = true.
Proof.
  intros Hf Hi Hlen Hp Hc Hv P.
  destruct f as [source|].
  - assert (G : method_effect W h1 (request_line r) "GET"
                = Gives (with_bodies e (copied source))).
    { rewrite method_effect_GET. unfold GET_effect. now rewrite P. }
    exact (accepted_written W r h h1 _ _ Hf Hi Hlen Hp Hc Hv G).
  - assert (G : method_effect W h1 (request_line r) "GET" = Gives e).
    { rewrite method_effect_GET. unfold GET_effect. now rewrite P. }
    rewrite app_nil_r.
    exact (accepted_written W r h h1 _ _ Hf Hi Hlen Hp Hc Hv G).
Qed.

Lemma HEAD_written W r h h1 f e :
  healthy h -> idle h ->
  (65536 <? Py.len (raw_requestline r)) = false ->
  parse_request W NoCacheHandler r h = Ok true h1 ->
  command h1 = Some "HEAD" ->
  request_version h1 <> Some "HTTP/0.9" ->
  head_plan W (directory h1) (request_line r) (Some "HEAD") (path h1)
    (headers h1) = Gives (f, e) ->
  exists h',
    handle_one_request W NoCacheHandler r h = Ok tt h'
    /\ wfile h'
       = (wfile h
          ++ HeaderBlock (front e ++ [cache_control_line; crlf])
          :: bodies e)%list
    /\ stderr h' = (stderr h ++ logged e)%list
    /\ close_connection h' = true.
Proof.
  intros Hf Hi Hlen Hp Hc Hv P.
  assert (G : method_effect W h1 (request_line r) "HEAD" = Gives e).
  { rewrite method_effect_HEAD. unfold HEAD_effect. now rewrite P. }
  exact (accepted_written W r h h1 _ _ Hf Hi Hlen Hp Hc Hv G).
Qed.
(** * The properties of the specification *)

(** ** C1 *)




(** ** C2 *)




(** ** C3 *)

(** C3, counterexample.  [/missing.txt] resolves to nothing.  A simple
    (HTTP/0.9) request for it gets the error page alone: no status line,
    no [Cache-Control]; a POST request for it gets a 501, not a 404.  And
    a path with a NUL byte resolves to nothing either, but [open] raises
    [ValueError] on it, which nothing catches: no response at all. *)
Lemma missing_path_not_always_404_with_header :
  isdir Demo.world (translate_path Demo.world "/srv" "/missing.txt") = false
  /\ open_rb Demo.world (translate_path Demo.world "/srv" "/missing.txt")
     = OpenOSError
  /\ Demo.served NoCacheHandler (Demo.get "GET /missing.txt")
     = [Body (error_page 404 (Some "File not found") None)]
  /\ ~ carries_cache_control
         (Demo.served NoCacheHandler (Demo.get "GET /missing.txt"))
  /\ (forall body,
        ~ has_status_and_body
            (Demo.served NoCacheHandler (Demo.get "POST /missing.txt HTTP/1.1"))
            404 body)
  /\ (exists body,
        has_status_and_body
          (Demo.served NoCacheHandler (Demo.get "POST /missing.txt HTTP/1.1"))
          501 body)
  /\ raised (Demo.answer NoCacheHandler (Demo.get "GET /%00 HTTP/1.0"))
     = Some ValueError
  /\ Demo.served NoCacheHandler (Demo.get "GET /%00 HTTP/1.0") = [].
Proof.
  assert (E1 : Demo.served NoCacheHandler (Demo.get "GET /missing.txt")
               = [Body (error_page 404 (Some "File not found") None)])
    by (vm_compute; reflexivity).
  assert (E2 : Demo.served NoCacheHandler
                 (Demo.get "POST /missing.txt HTTP/1.1")
               = [HeaderBlock
                    (error_head Demo.world 501
                       (Some "Unsupported method ('POST')") None
                     ++ [cache_control_line; crlf]);
                  Body (error_page 501
                          (Some "Unsupported method ('POST')") None)])
    by (vm_compute; reflexivity).
  rewrite E1, E2.
  split; [vm_compute; reflexivity|]. split; [vm_compute; reflexivity|].
  split; [reflexivity|]. repeat split.
  - intros (ls & [H|[]] & _). discriminate.
  - intros body (phrase & hs & bs & E & _). injection E as E _ _.
    vm_compute in E. discriminate.
  - eexists. eexists. eexists. eexists. split; reflexivity.
Qed.

(** C3, amended.  For every GET or HEAD request that [parse_request]
    accepts under a request version other than HTTP/0.9 and whose path
    translates to a path that is no directory and on which [open] fails
    with [OSError] (no such file, no permission), the handler answers
    404: a header block with status line [404 File not found], the
    headers of the base error response, [Cache-Control] last, and then
    the error page (none for HEAD).  And whenever a request is answered
    with an error under a request version other than HTTP/0.9 (the error
    line of the log tells), the response is a header block that opens
    with the status line of the error and closes with [Cache-Control]
    and the blank line. *)
Theorem missing_path_is_404 W r h h1 :
  healthy h -> idle h ->
  (65536 <? Py.len (raw_requestline r)) = false ->
  parse_request W NoCacheHandler r h = Ok true h1 ->
  command h1 = Some "GET" \/ command h1 = Some "HEAD" ->
  request_version h1 <> Some "HTTP/0.9" ->
  isdir W (translate_path W (directory h1) (path h1)) = false ->
  open_rb W (translate_path W (directory h1) (path h1)) = OpenOSError ->
  (exists h',
     handle_one_request W NoCacheHandler r h = Ok tt h'
     /\ wfile h'
        = (wfile h
           ++ HeaderBlock
                [ status_line 404 "File not found";
                  header_line "Server" (version_string W);
                  header_line "Date" (date_time_string W None);
                  header_line "Connection" "close";
                  header_line "Content-Type" error_content_type;
                  header_line "Content-Length"
                    (Py.str
                       (Py.len (error_page 404 (Some "File not found") None)));
                  cache_control_line;
                  crlf ]
           :: error_body (command h1) 404 (Some "File not found") None)%list)
  /\ (forall q s s',
        healthy s -> idle s ->
        handle_one_request W NoCacheHandler q s = Ok tt s' ->
        request_version s' <> Some "HTTP/0.9" ->
        exists logs out,
          stderr s' = (stderr s ++ logs)%list
          /\ wfile s' = (wfile s ++ out)%list
          /\ forall code message,
               In (LogError code message) logs ->
               exists hs bs,
                 out = HeaderBlock
                         (status_line code message
                          :: hs ++ [cache_control_line; crlf])
                       :: bs
                 /\ Forall is_body bs).
Proof.
  intros Hf Hi Hlen Hp Hc Hv Hdir Hopen. split.
  - assert (F : file_plan W (request_line r) (command h1) (headers h1)
                  (translate_path W (directory h1) (path h1))
                = Gives (None, not_found W (request_line r) (command h1))).
    { unfold file_plan. rewrite Hopen. now destruct (Py.endswith _ "/"). }
    destruct Hc as [Hc|Hc]; rewrite Hc in *.
    + assert (G : method_effect W h1 (request_line r) "GET"
                  = Gives (not_found W (request_line r) (Some "GET"))).
      { unfold method_effect. cbn [String.eqb Ascii.eqb Bool.eqb].
        unfold GET_effect, head_plan. now rewrite Hdir, F. }
      destruct (accepted_written W r h h1 _ _ Hf Hi Hlen Hp Hc Hv G)
        as (h' & E & Hw & _).
      exists h'. split; [exact E|exact Hw].
    + assert (G : method_effect W h1 (request_line r) "HEAD"
                  = Gives (not_found W (request_line r) (Some "HEAD"))).
      { unfold method_effect. cbn [String.eqb Ascii.eqb Bool.eqb].
        unfold HEAD_effect, head_plan. now rewrite Hdir, F. }
      destruct (accepted_written W r h h1 _ _ Hf Hi Hlen Hp Hc Hv G)
        as (h' & E & Hw & _).
      exists h'. split; [exact E|exact Hw].
  - intros q s s' Hs Hsi Eq Hv'.
    destruct (handle_one_request_spec W NoCacheHandler q s Hs)
      as (s2 & E & _ & _ & _ & S & A).
    cbv zeta in *. rewrite (idle_lines _ Hsi) in A.
    destruct (response W (directory s) q) as [[version [e|x]]|] eqn:R;
      cbn [escapes ends logs_of app] in *.
    + rewrite Eq in E. injection E as <-.
      destruct A as (V & Hw & _).
      exists (logged e). eexists. split; [exact S|]. split; [exact Hw|].
      intros code message Hin.
      destruct (response_well_formed _ _ _ _ _ R) as (_ & Hb).
      destruct (response_has_code _ _ _ _ _ R)
        as (code' & _ & phrase & rest & rl & Hfr & Hl).
      assert (V9 : String.eqb version "HTTP/0.9" = false).
      { apply String.eqb_neq. congruence. }
      rewrite V9. cbn [block tail app].
      destruct Hl as [Hl|Hl]; rewrite Hl in Hin; cbn in Hin.
      * destruct Hin as [[=]|[]].
      * destruct Hin as [[= <- <-]|[[=]|[]]].
        rewrite Hfr. unfold reply_head. cbn [app].
        exists (header_line "Server" (version_string W)
                :: header_line "Date" (date_time_string W None) :: rest),
          (bodies e).
        split; [reflexivity|exact Hb].
    + rewrite Eq in E. discriminate.
    + rewrite Eq in E. injection E as <-. destruct A as (Hw & _).
      exists [], []. split; [exact S|]. split; [exact Hw|]. intros ? ? [].
Qed.

(** C3, witness: [GET /missing.txt HTTP/1.1] in the concrete world. *)
Lemma missing_path_is_404_witness :
  exists h',
    handle_one_request Demo.world NoCacheHandler
      (Demo.get "GET /missing.txt HTTP/1.1") Demo.fresh = Ok tt h'
    /\ wfile h'
       = (wfile Demo.fresh
          ++ HeaderBlock
               [ status_line 404 "File not found";
                 header_line "Server" (version_string Demo.world);
                 header_line "Date" (date_time_string Demo.world None);
                 header_line "Connection" "close";
                 header_line "Content-Type" error_content_type;
                 header_line "Content-Length"
                   (Py.str
                      (Py.len (error_page 404 (Some "File not found") None)));
                 cache_control_line;
                 crlf ]
          :: error_body (Some "GET") 404 (Some "File not found") None)%list.
Proof.
  refine (proj1
    (missing_path_is_404 Demo.world (Demo.get "GET /missing.txt HTTP/1.1")
       Demo.fresh
       (final (parse_request Demo.world NoCacheHandler
                 (Demo.get "GET /missing.txt HTTP/1.1") Demo.fresh))
       _ _ _ _ _ _ _ _)).
  - reflexivity.
  - left; reflexivity.
  - vm_compute; reflexivity.
  - vm_compute; reflexivity.
  - left; vm_compute; reflexivity.
  - vm_compute; discriminate.
  - vm_compute; reflexivity.
  - vm_compute; reflexivity.
Defined.

(** ** C4 *)

(** C4.  The override is the base [end_headers] run on the handler its
    [send_header] leaves: the handler whose header buffer got exactly one
    more line (none under HTTP/0.9, where no header is buffered at all),
    no other attribute touched; or, on a handler object that has no
    [request_version] yet, the handler as it is, and then the override
    and the base [end_headers] both raise the [AttributeError] of the
    read and do nothing else.  The line is
    [Cache-Control: no-cache, no-store, must-revalidate]; it is neither
    a [Pragma] nor an [Expires] field.  So the header block written is the
    lines the base handler buffered, then this line, then the blank
    line. *)
Theorem override_adds_exactly_cache_control h :
  NoCacheHandler_end_headers h
  = super_end_headers (final (send_header "Cache-Control" cache_control h))
  /\ final (send_header "Cache-Control" cache_control h)
     = match request_version h with
       | Some _ =>
           set_headers_buffer
             (push (is_http09 h) (_headers_buffer h) [cache_control_line]) h
       | None => h
       end
  /\ (versioned h ->
      NoCacheHandler_end_headers h
      = super_end_headers
          (set_headers_buffer
             (push (is_http09 h) (_headers_buffer h) [cache_control_line]) h))
  /\ (request_version h = None ->
      NoCacheHandler_end_headers h = Raise AttributeError h
      /\ super_end_headers h = Raise AttributeError h)
  /\ cache_control_line
     = "Cache-Control: no-cache, no-store, must-revalidate" ++ crlf
  /\ (forall value,
        cache_control_line <> header_line "Pragma" value
        /\ cache_control_line <> header_line "Expires" value)
  /\ (versioned h -> is_http09 h = false -> healthy h ->
      wfile (final (NoCacheHandler_end_headers h))
      = (wfile h
         ++ [HeaderBlock
               (lines (_headers_buffer h) ++ [cache_control_line; crlf])])%list
      /\ (_headers_buffer h <> None ->
          wfile (final (super_end_headers h))
          = (wfile h
             ++ [HeaderBlock (lines (_headers_buffer h) ++ [crlf])])%list)).
Proof.
  assert (F : final (send_header "Cache-Control" cache_control h)
              = match request_version h with
                | Some _ =>
                    set_headers_buffer
                      (push (is_http09 h) (_headers_buffer h)
                         [cache_control_line]) h
                | None => h
                end).
  { rewrite send_cache_control. unfold is_http09.
    now destruct (request_version h). }
  split; [apply override_unfolds|]. split; [exact F|]. split.
  { intros Hv. rewrite override_unfolds, F. unfold versioned in Hv.
    now destruct (request_version h). }
  split.
  { intros V. split; [now rewrite override_any, V|].
    unfold super_end_headers, bind, get_request_version. now rewrite V. }
  split; [reflexivity|]. split.
  - intros value. split; discriminate.
  - intros Hv V Hf. unfold versioned, is_http09 in *. split.
    + rewrite override_any.
      destruct (request_version h) as [v|]; [|congruence].
      rewrite V, Hf. reflexivity.
    + intros Hb.
      pose proof (super_end_headers_after h [] [] (_headers_buffer h)
                    (close_connection h) Hf Hv (or_intror Hb)) as E.
      rewrite after_id in E. rewrite E. unfold is_http09.
      destruct (request_version h) as [v|]; [|congruence].
      rewrite V. reflexivity.
Qed.

(** ** C5 *)

(** C5.  On every handler state, the injection writes nothing on the
    connection; on a handler that has its request version it cannot
    fail, and it puts the line behind the lines the base handler has
    buffered (the status line first among them); the base [end_headers]
    runs on the state so obtained; and a header block that the override
    writes holds the injected line: no header byte goes out before the
    line is in the outgoing set.  While a request is handled (no header
    line pending before, the connection taking writes), whether the
    handler returns or a library call raises, every header block written
    opens with the status line the base handler chose and closes with
    the injected line and the blank line.  And of all the server writes,
    on any connection, in any world, whether the client stays or goes,
    no header block lacks the injected line before its closing blank
    line. *)
Theorem header_injected_before_any_write h :
  let injected := final (send_header "Cache-Control" cache_control h) in
  (versioned h ->
   send_header "Cache-Control" cache_control h
   = Ok tt (set_headers_buffer
              (push (is_http09 h) (_headers_buffer h) [cache_control_line]) h))
  /\ (request_version h = None ->
      send_header "Cache-Control" cache_control h = Raise AttributeError h)
  /\ wfile injected = wfile h
  /\ NoCacheHandler_end_headers h = super_end_headers injected
  /\ (forall ls,
        In (HeaderBlock ls) (wfile (final (NoCacheHandler_end_headers h))) ->
        In (HeaderBlock ls) (wfile h)
        \/ ls = (lines (_headers_buffer h) ++ [cache_control_line; crlf])%list)
  /\ (forall W r,
        healthy h -> idle h ->
        exists new,
          wfile (final (handle_one_request W NoCacheHandler r h))
          = (wfile h ++ new)%list
          /\ forall ls,
               In (HeaderBlock ls) new ->
               exists code phrase hs,
                 ls = (status_line code phrase
                       :: hs ++ [cache_control_line; crlf])%list)
  /\ (forall p conns w ls,
        In w (served (main p conns)) -> In (HeaderBlock ls) w ->
        ends_with_cache_control ls).
Proof.
  cbv zeta. split.
  { intros Hv. rewrite send_cache_control. unfold versioned, is_http09 in *.
    now destruct (request_version h). }
  split; [intros V; now rewrite send_cache_control, V|].
  split; [rewrite send_cache_control; now destruct (request_version h)|].
  split; [apply override_unfolds|].
  split; [|split; [|apply server_header_blocks]].
  - intros ls. rewrite override_any.
    destruct (request_version h) as [v|]; [|now left].
    destruct (String.eqb v "HTTP/0.9"); [now left|].
    destruct (wfile_fault h); cbn; [now left|].
    intros H. apply in_app_or in H as [H|[H|[]]]; [now left|right].
    now injection H as <-.
  - intros W r Hf Hi.
    destruct (answered_written W NoCacheHandler r h Hf Hi)
      as (h' & E & Hw & _).
    exists (written NoCacheHandler (response W (directory h) r)).
    rewrite E, final_ends. split; [exact Hw|].
    intros ls. apply written_header_blocks.
Qed.

(** ** C6 *)

(** C6, counterexample.  The client has gone away while a 200 response
    was being prepared: the override raises [BrokenPipeError], the
    exception of the failed write.  And on a handler object as its
    constructor leaves it, where no [request_version] is assigned yet,
    the override raises [AttributeError]. *)
Lemma override_raises_on_broken_pipe :
  raised (NoCacheHandler_end_headers
            (final (send_response Demo.world 200 None
                      (set_request_version "HTTP/1.1"
                         (new_handler "/srv" (Some BrokenPipeError))))))
  = Some BrokenPipeError
  /\ raised (NoCacheHandler_end_headers (new_handler "/srv" None))
     = Some AttributeError.
Proof. split; vm_compute; reflexivity. Qed.

(** C6, amended.  The override intercepts nothing and raises in two
    cases only.  Its [send_header] step raises [AttributeError] on a
    handler object that has no [request_version] yet, and never
    otherwise, the header buffer being absent or not; the override then
    is the base [end_headers], whose outcome it returns unchanged.  So
    on a handler that has its request version the override raises
    exactly when that version is not HTTP/0.9 and the write of the header
    block fails, with the exception of that write.  The errors of path
    resolution and file access are handled by the base handler: for
    every request, under the override the same exception leaves the
    handler or none, the log is the same, and what is written is the
    same status line, headers and page, with the one line added. *)
Theorem override_raises_only_what_the_write_raises h :
  raised (send_header "Cache-Control" cache_control h)
  = match request_version h with
    | None => Some AttributeError
    | Some _ => None
    end
  /\ NoCacheHandler_end_headers h
     = super_end_headers (final (send_header "Cache-Control" cache_control h))
  /\ raised (NoCacheHandler_end_headers h)
     = match request_version h with
       | None => Some AttributeError
       | Some v => if String.eqb v "HTTP/0.9" then None else wfile_fault h
       end
  /\ (forall W r,
        healthy h ->
        raised (handle_one_request W NoCacheHandler r h)
        = raised (handle_one_request W SimpleHTTPRequestHandler r h)
        /\ exists wb wn,
             wfile (final (handle_one_request W SimpleHTTPRequestHandler r h))
             = (wfile h ++ wb)%list
             /\ wfile (final (handle_one_request W NoCacheHandler r h))
                = (wfile h ++ wn)%list
             /\ Forall2 adds_cache_control wb wn
             /\ stderr (final (handle_one_request W NoCacheHandler r h))
                = stderr
                    (final (handle_one_request W SimpleHTTPRequestHandler r h))).
Proof.
  split; [rewrite send_cache_control; now destruct (request_version h)|].
  split; [apply override_unfolds|]. split.
  - rewrite override_any.
    destruct (request_version h) as [v|]; [|reflexivity].
    destruct (String.eqb v "HTTP/0.9"); [reflexivity|].
    now destruct (wfile_fault h).
  - intros W r Hf.
    destruct (both_classes W r h Hf)
      as (hb & hn & wb & wn & Eb & En & Wb & Wn & F2 & S & _).
    rewrite Eb, En, !raised_ends, !final_ends.
    split; [reflexivity|]. now exists wb, wn.
Qed.

(** ** C9 *)

(** C9.  On a connection that takes writes, the plain handler and the
    no-cache handler do the same with every request, from the same
    handler state: the same exception leaves both or neither, the log
    lines and [close_connection] are the same; what the no-cache handler
    writes is, chunk by chunk, what the plain handler writes, each header
    block having gained exactly the [Cache-Control] line between its last
    line and the blank line that closes it: status line, other headers,
    their order and the body are the same. *)
Theorem no_cache_response_is_base_response_plus_header W r h :
  healthy h ->
  raised (handle_one_request W NoCacheHandler r h)
  = raised (handle_one_request W SimpleHTTPRequestHandler r h)
  /\ exists hb hn wb wn,
       hb = final (handle_one_request W SimpleHTTPRequestHandler r h)
       /\ hn = final (handle_one_request W NoCacheHandler r h)
       /\ wfile hb = (wfile h ++ wb)%list
       /\ wfile hn = (wfile h ++ wn)%list
       /\ Forall2 adds_cache_control wb wn
       /\ stderr hn = stderr hb
       /\ close_connection hn = close_connection hb
       /\ _headers_buffer hn = _headers_buffer hb.
Proof.
  intros Hf.
  destruct (both_classes W r h Hf)
    as (hb & hn & wb & wn & Eb & En & Wb & Wn & F2 & S & C & B).
  rewrite Eb, En, !raised_ends, !final_ends.
  split; [reflexivity|]. now exists hb, hn, wb, wn.
Qed.

(** C9, witness: [GET /index.html HTTP/1.1] on a new handler. *)
Lemma no_cache_response_is_base_response_plus_header_witness :
  raised (handle_one_request Demo.world NoCacheHandler
            (Demo.get "GET /index.html HTTP/1.1") Demo.fresh)
  = raised (handle_one_request Demo.world SimpleHTTPRequestHandler
              (Demo.get "GET /index.html HTTP/1.1") Demo.fresh)
  /\ exists hb hn wb wn,
       hb = final (handle_one_request Demo.world SimpleHTTPRequestHandler
                     (Demo.get "GET /index.html HTTP/1.1") Demo.fresh)
       /\ hn = final (handle_one_request Demo.world NoCacheHandler
                        (Demo.get "GET /index.html HTTP/1.1") Demo.fresh)
       /\ wfile hb = (wfile Demo.fresh ++ wb)%list
       /\ wfile hn = (wfile Demo.fresh ++ wn)%list
       /\ Forall2 adds_cache_control wb wn
       /\ stderr hn = stderr hb
       /\ close_connection hn = close_connection hb
       /\ _headers_buffer hn = _headers_buffer hb.
Proof.
  apply (no_cache_response_is_base_response_plus_header Demo.world
           (Demo.get "GET /index.html HTTP/1.1") Demo.fresh).
  reflexivity.
Defined.

(** ** C10 *)



(** ** One connection *)


(** ** C7 *)



(** ** C8 *)


(** * Further properties of the served responses *)

(** ** Request lines that are not parsed *)

(** X2.  A request line longer than 65536 bytes is answered, unread, by
    a 414 with headers (the request version is then the empty string),
    [Cache-Control] among them, and the connection is closed. *)
Theorem overlong_request_line_is_414 W r h :
  healthy h -> idle h ->
  (65536 <? Py.len (raw_requestline r)) = true ->
  exists h',
    handle_one_request W NoCacheHandler r h = Ok tt h'
    /\ wfile h'
       = (wfile h
          ++ [ HeaderBlock
                 [ status_line 414 "Request-URI Too Long";
                   header_line "Server" (version_string W);
                   header_line "Date" (date_time_string W None);
                   header_line "Connection" "close";
                   header_line "Content-Type" error_content_type;
                   header_line "Content-Length"
                     (Py.str (Py.len (error_page 414 None None)));
                   cache_control_line;
                   crlf ];
               Body (error_page 414 None None) ])%list
    /\ stderr h'
       = (stderr h
          ++ [LogError 414 "Request-URI Too Long"; LogRequest "" 414])%list
    /\ close_connection h' = true.
Proof.
  intros Hf Hi Hlen.
  destruct (answered_written W NoCacheHandler r h Hf Hi)
    as (h' & E & Hw & Hs & Hc & _).
  unfold response in E, Hw, Hs. rewrite Hlen in E, Hw, Hs.
  exists h'. split; [exact E|].
  split; [exact Hw|]. split; [exact Hs|exact Hc].
Qed.

(** X2, in the concrete world: a request line of 65537 bytes. *)
Lemma overlong_request_line_is_414_witness :
  exists h',
    handle_one_request Demo.world NoCacheHandler Cases.long_line Demo.fresh
    = Ok tt h'
    /\ wfile h'
       = (wfile Demo.fresh
          ++ [ HeaderBlock
                 [ status_line 414 "Request-URI Too Long";
                   header_line "Server" (version_string Demo.world);
                   header_line "Date" (date_time_string Demo.world None);
                   header_line "Connection" "close";
                   header_line "Content-Type" error_content_type;
                   header_line "Content-Length"
                     (Py.str (Py.len (error_page 414 None None)));
                   cache_control_line;
                   crlf ];
               Body (error_page 414 None None) ])%list
    /\ stderr h'
       = (stderr Demo.fresh
          ++ [LogError 414 "Request-URI Too Long"; LogRequest "" 414])%list
    /\ close_connection h' = true.
Proof.
  apply (overlong_request_line_is_414 Demo.world Cases.long_line Demo.fresh).
  - reflexivity.
  - left; reflexivity.
  - vm_compute; reflexivity.
Defined.

(** X1.  A request line without a word (the end of the stream, an empty
    line, blanks) is dropped: nothing is written, nothing is logged, the
    header buffer is left alone and the connection is closed. *)
Theorem blank_request_line_is_dropped W cls r h :
  healthy h ->
  (65536 <? Py.len (raw_requestline r)) = false ->
  Py.split (request_line r) = [] ->
  exists h',
    handle_one_request W cls r h = Ok tt h'
    /\ wfile h' = wfile h
    /\ stderr h' = stderr h
    /\ _headers_buffer h' = _headers_buffer h
    /\ close_connection h' = true.
Proof.
  intros Hf Hlen Hw.
  destruct (handle_one_request_spec W cls r h Hf)
    as (h' & E & _ & _ & C & S & A).
  cbv zeta in *.
  assert (R : response W (directory h) r = None).
  { unfold response. rewrite Hlen.
    destruct (Py.is_empty (raw_requestline r)); [reflexivity|].
    unfold parse_outcome. now rewrite Hw. }
  rewrite R in *. exists h'. split; [exact E|]. destruct A as (Hwf & Hb).
  cbn in S. rewrite app_nil_r in S, Hwf. now repeat split.
Qed.

(** X1, in the concrete world: a line that holds the line end only. *)
Lemma blank_request_line_is_dropped_witness :
  exists h',
    handle_one_request Demo.world NoCacheHandler Cases.blank_line Demo.fresh
    = Ok tt h'
    /\ wfile h' = wfile Demo.fresh
    /\ stderr h' = stderr Demo.fresh
    /\ _headers_buffer h' = _headers_buffer Demo.fresh
    /\ close_connection h' = true.
Proof.
  apply (blank_request_line_is_dropped Demo.world NoCacheHandler
           Cases.blank_line Demo.fresh); reflexivity.
Defined.

(** X3.  When the last of three or more words is not a version the
    handler can read, the 400 is sent under the default request version
    HTTP/0.9: the client gets the error page alone, without status line
    or header, and the status shows in the log only. *)
Theorem unreadable_version_gets_bare_400 W r h :
  healthy h -> idle h ->
  (65536 <? Py.len (raw_requestline r)) = false ->
  (3 <=? length (Py.split (request_line r)))%nat = true ->
  parse_version W (last (Py.split (request_line r)) "") = None ->
  let message :=
    "Bad request version ("
    ++ py_repr W (last (Py.split (request_line r)) "") ++ ")" in
  exists h',
    handle_one_request W NoCacheHandler r h = Ok tt h'
    /\ wfile h' = (wfile h ++ [Body (error_page 400 (Some message) None)])%list
    /\ stderr h'
       = (stderr h
          ++ [LogError 400 message; LogRequest (request_line r) 400])%list
    /\ close_connection h' = true.
Proof.
  intros Hf Hi Hlen H3 Hv message.
  destruct (answered_written W NoCacheHandler r h Hf Hi)
    as (h' & E & Hw & Hs & Hc & _).
  assert (R : response W (directory h) r
              = Some (default_request_version,
                      Gives (error_effect W (request_line r) None 400
                               (Some message) None))).
  { unfold response. rewrite Hlen, words_not_empty.
    2: { intros E0. rewrite E0 in H3. discriminate. }
    unfold parse_outcome, version_outcome. rewrite H3, Hv.
    destruct (Py.split (request_line r)) as [|w ws]; [discriminate|].
    reflexivity. }
  rewrite R in E, Hw, Hs. exists h'. split; [exact E|].
  split; [exact Hw|]. split; [exact Hs|exact Hc].
Qed.

(** X3, in the concrete world: [GET /index.html HTTP/1.x]. *)
Lemma unreadable_version_gets_bare_400_witness :
  exists h',
    handle_one_request Demo.world NoCacheHandler
      (Demo.get "GET /index.html HTTP/1.x") Demo.fresh = Ok tt h'
    /\ wfile h'
       = (wfile Demo.fresh
          ++ [Body (error_page 400
                      (Some "Bad request version ('HTTP/1.x')") None)])%list
    /\ stderr h'
       = (stderr Demo.fresh
          ++ [LogError 400 "Bad request version ('HTTP/1.x')";
              LogRequest "GET /index.html HTTP/1.x" 400])%list
    /\ close_connection h' = true.
Proof.
  apply (unreadable_version_gets_bare_400 Demo.world
           (Demo.get "GET /index.html HTTP/1.x") Demo.fresh).
  - reflexivity.
  - left; reflexivity.
  - vm_compute; reflexivity.
  - vm_compute; reflexivity.
  - vm_compute; reflexivity.
Defined.

(** X4.  A version word from 2.0 up is refused with a 505, sent like the
    400 for an unreadable version: the page alone, no status line, no
    header. *)
Theorem version_2_gets_bare_505 W r h version_number base :
  healthy h -> idle h ->
  (65536 <? Py.len (raw_requestline r)) = false ->
  (3 <=? length (Py.split (request_line r)))%nat = true ->
  parse_version W (last (Py.split (request_line r)) "")
  = Some (version_number, base) ->
  Py.pair_geb version_number (2, 0) = true ->
  let message := "Invalid HTTP version (" ++ base ++ ")" in
  exists h',
    handle_one_request W NoCacheHandler r h = Ok tt h'
    /\ wfile h' = (wfile h ++ [Body (error_page 505 (Some message) None)])%list
    /\ stderr h'
       = (stderr h
          ++ [LogError 505 message; LogRequest (request_line r) 505])%list
    /\ close_connection h' = true.
Proof.
  intros Hf Hi Hlen H3 Hv H2 message.
  destruct (answered_written W NoCacheHandler r h Hf Hi)
    as (h' & E & Hw & Hs & Hc & _).
  assert (R : response W (directory h) r
              = Some (default_request_version,
                      Gives (error_effect W (request_line r) None 505
                               (Some message) None))).
  { unfold response. rewrite Hlen, words_not_empty.
    2: { intros E0. rewrite E0 in H3. discriminate. }
    unfold parse_outcome, version_outcome. rewrite H3, Hv, H2.
    destruct (Py.split (request_line r)) as [|w ws]; [discriminate|].
    reflexivity. }
  rewrite R in E, Hw, Hs. exists h'. split; [exact E|].
  split; [exact Hw|]. split; [exact Hs|exact Hc].
Qed.

(** X4, in the concrete world: [GET /index.html HTTP/2.0]. *)
Lemma version_2_gets_bare_505_witness :
  exists h',
    handle_one_request Demo.world NoCacheHandler
      (Demo.get "GET /index.html HTTP/2.0") Demo.fresh = Ok tt h'
    /\ wfile h'
       = (wfile Demo.fresh
          ++ [Body (error_page 505 (Some "Invalid HTTP version (2.0)") None)])%list
    /\ stderr h'
       = (stderr Demo.fresh
          ++ [LogError 505 "Invalid HTTP version (2.0)";
              LogRequest "GET /index.html HTTP/2.0" 505])%list
    /\ close_connection h' = true.
Proof.
  apply (version_2_gets_bare_505 Demo.world
           (Demo.get "GET /index.html HTTP/2.0") Demo.fresh (2, 0) "2.0").
  - reflexivity.
  - left; reflexivity.
  - vm_compute; reflexivity.
  - vm_compute; reflexivity.
  - vm_compute; reflexivity.
  - reflexivity.
Defined.

(** ** Requests that are accepted *)

(** X7.  A method other than GET and HEAD (the comparison is by case:
    [get] is another method) is answered 501 without a look at the path:
    status line, the headers of the error response, [Cache-Control], and
    the error page. *)
Theorem unsupported_method_is_501 W r h h1 m :
  healthy h -> idle h ->
  (65536 <? Py.len (raw_requestline r)) = false ->
  parse_request W NoCacheHandler r h = Ok true h1 ->
  command h1 = Some m ->
  m <> "GET" -> m <> "HEAD" ->
  request_version h1 <> Some "HTTP/0.9" ->
  let message := "Unsupported method (" ++ py_repr W m ++ ")" in
  exists h',
    handle_one_request W NoCacheHandler r h = Ok tt h'
    /\ wfile h'
       = (wfile h
          ++ [ HeaderBlock
                 [ status_line 501 message;
                   header_line "Server" (version_string W);
                   header_line "Date" (date_time_string W None);
                   header_line "Connection" "close";
                   header_line "Content-Type" error_content_type;
                   header_line "Content-Length"
                     (Py.str (Py.len (error_page 501 (Some message) None)));
                   cache_control_line;
                   crlf ];
               Body (error_page 501 (Some message) None) ])%list
    /\ stderr h'
       = (stderr h
          ++ [LogError 501 message; LogRequest (request_line r) 501])%list.
Proof.
  intros Hf Hi Hlen Hp Hc Hg Hh Hv message.
  apply String.eqb_neq in Hg, Hh.
  assert (G : method_effect W h1 (request_line r) m
              = Gives (error_effect W (request_line r) (Some m) 501
                         (Some message) None)).
  { unfold method_effect. now rewrite Hg, Hh. }
  destruct (accepted_written W r h h1 m _ Hf Hi Hlen Hp Hc Hv G)
    as (h' & E & Hw & Hs & _).
  exists h'. split; [exact E|].
  assert (B : error_body (Some m) 501 (Some message) None
              = [Body (error_page 501 (Some message) None)]).
  { apply error_body_page; [exact Hh|reflexivity]. }
  cbn [error_effect front bodies logged] in Hw, Hs.
  fold message in Hw, Hs. rewrite B in Hw.
  split; [exact Hw|exact Hs].
Qed.

(** X7, in the concrete world: [get /index.html HTTP/1.1]. *)
Lemma unsupported_method_is_501_witness :
  exists h',
    handle_one_request Demo.world NoCacheHandler
      (Demo.get "get /index.html HTTP/1.1") Demo.fresh = Ok tt h'
    /\ wfile h'
       = (wfile Demo.fresh
          ++ [ HeaderBlock
                 [ status_line 501 "Unsupported method ('get')";
                   header_line "Server" (version_string Demo.world);
                   header_line "Date" (date_time_string Demo.world None);
                   header_line "Connection" "close";
                   header_line "Content-Type" error_content_type;
                   header_line "Content-Length"
                     (Py.str
                        (Py.len
                           (error_page 501
                              (Some "Unsupported method ('get')") None)));
                   cache_control_line;
                   crlf ];
               Body (error_page 501
                       (Some "Unsupported method ('get')") None) ])%list
    /\ stderr h'
       = (stderr Demo.fresh
          ++ [LogError 501 "Unsupported method ('get')";
              LogRequest "get /index.html HTTP/1.1" 501])%list.
Proof.
  apply (unsupported_method_is_501 Demo.world
           (Demo.get "get /index.html HTTP/1.1") Demo.fresh
           (final (parse_request Demo.world NoCacheHandler
                     (Demo.get "get /index.html HTTP/1.1") Demo.fresh))
           "get").
  - reflexivity.
  - left; reflexivity.
  - vm_compute; reflexivity.
  - vm_compute; reflexivity.
  - vm_compute; reflexivity.
  - discriminate.
  - discriminate.
  - vm_compute; discriminate.
Defined.

(** ** Directories *)

(** X10.  GET or HEAD of a directory whose URL path lacks the closing
    slash is redirected: 301 with [Location] (the URL with the slash),
    [Content-Length: 0] and [Cache-Control]; no body, and the directory
    is not read. *)
Theorem directory_without_slash_is_redirected W r h h1 parts :
  healthy h -> idle h ->
  (65536 <? Py.len (raw_requestline r)) = false ->
  parse_request W NoCacheHandler r h = Ok true h1 ->
  command h1 = Some "GET" \/ command h1 = Some "HEAD" ->
  request_version h1 <> Some "HTTP/0.9" ->
  isdir W (translate_path W (directory h1) (path h1)) = true ->
  urlsplit W (path h1) = Some parts ->
  Py.endswith (url_path parts) "/" = false ->
  exists h',
    handle_one_request W NoCacheHandler r h = Ok tt h'
    /\ wfile h'
       = (wfile h
          ++ [ HeaderBlock
                 [ status_line 301 "Moved Permanently";
                   header_line "Server" (version_string W);
                   header_line "Date" (date_time_string W None);
                   header_line "Location" (urlunsplit W (with_slash parts));
                   header_line "Content-Length" "0";
                   cache_control_line;
                   crlf ] ])%list
    /\ stderr h' = (stderr h ++ [LogRequest (request_line r) 301])%list.
Proof.
  intros Hf Hi Hlen Hp Hc Hv Hdir Hsplit Hslash.
  assert (P : forall cmd,
            head_plan W (directory h1) (request_line r) cmd (path h1)
              (headers h1)
            = Gives
                (None,
                 reply_effect (request_line r) 301
                   (reply_head W 301 "Moved Permanently" ++
                    [ header_line "Location"
                        (urlunsplit W (with_slash parts));
                      header_line "Content-Length" "0" ]))).
  { intros cmd. unfold head_plan. now rewrite Hdir, Hsplit, Hslash. }
  destruct Hc as [Hc|Hc].
  - destruct (GET_written W r h h1 _ _ Hf Hi Hlen Hp Hc Hv (P _))
      as (h' & E & Hw & Hs & _).
    exists h'. split; [exact E|]. split; [exact Hw|exact Hs].
  - destruct (HEAD_written W r h h1 _ _ Hf Hi Hlen Hp Hc Hv (P _))
      as (h' & E & Hw & Hs & _).
    exists h'. split; [exact E|]. split; [exact Hw|exact Hs].
Qed.

(** X10, in the concrete world: [GET /docs HTTP/1.1]. *)
Lemma directory_without_slash_is_redirected_witness :
  exists h',
    handle_one_request Demo.world NoCacheHandler
      (Demo.get "GET /docs HTTP/1.1") Demo.fresh = Ok tt h'
    /\ wfile h'
       = (wfile Demo.fresh
          ++ [ HeaderBlock
                 [ status_line 301 "Moved Permanently";
                   header_line "Server" (version_string Demo.world);
                   header_line "Date" (date_time_string Demo.world None);
                   header_line "Location" "/docs/";
                   header_line "Content-Length" "0";
                   cache_control_line;
                   crlf ] ])%list
    /\ stderr h'
       = (stderr Demo.fresh ++ [LogRequest "GET /docs HTTP/1.1" 301])%list.
Proof.
  apply (directory_without_slash_is_redirected Demo.world
           (Demo.get "GET /docs HTTP/1.1") Demo.fresh
           (final (parse_request Demo.world NoCacheHandler
                     (Demo.get "GET /docs HTTP/1.1") Demo.fresh))
           (mkSplit "" "" "/docs" "" "")).
  - reflexivity.
  - left; reflexivity.
  - vm_compute; reflexivity.
  - vm_compute; reflexivity.
  - left; vm_compute; reflexivity.
  - vm_compute; discriminate.
  - vm_compute; reflexivity.
  - vm_compute; reflexivity.
  - vm_compute; reflexivity.
Defined.





(** X12.  GET of a directory (URL path closed by a slash) without index
    file is answered with the listing [list_directory] builds: 200, type
    [text/html] in the file system encoding, the length of the page,
    [Cache-Control], then the page. *)
Theorem directory_listing_is_served W r h h1 parts names page :
  healthy h -> idle h ->
  (65536 <? Py.len (raw_requestline r)) = false ->
  parse_request W NoCacheHandler r h = Ok true h1 ->
  command h1 = Some "GET" ->
  request_version h1 <> Some "HTTP/0.9" ->
  isdir W (translate_path W (directory h1) (path h1)) = true ->
  urlsplit W (path h1) = Some parts ->
  Py.endswith (url_path parts) "/" = true ->
  find_index W (translate_path W (directory h1) (path h1)) = None ->
  listdir W (translate_path W (directory h1) (path h1)) = Some names ->
  listing_html W (translate_path W (directory h1) (path h1)) (path h1) names
  = Some page ->
  exists h' bs,
    handle_one_request W NoCacheHandler r h = Ok tt h'
    /\ wfile h'
       = (wfile h
          ++ HeaderBlock
               [ status_line 200 "OK";
                 header_line "Server" (version_string W);
                 header_line "Date" (date_time_string W None);
                 header_line "Content-type"
                   ("text/html; charset=" ++ getfilesystemencoding W);
                 header_line "Content-Length" (Py.str (Py.len page));
                 cache_control_line;
                 crlf ]
          :: bs)%list
    /\ wire bs = page
    /\ stderr h' = (stderr h ++ [LogRequest (request_line r) 200])%list.
Proof.
  intros Hf Hi Hlen Hp Hc Hv Hdir Hsplit Hslash Hidx Hls Hpage.
  assert (P : head_plan W (directory h1) (request_line r) (Some "GET")
                (path h1) (headers h1)
              = Gives
                  (Some page,
                   reply_effect (request_line r) 200
                     (reply_head W 200 "OK" ++
                      [ header_line "Content-type"
                          ("text/html; charset=" ++ getfilesystemencoding W);
                        header_line "Content-Length"
                          (Py.str (Py.len page)) ]))).
  { unfold head_plan. rewrite Hdir, Hsplit, Hslash, Hidx. cbn [negb].
    unfold listing_plan. now rewrite Hls, Hpage. }
  destruct (GET_written W r h h1 _ _ Hf Hi Hlen Hp Hc Hv P)
    as (h' & E & Hw & Hs & _).
  exists h', (copied page). split; [exact E|].
  split; [exact Hw|]. split; [apply wire_copied|exact Hs].
Qed.

(** X12, in the concrete world: [GET /docs/ HTTP/1.1]. *)
Lemma directory_listing_is_served_witness :
  exists h' bs,
    handle_one_request Demo.world NoCacheHandler
      (Demo.get "GET /docs/ HTTP/1.1") Demo.fresh = Ok tt h'
    /\ wfile h'
       = (wfile Demo.fresh
          ++ HeaderBlock
               [ status_line 200 "OK";
                 header_line "Server" (version_string Demo.world);
                 header_line "Date" (date_time_string Demo.world None);
                 header_line "Content-type" "text/html; charset=utf-8";
                 header_line "Content-Length" (Py.str (Py.len "<ul></ul>"));
                 cache_control_line;
                 crlf ]
          :: bs)%list
    /\ wire bs = "<ul></ul>"
    /\ stderr h'
       = (stderr Demo.fresh ++ [LogRequest "GET /docs/ HTTP/1.1" 200])%list.
Proof.
  apply (directory_listing_is_served Demo.world
           (Demo.get "GET /docs/ HTTP/1.1") Demo.fresh
           (final (parse_request Demo.world NoCacheHandler
                     (Demo.get "GET /docs/ HTTP/1.1") Demo.fresh))
           (mkSplit "" "" "/docs/" "" "") [] "<ul></ul>").
  - reflexivity.
  - left; reflexivity.
  - vm_compute; reflexivity.
  - vm_compute; reflexivity.
  - vm_compute; reflexivity.
  - vm_compute; discriminate.
  - vm_compute; reflexivity.
  - vm_compute; reflexivity.
  - vm_compute; reflexivity.
  - vm_compute; reflexivity.
  - vm_compute; reflexivity.
  - vm_compute; reflexivity.
Defined.

(** X13.  When the directory cannot be listed ([os.listdir] raises
    [OSError]) the answer is 404 with the message
    [No permission to list directory], not 403 or 500; it carries
    [Cache-Control] like every error response. *)
Theorem unlistable_directory_is_404 W r h h1 parts :
  healthy h -> idle h ->
  (65536 <? Py.len (raw_requestline r)) = false ->
  parse_request W NoCacheHandler r h = Ok true h1 ->
  command h1 = Some "GET" \/ command h1 = Some "HEAD" ->
  request_version h1 <> Some "HTTP/0.9" ->
  isdir W (translate_path W (directory h1) (path h1)) = true ->
  urlsplit W (path h1) = Some parts ->
  Py.endswith (url_path parts) "/" = true ->
  find_index W (translate_path W (directory h1) (path h1)) = None ->
  listdir W (translate_path W (directory h1) (path h1)) = None ->
  let message := "No permission to list directory" in
  exists h',
    handle_one_request W NoCacheHandler r h = Ok tt h'
    /\ wfile h'
       = (wfile h
          ++ HeaderBlock
               [ status_line 404 message;
                 header_line "Server" (version_string W);
                 header_line "Date" (date_time_string W None);
                 header_line "Connection" "close";
                 header_line "Content-Type" error_content_type;
                 header_line "Content-Length"
                   (Py.str (Py.len (error_page 404 (Some message) None)));
                 cache_control_line;
                 crlf ]
          :: error_body (command h1) 404 (Some message) None)%list
    /\ stderr h'
       = (stderr h
          ++ [LogError 404 message; LogRequest (request_line r) 404])%list.
Proof.
  intros Hf Hi Hlen Hp Hc Hv Hdir Hsplit Hslash Hidx Hls message.
  assert (P : forall cmd,
            head_plan W (directory h1) (request_line r) cmd (path h1)
              (headers h1)
            = Gives (None,
                     error_effect W (request_line r) cmd 404 (Some message)
                       None)).
  { intros cmd. unfold head_plan. rewrite Hdir, Hsplit, Hslash, Hidx.
    cbn [negb]. unfold listing_plan. now rewrite Hls. }
  destruct Hc as [Hc|Hc]; rewrite Hc.
  - destruct (GET_written W r h h1 _ _ Hf Hi Hlen Hp Hc Hv (P _))
      as (h' & E & Hw & Hs & _).
    exists h'. split; [exact E|]. rewrite app_nil_r in Hw.
    split; [exact Hw|exact Hs].
  - destruct (HEAD_written W r h h1 _ _ Hf Hi Hlen Hp Hc Hv (P _))
      as (h' & E & Hw & Hs & _).
    exists h'. split; [exact E|]. split; [exact Hw|exact Hs].
Qed.

(** X13, in the concrete world: [GET /docs/ HTTP/1.1] where [/srv/docs/]
    cannot be listed. *)
Lemma unlistable_directory_is_404_witness :
  exists h',
    handle_one_request Cases.locked NoCacheHandler
      (Demo.get "GET /docs/ HTTP/1.1") Demo.fresh = Ok tt h'
    /\ wfile h'
       = (wfile Demo.fresh
          ++ HeaderBlock
               [ status_line 404 "No permission to list directory";
                 header_line "Server" (version_string Cases.locked);
                 header_line "Date" (date_time_string Cases.locked None);
                 header_line "Connection" "close";
                 header_line "Content-Type" error_content_type;
                 header_line "Content-Length"
                   (Py.str
                      (Py.len
                         (error_page 404
                            (Some "No permission to list directory") None)));
                 cache_control_line;
                 crlf ]
          :: error_body (Some "GET") 404
               (Some "No permission to list directory") None)%list
    /\ stderr h'
       = (stderr Demo.fresh
          ++ [LogError 404 "No permission to list directory";
              LogRequest "GET /docs/ HTTP/1.1" 404])%list.
Proof.
  apply (unlistable_directory_is_404 Cases.locked
           (Demo.get "GET /docs/ HTTP/1.1") Demo.fresh
           (final (parse_request Cases.locked NoCacheHandler
                     (Demo.get "GET /docs/ HTTP/1.1") Demo.fresh))
           (mkSplit "" "" "/docs/" "" "")).
  - reflexivity.
  - left; reflexivity.
  - vm_compute; reflexivity.
  - vm_compute; reflexivity.
  - left; vm_compute; reflexivity.
  - vm_compute; discriminate.
  - vm_compute; reflexivity.
  - vm_compute; reflexivity.
  - vm_compute; reflexivity.
  - vm_compute; reflexivity.
  - vm_compute; reflexivity.
Defined.

(** ** Conditional requests *)



(** ** HEAD *)





(** ** The status codes *)



(** ** One [Cache-Control] header *)

Lemma error_head_other W code message explain :
  Forall (fun l => names_cache_control l = false)
    (error_head W code message explain).
Proof.
  unfold error_head. destruct (error_with_body code);
    repeat constructor.
Qed.

Lemma file_plan_other W rl cmd hs fspath f e :
  file_plan W rl cmd hs fspath = Gives (f, e) ->
  Forall (fun l => names_cache_control l = false) (front e).
Proof.
  unfold file_plan, not_found.
  destruct (Py.endswith fspath "/");
    [intros [= _ <-]; apply error_head_other|].
  destruct (open_rb W fspath) as [f0| | |]; try discriminate.
  2: intros [= _ <-]; apply error_head_other.
  destruct (not_modified W f0 hs); intros [= _ <-]; repeat constructor.
Qed.

Lemma head_plan_other W d rl cmd p hs f e :
  head_plan W d rl cmd p hs = Gives (f, e) ->
  Forall (fun l => names_cache_control l = false) (front e).
Proof.
  unfold head_plan.
  destruct (isdir W (translate_path W d p)); [|apply file_plan_other].
  destruct (urlsplit W p) as [parts|]; [|discriminate].
  destruct (negb (Py.endswith (url_path parts) "/")).
  { intros [= _ <-]. repeat constructor. }
  destruct (find_index W (translate_path W d p)); [apply file_plan_other|].
  unfold listing_plan.
  destruct (listdir W (translate_path W d p)) as [names|].
  - destruct (listing_html W (translate_path W d p) p names);
      [|discriminate].
    intros [= _ <-]. repeat constructor.
  - intros [= _ <-]. apply error_head_other.
Qed.

Lemma response_other W d r version e :
  response W d r = Some (version, Gives e) ->
  Forall (fun l => names_cache_control l = false) (front e).
Proof.
  unfold response.
  destruct (65536 <? Py.len (raw_requestline r)).
  { intros [= _ <-]. apply error_head_other. }
  destruct (Py.is_empty (raw_requestline r)); [discriminate|].
  destruct (parse_outcome W r) as [|v cmd code message explain|v meth p hs].
  - discriminate.
  - intros [= _ <-]. apply error_head_other.
  - unfold GET_effect, HEAD_effect.
    destruct (String.eqb ("do_" ++ meth) "do_GET").
    { destruct (head_plan W d (request_line r) (Some meth) p hs)
        as [[[source|] e0]|x] eqn:P; [| |discriminate];
        intros [= _ <-]; exact (head_plan_other _ _ _ _ _ _ _ _ P). }
    destruct (String.eqb ("do_" ++ meth) "do_HEAD").
    { destruct (head_plan W d (request_line r) (Some meth) p hs)
        as [[f e0]|x] eqn:P; [|discriminate].
      intros [= _ <-]. exact (head_plan_other _ _ _ _ _ _ _ _ P). }
    intros [= _ <-]. apply error_head_other.
Qed.

Lemma filter_none {A} (f : A -> bool) (l : list A) :
  Forall (fun x => f x = false) l -> filter f l = [].
Proof.
  induction 1 as [|x l Hx _ IH]; [reflexivity|].
  cbn [filter]. now rewrite Hx.
Qed.

(** X19.  The base handler sends no [Cache-Control] header of its own
    with any response (status line, [Server], [Date], [Connection],
    [Content-Type], [Content-Length], [Last-Modified], [Location]), so
    every header block written for a request holds the header exactly
    once: the line of the override. *)
Theorem cache_control_is_sent_once W r h :
  healthy h -> idle h ->
  exists h' out,
    h' = final (handle_one_request W NoCacheHandler r h)
    /\ wfile h' = (wfile h ++ out)%list
    /\ forall ls,
         In (HeaderBlock ls) out ->
         filter names_cache_control ls = [cache_control_line].
Proof.
  intros Hf Hi.
  destruct (answered_written W NoCacheHandler r h Hf Hi)
    as (h' & E & Hw & _).
  rewrite E, final_ends.
  eexists h', _. split; [reflexivity|]. split; [exact Hw|].
  intros ls Hin. unfold written in Hin.
  destruct (response W (directory h) r) as [[version [e|x]]|] eqn:R;
    [|destruct Hin|destruct Hin].
  destruct (response_well_formed _ _ _ _ _ R) as (_ & Hb).
  apply in_app_or in Hin as [Hin|Hin].
  2: now apply no_block_among_bodies in Hin.
  unfold block in Hin.
  destruct (String.eqb version "HTTP/0.9"); [destruct Hin|].
  destruct Hin as [[= <-]|[]].
  rewrite filter_app, (filter_none _ _ (response_other _ _ _ _ _ R)).
  reflexivity.
Qed.

(** X19, in the concrete world: [GET /index.html HTTP/1.1]. *)
Lemma cache_control_is_sent_once_witness :
  exists h' out,
    h' = final (Demo.answer NoCacheHandler
                  (Demo.get "GET /index.html HTTP/1.1"))
    /\ wfile h' = (wfile Demo.fresh ++ out)%list
    /\ forall ls,
         In (HeaderBlock ls) out ->
         filter names_cache_control ls = [cache_control_line].
Proof.
  apply (cache_control_is_sent_once Demo.world
           (Demo.get "GET /index.html HTTP/1.1") Demo.fresh).
  - reflexivity.
  - left; reflexivity.
Defined.

(** ** Request headers *)

Lemma not_modified_headers W f hs1 hs2 :
  headers_find "If-Modified-Since" hs1 = headers_find "If-Modified-Since" hs2 ->
  headers_contains "If-None-Match" hs1 = headers_contains "If-None-Match" hs2 ->
  not_modified W f hs1 = not_modified W f hs2.
Proof.
  intros H1 H2. unfold not_modified, headers_get.
  unfold headers_contains at 1 3. now rewrite H1, H2.
Qed.

Lemma head_plan_headers W d rl cmd p hs1 hs2 :
  headers_find "If-Modified-Since" hs1 = headers_find "If-Modified-Since" hs2 ->
  headers_contains "If-None-Match" hs1 = headers_contains "If-None-Match" hs2 ->
  head_plan W d rl cmd p hs1 = head_plan W d rl cmd p hs2.
Proof.
  intros H1 H2.
  assert (F : forall fspath,
             file_plan W rl cmd hs1 fspath = file_plan W rl cmd hs2 fspath).
  { intros fspath. unfold file_plan.
    destruct (Py.endswith fspath "/"); [reflexivity|].
    destruct (open_rb W fspath) as [f| | |]; try reflexivity.
    now rewrite (not_modified_headers W f hs1 hs2 H1 H2). }
  unfold head_plan.
  destruct (isdir W (translate_path W d p)); [|apply F].
  destruct (urlsplit W p) as [parts|]; [|reflexivity].
  destruct (negb (Py.endswith (url_path parts) "/")); [reflexivity|].
  destruct (find_index W (translate_path W d p)); [apply F|reflexivity].
Qed.

Lemma response_headers W d line hs1 hs2 :
  headers_find "If-Modified-Since" hs1 = headers_find "If-Modified-Since" hs2 ->
  headers_contains "If-None-Match" hs1 = headers_contains "If-None-Match" hs2 ->
  response W d (mkRequest line (Headers hs1))
  = response W d (mkRequest line (Headers hs2)).
Proof.
  intros H1 H2. unfold response, parse_outcome, request_line.
  cbn [raw_requestline raw_headers].
  destruct (65536 <? Py.len line); [reflexivity|].
  destruct (Py.is_empty line); [reflexivity|].
  destruct (length (Py.split (Py.rstrip Py.is_crlf line)) =? 0)%nat;
    [reflexivity|].
  destruct (version_outcome W (Py.split (Py.rstrip Py.is_crlf line)))
    as [[c m]|version]; [reflexivity|].
  destruct (negb _); [reflexivity|].
  destruct (_ && _); [reflexivity|].
  unfold GET_effect, HEAD_effect.
  now rewrite (head_plan_headers W d _ _ _ hs1 hs2 H1 H2).
Qed.

(** X17.  Of the request headers the handler reads [If-Modified-Since]
    and whether there is an [If-None-Match], and nothing else: two
    requests with the same request line that agree on these two are
    handled alike: the same exception leaves the handler or none, the
    same chunks are written and the same lines logged, and the
    connection is closed after both.  So [Range], [Expect] and
    [Connection: keep-alive] change nothing. *)
Theorem other_request_headers_are_ignored W line hs1 hs2 h :
  healthy h -> idle h ->
  headers_find "If-Modified-Since" hs1 = headers_find "If-Modified-Since" hs2 ->
  headers_contains "If-None-Match" hs1 = headers_contains "If-None-Match" hs2 ->
  exists h1 h2,
    h1 = final (handle_one_request W NoCacheHandler
                  (mkRequest line (Headers hs1)) h)
    /\ h2 = final (handle_one_request W NoCacheHandler
                     (mkRequest line (Headers hs2)) h)
    /\ raised (handle_one_request W NoCacheHandler
                 (mkRequest line (Headers hs1)) h)
       = raised (handle_one_request W NoCacheHandler
                   (mkRequest line (Headers hs2)) h)
    /\ wfile h1 = wfile h2
    /\ stderr h1 = stderr h2
    /\ close_connection h1 = true
    /\ close_connection h2 = true.
Proof.
  intros Hf Hi H1 H2.
  destruct (answered_written W NoCacheHandler
              (mkRequest line (Headers hs1)) h Hf Hi)
    as (h1 & E1 & Hw1 & Hs1 & Hc1 & _).
  destruct (answered_written W NoCacheHandler
              (mkRequest line (Headers hs2)) h Hf Hi)
    as (h2 & E2 & Hw2 & Hs2 & Hc2 & _).
  rewrite (response_headers W (directory h) line hs1 hs2 H1 H2)
    in E1, Hw1, Hs1.
  rewrite E1, E2, !raised_ends, !final_ends.
  exists h1, h2.
  repeat split; try assumption; congruence.
Qed.

(** X17, in the concrete world: [GET /index.html HTTP/1.1] with and
    without [Range], [Expect] and [Connection]. *)
Lemma other_request_headers_are_ignored_witness :
  exists h1 h2,
    h1 = final (handle_one_request Demo.world NoCacheHandler Cases.ranged
                  Demo.fresh)
    /\ h2 = final (handle_one_request Demo.world NoCacheHandler
                     (Demo.get "GET /index.html HTTP/1.1") Demo.fresh)
    /\ raised (handle_one_request Demo.world NoCacheHandler Cases.ranged
                 Demo.fresh)
       = raised (handle_one_request Demo.world NoCacheHandler
                   (Demo.get "GET /index.html HTTP/1.1") Demo.fresh)
    /\ wfile h1 = wfile h2
    /\ stderr h1 = stderr h2
    /\ close_connection h1 = true
    /\ close_connection h2 = true.
Proof.
  apply (other_request_headers_are_ignored Demo.world
           (Demo.line "GET /index.html HTTP/1.1")
           [("Range", "bytes=0-3"); ("Expect", "100-continue");
            ("Connection", "keep-alive")]
           [] Demo.fresh).
  - reflexivity.
  - left; reflexivity.
  - vm_compute; reflexivity.
  - vm_compute; reflexivity.
Defined.

(** X6.  A header section with an over-long line or with too many
    fields is answered 431, with the error [http.client] gave as the
    explanation; the version of the request line is in force by then, so
    the response has its header block, [Cache-Control] included. *)
Theorem oversized_headers_are_431 W r h version err :
  healthy h -> idle h ->
  (65536 <? Py.len (raw_requestline r)) = false ->
  (2 <=? length (Py.split (request_line r)))%nat = true ->
  (length (Py.split (request_line r)) <=? 3)%nat = true ->
  version_outcome W (Py.split (request_line r)) = inr version ->
  version <> "HTTP/0.9" ->
  raw_headers r = LineTooLong err \/ raw_headers r = TooManyHeaders err ->
  let message :=
    match raw_headers r with
    | TooManyHeaders _ => "Too many headers"
    | _ => "Line too long"
    end in
  exists h',
    handle_one_request W NoCacheHandler r h = Ok tt h'
    /\ wfile h'
       = (wfile h
          ++ HeaderBlock
               [ status_line 431 message;
                 header_line "Server" (version_string W);
                 header_line "Date" (date_time_string W None);
                 header_line "Connection" "close";
                 header_line "Content-Type" error_content_type;
                 header_line "Content-Length"
                   (Py.str (Py.len (error_page 431 (Some message) (Some err))));
                 cache_control_line;
                 crlf ]
          :: error_body (Some (nth 0 (Py.split (request_line r)) "")) 431
               (Some message) (Some err))%list
    /\ stderr h'
       = (stderr h
          ++ [LogError 431 message; LogRequest (request_line r) 431])%list.
Proof.
  intros Hf Hi Hlen H2 H3 Hver Hv Hh message.
  destruct (answered_written W NoCacheHandler r h Hf Hi)
    as (h' & E & Hw & Hs & _).
  assert (R : response W (directory h) r
              = Some (version,
                      Gives
                        (error_effect W (request_line r)
                           (Some (nth 0 (Py.split (request_line r)) "")) 431
                           (Some message) (Some err)))).
  { unfold response. rewrite Hlen, words_not_empty.
    2: { intros E0. rewrite E0 in H2. discriminate. }
    unfold parse_outcome. rewrite Hver, H2, H3.
    destruct (Py.split (request_line r)) as [|w [|w' ws]] eqn:Ews;
      [discriminate|discriminate|].
    cbn [length Nat.eqb negb andb].
    assert (V3 : (length ws =? 0)%nat = false).
    { unfold version_outcome in Hver. cbn [length Nat.leb] in Hver.
      destruct ws as [|w3 ws]; [|reflexivity].
      cbn in Hver. injection Hver as <-. now elim Hv. }
    rewrite V3. cbn [andb]. subst message.
    destruct Hh as [Hh|Hh]; rewrite Hh; reflexivity. }
  rewrite R in E, Hw, Hs. exists h'. split; [exact E|].
  unfold written in Hw.
  apply String.eqb_neq in Hv. rewrite Hv in Hw.
  split; [exact Hw|exact Hs].
Qed.

(** X6, in the concrete world: [GET /index.html HTTP/1.1] with too many
    header fields. *)
Lemma oversized_headers_are_431_witness :
  exists h',
    handle_one_request Demo.world NoCacheHandler
      (mkRequest (Demo.line "GET /index.html HTTP/1.1")
         (TooManyHeaders "got more than 100 headers"))
      Demo.fresh = Ok tt h'
    /\ wfile h'
       = (wfile Demo.fresh
          ++ HeaderBlock
               [ status_line 431 "Too many headers";
                 header_line "Server" (version_string Demo.world);
                 header_line "Date" (date_time_string Demo.world None);
                 header_line "Connection" "close";
                 header_line "Content-Type" error_content_type;
                 header_line "Content-Length"
                   (Py.str
                      (Py.len
                         (error_page 431 (Some "Too many headers")
                            (Some "got more than 100 headers"))));
                 cache_control_line;
                 crlf ]
          :: error_body (Some "GET") 431 (Some "Too many headers")
               (Some "got more than 100 headers"))%list
    /\ stderr h'
       = (stderr Demo.fresh
          ++ [LogError 431 "Too many headers";
              LogRequest "GET /index.html HTTP/1.1" 431])%list.
Proof.
  apply (oversized_headers_are_431 Demo.world
           (mkRequest (Demo.line "GET /index.html HTTP/1.1")
              (TooManyHeaders "got more than 100 headers"))
           Demo.fresh "HTTP/1.1" "got more than 100 headers").
  - reflexivity.
  - left; reflexivity.
  - vm_compute; reflexivity.
  - vm_compute; reflexivity.
  - vm_compute; reflexivity.
  - vm_compute; reflexivity.
  - discriminate.
  - right; reflexivity.
Defined.

(** ** The path *)

Lemma lstrip_slash_not_absolute p :
  Py.startswith (Py.lstrip Py.is_slash p) "/" = false.
Proof.
  induction p as [|c p IH]; [reflexivity|].
  cbn [Py.lstrip]. destruct (Py.is_slash c) eqn:E; [exact IH|].
  unfold Py.startswith.
  change (String.prefix "/" (String c p))
    with (match ascii_dec "/" c with
          | left _ => String.prefix "" p
          | right _ => false
          end).
  destruct (ascii_dec "/" c) as [<-|]; [discriminate|reflexivity].
Qed.

Lemma path_of_single_slash p : Py.startswith (path_of p) "//" = false.
Proof.
  unfold path_of. destruct (Py.startswith p "//") eqn:E; [|exact E].
  pose proof (lstrip_slash_not_absolute p) as H.
  unfold Py.startswith in *.
  destruct (Py.lstrip Py.is_slash p) as [|c q]; [reflexivity|].
  change (String.prefix "//" ("/" ++ String c q))
    with (String.prefix "/" (String c q)).
  exact H.
Qed.

(** X8.  The path of an accepted request never opens with two slashes:
    [parse_request] reduces a run of leading slashes to one, so that the
    [Location] of a redirect cannot name another host. *)
Theorem accepted_path_has_one_leading_slash W cls r h h1 :
  healthy h ->
  parse_request W cls r h = Ok true h1 ->
  Py.startswith (path h1) "//" = false
  /\ path h1 = path_of (nth 1 (Py.split (request_line r)) "").
Proof.
  intros Hf Hp.
  destruct (parse_request_accepts W cls r h h1 Hf Hp) as (v & _ & Ho & _ & _).
  assert (P : path h1 = path_of (nth 1 (Py.split (request_line r)) "")).
  { unfold parse_outcome in Ho.
    destruct (length (Py.split (request_line r)) =? 0)%nat; [discriminate|].
    destruct (version_outcome W (Py.split (request_line r)))
      as [[c m]|version]; [discriminate|].
    destruct (negb _); [discriminate|].
    destruct (_ && _); [discriminate|].
    destruct (raw_headers r); [|discriminate|discriminate].
    now injection Ho as _ _ <- _. }
  split; [|exact P]. rewrite P. apply path_of_single_slash.
Qed.

(** X8, in the concrete world: [GET //example.org/x HTTP/1.1]. *)
Lemma accepted_path_has_one_leading_slash_witness :
  Py.startswith
    (path (final (parse_request Demo.world NoCacheHandler
                    (Demo.get "GET //example.org/x HTTP/1.1") Demo.fresh)))
    "//" = false
  /\ path (final (parse_request Demo.world NoCacheHandler
                    (Demo.get "GET //example.org/x HTTP/1.1") Demo.fresh))
     = path_of
         (nth 1
            (Py.split
               (request_line (Demo.get "GET //example.org/x HTTP/1.1"))) "").
Proof.
  apply (accepted_path_has_one_leading_slash Demo.world NoCacheHandler
           (Demo.get "GET //example.org/x HTTP/1.1") Demo.fresh).
  - reflexivity.
  - vm_compute; reflexivity.
Defined.

(** X9.  Whatever [unquote] and [normpath] return, [translate_path]
    joins to the served directory only plain names of the path: not
    empty, without a slash, and neither [.] nor [..]; a slash is put at
    the end when the path before unquoting, query and fragment cut off,
    ends in one. *)
Theorem translate_path_joins_plain_names W d p :
  exists names,
    Forall (fun w => plain_word w = true) names
    /\ translate_path W d p
       = fold_left Py.path_join names d
         ++ (if Py.endswith
                  (Py.rstrip Py.isspace (Py.before "#" (Py.before "?" p))) "/"
             then "/" else "").
Proof.
  unfold translate_path.
  set (words := filter _ _).
  exists (filter plain_word words). split.
  - apply Forall_forall. intros w Hin. now apply filter_In in Hin.
  - assert (He : Forall (fun w => Py.is_empty w = false) words).
    { apply Forall_forall. intros w Hin. apply filter_In in Hin as [_ H].
      now apply negb_true_iff in H. }
    rewrite (fold_translate_step words He).
    destruct (Py.endswith _ "/"); [reflexivity|].
    induction (fold_left _ _ _) as [|c s IH]; [reflexivity|].
    cbn. now rewrite <- IH.
Qed.

(** ** A connection whose peer is gone *)















Section Stops.

Variable W : World.
Variable cls : handler_class.








End Stops.



(** ** Short request lines, and a file named like a directory *)

(** X5.  A request line of one word, or of two words the first of which
    is not GET, is refused under HTTP/0.9: the client gets the 400 page
    without status line or header (so without [Cache-Control]); [HEAD /x]
    is such a line. *)
Theorem short_request_line_gets_bare_400 W r h w rest :
  healthy h -> idle h ->
  (65536 <? Py.len (raw_requestline r)) = false ->
  Py.split (request_line r) = w :: rest ->
  rest = [] \/ (exists p, rest = [p] /\ w <> "GET") ->
  let message :=
    match rest with
    | [] => "Bad request syntax (" ++ py_repr W (request_line r) ++ ")"
    | _ :: _ => "Bad HTTP/0.9 request type (" ++ py_repr W w ++ ")"
    end in
  exists h',
    handle_one_request W NoCacheHandler r h = Ok tt h'
    /\ wfile h' = (wfile h ++ [Body (error_page 400 (Some message) None)])%list
    /\ stderr h'
       = (stderr h
          ++ [LogError 400 message; LogRequest (request_line r) 400])%list
    /\ close_connection h' = true.
Proof.
  intros Hf Hi Hlen Hw Hr message.
  destruct (answered_written W NoCacheHandler r h Hf Hi)
    as (h' & E & Hwr & Hs & Hc & _).
  assert (R : response W (directory h) r
              = Some (default_request_version,
                      Gives (error_effect W (request_line r) None 400
                               (Some message) None))).
  { unfold response. rewrite Hlen, words_not_empty.
    2: { rewrite Hw. discriminate. }
    unfold parse_outcome, version_outcome. rewrite Hw. subst message.
    destruct Hr as [->|(p & -> & Hg)]; [reflexivity|].
    apply String.eqb_neq in Hg. cbn [length Nat.eqb Nat.leb nth negb andb].
    now rewrite Hg. }
  rewrite R in E, Hwr, Hs. exists h'. split; [exact E|].
  split; [exact Hwr|]. split; [exact Hs|exact Hc].
Qed.

(** X5, in the concrete world: [HEAD /index.html]. *)
Lemma short_request_line_gets_bare_400_witness :
  exists h',
    handle_one_request Demo.world NoCacheHandler
      (Demo.get "HEAD /index.html") Demo.fresh = Ok tt h'
    /\ wfile h'
       = (wfile Demo.fresh
          ++ [Body (error_page 400
                      (Some "Bad HTTP/0.9 request type ('HEAD')") None)])%list
    /\ stderr h'
       = (stderr Demo.fresh
          ++ [LogError 400 "Bad HTTP/0.9 request type ('HEAD')";
              LogRequest "HEAD /index.html" 400])%list
    /\ close_connection h' = true.
Proof.
  apply (short_request_line_gets_bare_400 Demo.world
           (Demo.get "HEAD /index.html") Demo.fresh "HEAD" ["/index.html"]).
  - reflexivity.
  - left; reflexivity.
  - vm_compute; reflexivity.
  - vm_compute; reflexivity.
  - right. exists "/index.html". split; [reflexivity|discriminate].
Defined.

(** X14.  A path that ends in a slash and does not name a directory is
    answered 404 without an attempt to open it, also when the path
    without the slash is a file that would be served. *)
Theorem file_path_with_slash_is_404 W r h h1 :
  healthy h -> idle h ->
  (65536 <? Py.len (raw_requestline r)) = false ->
  parse_request W NoCacheHandler r h = Ok true h1 ->
  command h1 = Some "GET" \/ command h1 = Some "HEAD" ->
  request_version h1 <> Some "HTTP/0.9" ->
  isdir W (translate_path W (directory h1) (path h1)) = false ->
  Py.endswith (translate_path W (directory h1) (path h1)) "/" = true ->
  exists h',
    handle_one_request W NoCacheHandler r h = Ok tt h'
    /\ wfile h'
       = (wfile h
          ++ HeaderBlock
               [ status_line 404 "File not found";
                 header_line "Server" (version_string W);
                 header_line "Date" (date_time_string W None);
                 header_line "Connection" "close";
                 header_line "Content-Type" error_content_type;
                 header_line "Content-Length"
                   (Py.str
                      (Py.len (error_page 404 (Some "File not found") None)));
                 cache_control_line;
                 crlf ]
          :: error_body (command h1) 404 (Some "File not found") None)%list
    /\ stderr h'
       = (stderr h
          ++ [LogError 404 "File not found";
              LogRequest (request_line r) 404])%list.
Proof.
  intros Hf Hi Hlen Hp Hc Hv Hdir Hslash.
  assert (P : forall cmd,
            head_plan W (directory h1) (request_line r) cmd (path h1)
              (headers h1)
            = Gives (None, not_found W (request_line r) cmd)).
  { intros cmd. unfold head_plan. rewrite Hdir. unfold file_plan.
    now rewrite Hslash. }
  destruct Hc as [Hc|Hc]; rewrite Hc.
  - destruct (GET_written W r h h1 _ _ Hf Hi Hlen Hp Hc Hv (P _))
      as (h' & E & Hw & Hs & _).
    exists h'. split; [exact E|]. rewrite app_nil_r in Hw.
    split; [exact Hw|exact Hs].
  - destruct (HEAD_written W r h h1 _ _ Hf Hi Hlen Hp Hc Hv (P _))
      as (h' & E & Hw & Hs & _).
    exists h'. split; [exact E|]. split; [exact Hw|exact Hs].
Qed.

(** X14, in the concrete world: [GET /index.html/ HTTP/1.1]. *)
Lemma file_path_with_slash_is_404_witness :
  exists h',
    handle_one_request Demo.world NoCacheHandler
      (Demo.get "GET /index.html/ HTTP/1.1") Demo.fresh = Ok tt h'
    /\ wfile h'
       = (wfile Demo.fresh
          ++ HeaderBlock
               [ status_line 404 "File not found";
                 header_line "Server" (version_string Demo.world);
                 header_line "Date" (date_time_string Demo.world None);
                 header_line "Connection" "close";
                 header_line "Content-Type" error_content_type;
                 header_line "Content-Length"
                   (Py.str
                      (Py.len (error_page 404 (Some "File not found") None)));
                 cache_control_line;
                 crlf ]
          :: error_body (Some "GET") 404 (Some "File not found") None)%list
    /\ stderr h'
       = (stderr Demo.fresh
          ++ [LogError 404 "File not found";
              LogRequest "GET /index.html/ HTTP/1.1" 404])%list.
Proof.
  apply (file_path_with_slash_is_404 Demo.world
           (Demo.get "GET /index.html/ HTTP/1.1") Demo.fresh
           (final (parse_request Demo.world NoCacheHandler
                     (Demo.get "GET /index.html/ HTTP/1.1") Demo.fresh))).
  - reflexivity.
  - left; reflexivity.
  - vm_compute; reflexivity.
  - vm_compute; reflexivity.
  - left; vm_compute; reflexivity.
  - vm_compute; discriminate.
  - vm_compute; reflexivity.
  - vm_compute; reflexivity.
Defined.

(** ** Library calls that raise *)

(** X21.  GET or HEAD of a path that is no directory, does not end in a
    slash, and on which [open] raises [ValueError] (a NUL byte in the
    path) or [UnicodeEncodeError] (a lone surrogate): [send_head]
    catches [OSError] only, so the exception leaves
    [handle_one_request], with either class of handler and under any
    request version; nothing is written and nothing is logged. *)
Theorem unopenable_path_raises W cls r h h1 x :
  healthy h -> idle h ->
  (65536 <? Py.len (raw_requestline r)) = false ->
  parse_request W cls r h = Ok true h1 ->
  command h1 = Some "GET" \/ command h1 = Some "HEAD" ->
  isdir W (translate_path W (directory h1) (path h1)) = false ->
  Py.endswith (translate_path W (directory h1) (path h1)) "/" = false ->
  (open_rb W (translate_path W (directory h1) (path h1)) = OpenValueError
   /\ x = ValueError)
  \/ (open_rb W (translate_path W (directory h1) (path h1))
      = OpenUnicodeEncodeError
      /\ x = UnicodeEncodeError) ->
  exists h',
    handle_one_request W cls r h = Raise x h'
    /\ wfile h' = wfile h
    /\ stderr h' = stderr h.
Proof.
  intros Hf Hi Hlen Hp Hc Hdir Hslash Hopen.
  assert (P : forall cmd,
            head_plan W (directory h1) (request_line r) cmd (path h1)
              (headers h1) = Throws x).
  { intros cmd. unfold head_plan. rewrite Hdir. unfold file_plan.
    rewrite Hslash. now destruct Hopen as [[-> ->]|[-> ->]]. }
  destruct Hc as [Hc|Hc];
    apply (accepted_escapes W cls r h h1 _ x Hf Hi Hlen Hp Hc).
  - rewrite method_effect_GET. unfold GET_effect. now rewrite P.
  - rewrite method_effect_HEAD. unfold HEAD_effect. now rewrite P.
Qed.

(** X21, in the concrete world: [GET /%00 HTTP/1.0]. *)
Lemma unopenable_path_raises_witness :
  exists h',
    handle_one_request Demo.world NoCacheHandler
      (Demo.get "GET /%00 HTTP/1.0") Demo.fresh = Raise ValueError h'
    /\ wfile h' = wfile Demo.fresh
    /\ stderr h' = stderr Demo.fresh.
Proof.
  apply (unopenable_path_raises Demo.world NoCacheHandler
           (Demo.get "GET /%00 HTTP/1.0") Demo.fresh
           (final (parse_request Demo.world NoCacheHandler
                     (Demo.get "GET /%00 HTTP/1.0") Demo.fresh))
           ValueError).
  - reflexivity.
  - left; reflexivity.
  - vm_compute; reflexivity.
  - vm_compute; reflexivity.
  - left; vm_compute; reflexivity.
  - vm_compute; reflexivity.
  - vm_compute; reflexivity.
  - left; split; vm_compute; reflexivity.
Defined.

(** X22.  GET or HEAD of a path that translates to a directory and that
    [urlsplit] refuses ([ValueError]: a bracket in the host part):
    nothing catches the exception, it leaves [handle_one_request];
    nothing is written and nothing is logged. *)
Theorem unsplittable_directory_url_raises W cls r h h1 :
  healthy h -> idle h ->
  (65536 <? Py.len (raw_requestline r)) = false ->
  parse_request W cls r h = Ok true h1 ->
  command h1 = Some "GET" \/ command h1 = Some "HEAD" ->
  isdir W (translate_path W (directory h1) (path h1)) = true ->
  urlsplit W (path h1) = None ->
  exists h',
    handle_one_request W cls r h = Raise ValueError h'
    /\ wfile h' = wfile h
    /\ stderr h' = stderr h.
Proof.
  intros Hf Hi Hlen Hp Hc Hdir Hsplit.
  assert (P : forall cmd,
            head_plan W (directory h1) (request_line r) cmd (path h1)
              (headers h1) = Throws ValueError).
  { intros cmd. unfold head_plan. now rewrite Hdir, Hsplit. }
  destruct Hc as [Hc|Hc];
    apply (accepted_escapes W cls r h h1 _ ValueError Hf Hi Hlen Hp Hc).
  - rewrite method_effect_GET. unfold GET_effect. now rewrite P.
  - rewrite method_effect_HEAD. unfold HEAD_effect. now rewrite P.
Qed.

(** X22, in the concrete world: [GET x://[/../.. HTTP/1.0], whose path
    [normpath] reduces to the served directory. *)
Lemma unsplittable_directory_url_raises_witness :
  exists h',
    handle_one_request Demo.world NoCacheHandler
      (Demo.get "GET x://[/../.. HTTP/1.0") Demo.fresh = Raise ValueError h'
    /\ wfile h' = wfile Demo.fresh
    /\ stderr h' = stderr Demo.fresh.
Proof.
  apply (unsplittable_directory_url_raises Demo.world NoCacheHandler
           (Demo.get "GET x://[/../.. HTTP/1.0") Demo.fresh
           (final (parse_request Demo.world NoCacheHandler
                     (Demo.get "GET x://[/../.. HTTP/1.0") Demo.fresh))).
  - reflexivity.
  - left; reflexivity.
  - vm_compute; reflexivity.
  - vm_compute; reflexivity.
  - left; vm_compute; reflexivity.
  - vm_compute; reflexivity.
  - vm_compute; reflexivity.
Defined.

(** X23.  GET or HEAD of a directory (URL path closed by a slash)
    without index file whose listing cannot be encoded (a lone surrogate
    in the displayed path or in a name, [UnicodeEncodeError]): the page
    is encoded before [send_response], so the exception leaves
    [handle_one_request] with nothing written and nothing logged. *)
Theorem unencodable_listing_raises W cls r h h1 parts names :
  healthy h -> idle h ->
  (65536 <? Py.len (raw_requestline r)) = false ->
  parse_request W cls r h = Ok true h1 ->
  command h1 = Some "GET" \/ command h1 = Some "HEAD" ->
  isdir W (translate_path W (directory h1) (path h1)) = true ->
  urlsplit W (path h1) = Some parts ->
  Py.endswith (url_path parts) "/" = true ->
  find_index W (translate_path W (directory h1) (path h1)) = None ->
  listdir W (translate_path W (directory h1) (path h1)) = Some names ->
  listing_html W (translate_path W (directory h1) (path h1)) (path h1) names
  = None ->
  exists h',
    handle_one_request W cls r h = Raise UnicodeEncodeError h'
    /\ wfile h' = wfile h
    /\ stderr h' = stderr h.
Proof.
  intros Hf Hi Hlen Hp Hc Hdir Hsplit Hslash Hidx Hls Hpage.
  assert (P : forall cmd,
            head_plan W (directory h1) (request_line r) cmd (path h1)
              (headers h1) = Throws UnicodeEncodeError).
  { intros cmd. unfold head_plan. rewrite Hdir, Hsplit, Hslash, Hidx.
    cbn [negb]. unfold listing_plan. now rewrite Hls, Hpage. }
  destruct Hc as [Hc|Hc];
    apply (accepted_escapes W cls r h h1 _ UnicodeEncodeError
             Hf Hi Hlen Hp Hc).
  - rewrite method_effect_GET. unfold GET_effect. now rewrite P.
  - rewrite method_effect_HEAD. unfold HEAD_effect. now rewrite P.
Qed.

(** X23, in the concrete world: [GET /docs/?%ED%A0%80 HTTP/1.0]. *)
Lemma unencodable_listing_raises_witness :
  exists h',
    handle_one_request Demo.world NoCacheHandler
      (Demo.get "GET /docs/?%ED%A0%80 HTTP/1.0") Demo.fresh
    = Raise UnicodeEncodeError h'
    /\ wfile h' = wfile Demo.fresh
    /\ stderr h' = stderr Demo.fresh.
Proof.
  apply (unencodable_listing_raises Demo.world NoCacheHandler
           (Demo.get "GET /docs/?%ED%A0%80 HTTP/1.0") Demo.fresh
           (final (parse_request Demo.world NoCacheHandler
                     (Demo.get "GET /docs/?%ED%A0%80 HTTP/1.0") Demo.fresh))
           (mkSplit "" "" "/docs/" "%ED%A0%80" "") []).
  - reflexivity.
  - left; reflexivity.
  - vm_compute; reflexivity.
  - vm_compute; reflexivity.
  - left; vm_compute; reflexivity.
  - vm_compute; reflexivity.
  - vm_compute; reflexivity.
  - vm_compute; reflexivity.
  - vm_compute; reflexivity.
  - vm_compute; reflexivity.
  - vm_compute; reflexivity.
Defined.
